(** * excel-to-json: the row normalization pipeline and the sheet selection

    A shallow embedding of [src/excel-to-json.js]: [toCamelCase],
    [processSheetData] and [convertExcelToJson], together with the
    ECMAScript built-ins they call ([String.prototype.trim], [replace],
    [split], [Date.prototype.toISOString], ordinary-object property order),
    and the properties the specification states about them; then
    [saveJsonFile], [main] and [quickConvert] with what they print and
    write, and further properties of the whole. *)

From Stdlib Require Import List ZArith NArith Lia Bool String Ascii Decimal.
Import ListNotations.

Set Implicit Arguments.
Open Scope list_scope.
Open Scope N_scope.

(* ================================================================= *)
(** ** JavaScript strings *)

(** A JavaScript string is a finite sequence of UTF-16 code units. *)
Definition jsstring := list N.

(** The code units of an ASCII literal. *)
Definition str (s : string) : jsstring :=
  map N_of_ascii (list_ascii_of_string s).

Arguments str s%_string.

Definition str_eqb (a b : jsstring) : bool :=
  if list_eq_dec N.eq_dec a b then true else false.

(** [word.length > 0], and the truthiness of a string ([!cleanKey] is its
    negation). *)
Definition nonEmpty (s : jsstring) : bool :=
  match s with [] => false | _ :: _ => true end.

(** The code units [\s] matches and [trim] strips: ECMAScript's WhiteSpace
    and LineTerminator productions (TAB, LF, VT, FF, CR, SP, NBSP, U+1680,
    U+2000..U+200A, LS, PS, U+202F, U+205F, U+3000, U+FEFF). *)
Definition isWhiteSpace (c : N) : bool :=
  ((9 <=? c) && (c <=? 13)) || (c =? 32) || (c =? 160) || (c =? 5760)
  || ((8192 <=? c) && (c <=? 8202)) || (c =? 8232) || (c =? 8233)
  || (c =? 8239) || (c =? 8287) || (c =? 12288) || (c =? 65279).

(** The character class [[\s\-_\.]] of the split in [toCamelCase]. *)
Definition isSeparator (c : N) : bool :=
  isWhiteSpace c || (c =? 45) || (c =? 95) || (c =? 46).

Definition SPACE : N := 32.

(** [String.prototype.trim]: white space is removed from both ends. *)
Fixpoint trimStart (s : jsstring) : jsstring :=
  match s with
  | [] => []
  | c :: s' => if isWhiteSpace c then trimStart s' else s
  end.

Fixpoint trimEnd (s : jsstring) : jsstring :=
  match s with
  | [] => []
  | c :: s' =>
      match trimEnd s' with
      | [] => if isWhiteSpace c then [] else [c]
      | t => c :: t
      end
  end.

Definition trim (s : jsstring) : jsstring := trimEnd (trimStart s).

(** [s.replace(/\s+/g, " ")]: every maximal run of white space becomes one
    SPACE.  [inRun] says that the previous code unit belonged to the match
    being consumed. *)
Fixpoint collapseFrom (inRun : bool) (s : jsstring) : jsstring :=
  match s with
  | [] => []
  | c :: s' =>
      if isWhiteSpace c
      then (if inRun then collapseFrom true s' else SPACE :: collapseFrom true s')
      else c :: collapseFrom false s'
  end.

Definition collapseSpaces (s : jsstring) : jsstring := collapseFrom false s.

(** [s.split(/[\s\-_\.]+/)]: the substrings between the maximal runs of
    separators, the possibly empty first and last ones included; the empty
    string gives one empty substring.  [cur] is the substring begun at the
    end of the last match, [inRun] says the scan is inside a match. *)
Fixpoint splitFrom (sep : N -> bool) (inRun : bool) (cur s : jsstring)
  : list jsstring :=
  match s with
  | [] => [cur]
  | c :: s' =>
      if sep c
      then (if inRun then splitFrom sep true [] s'
            else cur :: splitFrom sep true [] s')
      else splitFrom sep false (cur ++ [c]) s'
  end.

Definition splitRuns (sep : N -> bool) (s : jsstring) : list jsstring :=
  splitFrom sep false [] s.

(** [s.split("T")] for a one-code-unit separator: every occurrence cuts. *)
Fixpoint splitAt (sep : N) (cur s : jsstring) : list jsstring :=
  match s with
  | [] => [cur]
  | c :: s' =>
      if c =? sep then cur :: splitAt sep [] s'
      else splitAt sep (cur ++ [c]) s'
  end.

(** [words.join(sep)]. *)
Fixpoint join (sep : jsstring) (ws : list jsstring) : jsstring :=
  match ws with
  | [] => []
  | [w] => w
  | w :: ws' => w ++ sep ++ join sep ws'
  end.

(** [xs.map((x, index) => f(x, index))]. *)
Fixpoint mapiFrom {A B} (f : A -> nat -> B) (i : nat) (xs : list A) : list B :=
  match xs with
  | [] => []
  | x :: xs' => f x i :: mapiFrom f (S i) xs'
  end.

Definition mapi {A B} (f : A -> nat -> B) (xs : list A) : list B :=
  mapiFrom f 0 xs.

(** Decimal digits: the last digit of [d], and [x] zero-padded to a fixed
    width (its low digits, when it has more). *)
Definition digit (d : Z) : N := 48 + Z.to_N (d mod 10)%Z.

Definition pad2 (x : Z) : jsstring := [digit (x / 10)%Z; digit x].
Definition pad3 (x : Z) : jsstring := digit (x / 100)%Z :: pad2 x.
Definition pad4 (x : Z) : jsstring := digit (x / 1000)%Z :: pad3 x.
Definition pad6 (x : Z) : jsstring :=
  digit (x / 100000)%Z :: digit (x / 10000)%Z :: pad4 x.

Fixpoint uintCodes (u : Decimal.uint) : jsstring :=
  match u with
  | Nil => []
  | D0 u => 48 :: uintCodes u
  | D1 u => 49 :: uintCodes u
  | D2 u => 50 :: uintCodes u
  | D3 u => 51 :: uintCodes u
  | D4 u => 52 :: uintCodes u
  | D5 u => 53 :: uintCodes u
  | D6 u => 54 :: uintCodes u
  | D7 u => 55 :: uintCodes u
  | D8 u => 56 :: uintCodes u
  | D9 u => 57 :: uintCodes u
  end.

(** [String(n)] for a length. *)
Definition natToString (n : nat) : jsstring := uintCodes (Nat.to_uint n).

Definition isDigit (c : N) : bool := (48 <=? c) && (c <=? 57).

(** The ASCII part of [toLowerCase] and [toUpperCase]: on a string of ASCII
    code units the Unicode case conversions are exactly these. *)
Definition isAscii (c : N) : bool := c <? 128.

Definition asciiLower (s : jsstring) : jsstring :=
  map (fun c => if (65 <=? c) && (c <=? 90) then c + 32 else c) s.

Definition asciiUpper (s : jsstring) : jsstring :=
  map (fun c => if (97 <=? c) && (c <=? 122) then c - 32 else c) s.

(* ================================================================= *)
(** ** Dates: ECMAScript's time values and [toISOString] *)

Module Calendar.
Open Scope Z_scope.

Definition msPerDay : Z := 86400000.

Definition Day (t : Z) : Z := t / msPerDay.

Definition DaysInYear (y : Z) : Z :=
  if negb (y mod 4 =? 0) then 365
  else if negb (y mod 100 =? 0) then 366
  else if negb (y mod 400 =? 0) then 365
  else 366.

Definition DayFromYear (y : Z) : Z :=
  365 * (y - 1970) + (y - 1969) / 4 - (y - 1901) / 100 + (y - 1601) / 400.

(** The largest [y] with [DayFromYear y <= Day t]: the mean year length
    gives an estimate which is off by at most one ([YearFromTime_spec]). *)
Definition YearFromTime (t : Z) : Z :=
  let d := Day t in
  let y := 1970 + (400 * d) / 146097 in
  if d <? DayFromYear y then y - 1
  else if DayFromYear (y + 1) <=? d then y + 1
  else y.

Definition InLeapYear (t : Z) : Z :=
  if DaysInYear (YearFromTime t) =? 366 then 1 else 0.

Definition DayWithinYear (t : Z) : Z := Day t - DayFromYear (YearFromTime t).

(** Months count from 0 (January). *)
Definition MonthFromTime (t : Z) : Z :=
  let d := DayWithinYear t in
  let leap := InLeapYear t in
  if d <? 31 then 0
  else if d <? 59 + leap then 1
  else if d <? 90 + leap then 2
  else if d <? 120 + leap then 3
  else if d <? 151 + leap then 4
  else if d <? 181 + leap then 5
  else if d <? 212 + leap then 6
  else if d <? 243 + leap then 7
  else if d <? 273 + leap then 8
  else if d <? 304 + leap then 9
  else if d <? 334 + leap then 10
  else 11.

Definition DateFromTime (t : Z) : Z :=
  let d := DayWithinYear t in
  let leap := InLeapYear t in
  match MonthFromTime t with
  | 0 => d + 1
  | 1 => d - 30
  | 2 => d - 58 - leap
  | 3 => d - 89 - leap
  | 4 => d - 119 - leap
  | 5 => d - 150 - leap
  | 6 => d - 180 - leap
  | 7 => d - 211 - leap
  | 8 => d - 242 - leap
  | 9 => d - 272 - leap
  | 10 => d - 303 - leap
  | _ => d - 333 - leap
  end.

Definition HourFromTime (t : Z) : Z := (t / 3600000) mod 24.
Definition MinFromTime (t : Z) : Z := (t / 60000) mod 60.
Definition SecFromTime (t : Z) : Z := (t / 1000) mod 60.
Definition msFromTime (t : Z) : Z := t mod 1000.

(** The year of the ISO format: four digits from 0 to 9999, otherwise a
    sign and six digits. *)
Definition isoYear (y : Z) : jsstring :=
  if (0 <=? y) && (y <=? 9999) then pad4 y
  else (if y <? 0 then 45%N else 43%N) :: pad6 (Z.abs y).

Definition isoDate (t : Z) : jsstring :=
  isoYear (YearFromTime t) ++ [45%N] ++ pad2 (MonthFromTime t + 1)
  ++ [45%N] ++ pad2 (DateFromTime t).

Definition isoTime (t : Z) : jsstring :=
  pad2 (HourFromTime t) ++ [58%N] ++ pad2 (MinFromTime t) ++ [58%N]
  ++ pad2 (SecFromTime t) ++ [46%N] ++ pad3 (msFromTime t).

(** The civil calendar, stated independently of the functions above: the
    length of month [m] (1..12) of year [y], and the day number (days since
    1970-01-01) of the date [y]-[m]-[d]. *)
Definition daysInMonth (y m : Z) : Z :=
  match m with
  | 2 => if DaysInYear y =? 366 then 29 else 28
  | 4 | 6 | 9 | 11 => 30
  | _ => 31
  end.

Fixpoint daysBeforeMonth (y : Z) (m : nat) : Z :=
  match m with
  | O => 0
  | S m' => daysBeforeMonth y m' + daysInMonth y (Z.of_nat m)
  end.

Definition dayNumber (y m d : Z) : Z :=
  DayFromYear y + daysBeforeMonth y (Z.to_nat (m - 1)) + (d - 1).

End Calendar.

(* ================================================================= *)
(** ** Ordinary objects *)

(** An array index is the canonical decimal form of an integer from 0 to
    2^32 - 2; such property keys are enumerated first, in ascending order. *)
Fixpoint digitsValue (acc : N) (s : jsstring) : option N :=
  match s with
  | [] => Some acc
  | c :: s' => if isDigit c then digitsValue (10 * acc + (c - 48)) s' else None
  end.

Definition arrayIndex (k : jsstring) : option N :=
  match k with
  | [] => None
  | c :: rest =>
      if (c =? 48) && nonEmpty rest then None
      else match digitsValue 0 k with
           | Some n => if n <=? 4294967294 then Some n else None
           | None => None
           end
  end.

Section Objects.
Variable V : Type.

(** An object is the list of its own enumerable properties in the order
    [for ... in], [Object.keys] and [Object.values] enumerate them: array
    indices ascending, then the other keys in creation order. *)
Definition jsobject := list (jsstring * V).

Definition keys (o : jsobject) : list jsstring := map fst o.
Definition values (o : jsobject) : list V := map snd o.

(** [o[k]]; [None] is [undefined]. *)
Fixpoint objGet (o : jsobject) (k : jsstring) : option V :=
  match o with
  | [] => None
  | (k', v) :: o' => if str_eqb k k' then Some v else objGet o' k
  end.

Definition objHas (o : jsobject) (k : jsstring) : bool :=
  match objGet o k with Some _ => true | None => false end.

(** Assignment to an existing property keeps its place. *)
Fixpoint objReplace (k : jsstring) (v : V) (o : jsobject) : jsobject :=
  match o with
  | [] => []
  | (k', v') :: o' =>
      if str_eqb k k' then (k', v) :: o' else (k', v') :: objReplace k v o'
  end.

(** A new array index [n] goes after the smaller indices. *)
Fixpoint objInsertIndex (n : N) (k : jsstring) (v : V) (o : jsobject)
  : jsobject :=
  match o with
  | [] => [(k, v)]
  | (k', v') :: o' =>
      match arrayIndex k' with
      | Some n' =>
          if n' <? n then (k', v') :: objInsertIndex n k v o'
          else (k, v) :: o
      | None => (k, v) :: o
      end
  end.

(** [o[k] = v]. *)
Definition objSet (k : jsstring) (v : V) (o : jsobject) : jsobject :=
  if objHas o k then objReplace k v o
  else match arrayIndex k with
       | Some n => objInsertIndex n k v o
       | None => o ++ [(k, v)]
       end.
End Objects.

(** An object made by [{}], while the program fills it: its own
    properties, and whether it still inherits from [Object.prototype].  As
    long as it does, and has no own property of that name, an assignment to
    [__proto__] runs the inherited setter: no property is made, and the
    prototype changes when the value is an object or [null]; with [null] the
    object inherits nothing afterwards.  [unlinks v] says that [v] is
    [null]. *)
Definition PROTO : jsstring := str "__proto__".

Record literal (V : Type) : Type := {
  own : jsobject V;
  inheritsObject : bool
}.

Definition emptyLiteral {V : Type} : literal V :=
  {| own := []; inheritsObject := true |}.

(** [o[k] = v]. *)
Definition assign {V : Type} (unlinks : V -> bool) (k : jsstring) (v : V)
    (o : literal V) : literal V :=
  if str_eqb k PROTO && inheritsObject o && negb (objHas (own o) k)
  then {| own := own o; inheritsObject := negb (unlinks v) |}
  else {| own := objSet k v (own o); inheritsObject := inheritsObject o |}.

(* ================================================================= *)
(** ** Exceptions *)

(** What the program can throw, by throw site. *)
Inductive exn : Type :=
| FileNotFound (filePath : jsstring)
    (* line 178 *)
| SheetNotFound (targetSheet : option jsstring) (sheetNames : list jsstring)
    (* line 212 *)
| InvalidTimeValue
    (* the RangeError of [toISOString] on an invalid Date *)
| LibraryError (message : jsstring).
    (* an exception of the spreadsheet library *)

Inductive completion (A : Type) : Type :=
| Normal (a : A)
| Throw (e : exn).

Arguments Normal {A} a.
Arguments Throw {A} e.

Definition bind {A B} (c : completion A) (k : A -> completion B)
  : completion B :=
  match c with
  | Normal a => k a
  | Throw e => Throw e
  end.

Notation "x <- c ;; k" := (bind c (fun x => k))
  (at level 61, c at next level, right associativity).

(** A call into the spreadsheet library returns or throws an exception of
    its own. *)
Inductive outcome (A : Type) : Type :=
| Returns (a : A)
| Fails (message : jsstring).

Arguments Returns {A} a.
Arguments Fails {A} message.

Definition library {A} (r : outcome A) : completion A :=
  match r with
  | Returns a => Normal a
  | Fails message => Throw (LibraryError message)
  end.

(** [xs.map((x, index) => f(x, index))] for a callback that may throw. *)
Fixpoint mapiM {A B} (f : A -> nat -> completion B) (i : nat) (xs : list A)
  : completion (list B) :=
  match xs with
  | [] => Normal []
  | x :: xs' =>
      y <- f x i ;;
      ys <- mapiM f (S i) xs' ;;
      Normal (y :: ys)
  end.

(** ECMAScript's ToString on a string or [undefined] ([None]): what a
    template literal and a property access make of their operand. *)
Definition ToString (x : option jsstring) : jsstring :=
  match x with
  | Some s => s
  | None => str "undefined"
  end.

Definition QUOTE : N := 34.

(** [error.message]. *)
Definition errorMessage (e : exn) : jsstring :=
  match e with
  | FileNotFound filePath => str "File not found: " ++ filePath
  | SheetNotFound targetSheet sheetNames =>
      str "Sheet " ++ [QUOTE] ++ ToString targetSheet ++ [QUOTE]
      ++ str " not found. Available sheets: " ++ join (str ", ") sheetNames
  | InvalidTimeValue => str "Invalid time value"
  | LibraryError message => message
  end.

(** [Date.prototype.toISOString]; the time value [None] is NaN. *)
Definition toISOString (tv : option Z) : completion jsstring :=
  match tv with
  | None => Throw InvalidTimeValue
  | Some t =>
      Normal (Calendar.isoDate t ++ str "T" ++ Calendar.isoTime t ++ str "Z")
  end.

(* ================================================================= *)
(** ** The data of the program *)

(** A cell: what the spreadsheet library puts in a row object.  [number]
    is the type of Numbers; the time value [None] of a Date is NaN, an
    invalid Date. *)
Inductive value (number : Type) : Type :=
| VUndefined
| VNull
| VBool (b : bool)
| VNumber (n : number)
| VString (s : jsstring)
| VDate (tv : option Z).

Arguments VUndefined {number}.
Arguments VNull {number}.
Arguments VBool {number} b.
Arguments VNumber {number} n.
Arguments VString {number} s.
Arguments VDate {number} tv.

(** [workbook.SheetNames], and what [workbook.Sheets[name]] evaluates to
    ([None] is [undefined]). *)
Record workbook (worksheet : Type) : Type := {
  SheetNames : list jsstring;
  Sheets : jsstring -> option worksheet
}.

Arguments SheetNames {worksheet} w.
Arguments Sheets {worksheet} w.

(** The options of [convertExcelToJson]; [sheet] is [None] when the
    option is not given, a flag that is not given is [false]. *)
Record options (headerOption : Type) : Type := {
  sheet : option jsstring;
  allSheets : bool;
  listSheets : bool;
  header : headerOption;
  noId : bool;
  noCamelCase : bool
}.

Arguments sheet {headerOption} o.
Arguments allSheets {headerOption} o.
Arguments listSheets {headerOption} o.
Arguments header {headerOption} o.
Arguments noId {headerOption} o.
Arguments noCamelCase {headerOption} o.

(** [result.data]: one array of rows, or an object from sheet names to
    arrays of rows. *)
Inductive conversionData (number : Type) : Type :=
| SheetRows (rows : list (jsobject (value number)))
| SheetMap (bySheet : jsobject (list (jsobject (value number)))).

Arguments SheetRows {number} rows.
Arguments SheetMap {number} bySheet.

(** What [convertExcelToJson] returns: [{success: true, sheets, message}],
    [{success: true, data, sheets, message}] or [{success: false, error}]. *)
Inductive conversionResult (number : Type) : Type :=
| Listed (sheets : list jsstring) (message : jsstring)
| Converted (data : conversionData number) (sheets : list jsstring)
    (message : jsstring)
| Failed (error : jsstring).

Arguments Listed {number} sheets message.
Arguments Converted {number} data sheets message.
Arguments Failed {number} error.

(* ================================================================= *)
(** ** Sample inputs *)

(** Numbers are integers here, and a worksheet is the list of the rows the
    library reads from it. *)
Definition sampleRow := jsobject (value Z).

Definition text (s : string) : value Z := VString (str s).

Arguments text s%_string.

(** The rows of the end-to-end scenario of the specification. *)
Definition sampleRows : list sampleRow :=
  [ [ (str "premiu turneu", text "Premium Gold");
      (str "phone", text "1234567890");
      (str "cash", VNumber 500%Z);
      (str "tesla", text "Model 3") ];
    [ (str "premiu turneu", VNull);
      (str "phone", VNull);
      (str "cash", VNull);
      (str "tesla", VNull) ];
    [ (str "premiu turneu", text "Basic Silver");
      (str "phone", text "9876543210");
      (str "cash", VNumber 200%Z);
      (str "tesla", text "Model Y") ] ].

(** A sheet with a column headed ID, one with a column headed 2024, and a
    row with two headers that normalize to the same key. *)
Definition idColumnRows : list sampleRow :=
  [ [ (str "ID", text "x7"); (str "name", text "Ann") ] ].

Definition yearColumnRows : list sampleRow :=
  [ [ (str "2024", VNumber 5%Z); (str "name", text "Ann") ] ].

Definition collisionRow : sampleRow :=
  [ (str "First Name", text "a"); (str "first_name", text "b") ].

(** A row with two headers that differ in where the space is and both
    trim to [__proto__]. *)
Definition protoRow : sampleRow :=
  [ (str " __proto__", text "a"); (str "__proto__ ", text "b");
    (str "name", text "Ann") ].

Definition sampleWorkbook : workbook (list sampleRow) :=
  {| SheetNames := [str "Sales"; str "Summary"];
     Sheets := objGet [ (str "Sales", sampleRows);
                        (str "Summary", idColumnRows) ] |}.

Definition emptyWorkbook : workbook (list sampleRow) :=
  {| SheetNames := []; Sheets := fun _ => None |}.

Definition sampleOptions (sheetOption : option jsstring) (all : bool)
  : options unit :=
  {| sheet := sheetOption; allSheets := all; listSheets := false;
     header := tt; noId := false; noCamelCase := false |}.

Definition sampleSheetToJson (ws : option (list sampleRow)) (_ : unit)
  : outcome (list sampleRow) :=
  match ws with
  | Some rows => Returns rows
  | None => Returns []
  end.

(** The output rows of the end-to-end scenario and of the sheet with a
    column headed ID, and the data of the sample workbook by sheet. *)
Definition sampleCleanRows : list sampleRow :=
  [ [ (str "id", VNumber 0%Z);
      (str "premiuTurneu", text "Premium Gold");
      (str "phone", text "1234567890");
      (str "cash", VNumber 500%Z);
      (str "tesla", text "Model 3") ];
    [ (str "id", VNumber 1%Z);
      (str "premiuTurneu", text "Basic Silver");
      (str "phone", text "9876543210");
      (str "cash", VNumber 200%Z);
      (str "tesla", text "Model Y") ] ].

Definition idCleanRows : list sampleRow :=
  [ [ (str "id", text "x7"); (str "name", text "Ann") ] ].

Definition sampleBySheet : jsobject (list sampleRow) :=
  [ (str "Sales", sampleCleanRows); (str "Summary", idCleanRows) ].

Definition sampleListOptions : options unit :=
  {| sheet := None; allSheets := false; listSheets := true;
     header := tt; noId := false; noCamelCase := false |}.

(** The surroundings of the sample runs of the command line: every write
    succeeds, the input is [book.xlsx] in the current directory, and the
    text of the JSON, which no property looks into, is left out. *)
Definition sampleStringify (space : option nat) (data : conversionData Z)
  : jsstring :=
  match data with
  | SheetRows _ => str "[...]"
  | SheetMap _ => str "{...}"
  end.

Definition sampleWrite (outputPath : jsstring) (text : option jsstring)
  : outcome unit :=
  Returns tt.

Definition sampleDir (p : jsstring) : jsstring := [].
Definition sampleName (p : jsstring) : jsstring := str "book".
Definition sampleJoin (dir base : jsstring) : jsstring :=
  if nonEmpty dir then dir ++ str "/" ++ base else base.

(** 2024-03-15T12:30:45.123Z, and 10000-01-01T00:00:00.000Z. *)
Definition sampleTime : Z := 1710505845123.
Definition year10000 : Z := 253402300800000.

(** A row with a Date at the first instant of the year 10000, and a row
    with an invalid Date. *)
Definition lateDateRow : sampleRow := [ (str "when", VDate (Some year10000)) ].
Definition invalidDateRow : sampleRow := [ (str "when", VDate None) ].

(* ================================================================= *)
(** ** The program *)

Unset Implicit Arguments.

Section Program.

Set Default Proof Using "Type".

(** [String.prototype.toLowerCase] and [toUpperCase] (Unicode case
    conversion), the type of Numbers and the Number of an array position
    are taken as they come. *)
Variables toLowerCase toUpperCase : jsstring -> jsstring.
Variable number : Type.
Variable indexNumber : nat -> number.

Abbreviation value := (value number).

(** *** [toCamelCase] (lines 90-111) *)

(** [word.charAt(0)] and [word.slice(1)]. *)
Definition charAt0 (word : jsstring) : jsstring :=
  match word with [] => [] | c :: _ => [c] end.

Definition slice1 (word : jsstring) : jsstring :=
  match word with [] => [] | _ :: rest => rest end.

(** The callback of [map] (lines 102-108). *)
Definition camelWord (word : jsstring) (index : nat) : jsstring :=
  match index with
  | O => toLowerCase word
  | S _ => toUpperCase (charAt0 word) ++ toLowerCase (slice1 word)
  end.

Definition toCamelCase (s : jsstring) : jsstring :=
  join [] (mapi camelWord
             (filter nonEmpty
                (splitRuns isSeparator (collapseSpaces (trim s))))).

(** *** Cell values and rows *)

Definition row := jsobject value.

(** [row[key]]. *)
Definition get (r : row) (key : jsstring) : value :=
  match objGet r key with Some v => v | None => VUndefined end.

(** *** [processSheetData] (lines 120-166) *)

(** The test of line 125: the cell is not [null], not [undefined] and not
    the empty string. *)
Definition hasContent (cell : value) : bool :=
  match cell with
  | VNull | VUndefined | VString [] => false
  | _ => true
  end.

Definition keepRow (r : row) : bool := existsb hasContent (values r).

(** Lines 139-145. *)
Definition cleanKeyOf (camelCase : bool) (key : jsstring) : jsstring :=
  if camelCase then toCamelCase key else collapseSpaces (trim key).

(** Lines 151-160. *)
Definition coerceValue (v : value) : completion value :=
  match v with
  | VDate tv =>
      iso <- toISOString tv ;;
      Normal (match splitAt 84 [] iso with
              | date :: _ => VString date
              | [] => VUndefined
              end)
  | VNull | VUndefined | VString [] => Normal VNull
  | _ => Normal v
  end.

Definition isNull (v : value) : bool :=
  match v with VNull => true | _ => false end.

(** One turn of the [for ... in] loop (lines 137-163). *)
Definition assignKey (camelCase : bool) (r : row) (cleanRow : literal value)
    (key : jsstring) : completion (literal value) :=
  let cleanKey := cleanKeyOf camelCase key in
  if negb (nonEmpty cleanKey) then Normal cleanRow
  else
    v <- coerceValue (get r key) ;;
    Normal (assign isNull cleanKey v cleanRow).

Fixpoint assignKeys (camelCase : bool) (r : row) (cleanRow : literal value)
    (ks : list jsstring) : completion (literal value) :=
  match ks with
  | [] => Normal cleanRow
  | key :: ks' =>
      cleanRow' <- assignKey camelCase r cleanRow key ;;
      assignKeys camelCase r cleanRow' ks'
  end.

(** [const cleanRow = {}; if (addId) { cleanRow.id = index; }]
    (lines 130-135). *)
Definition newCleanRow (addId : bool) (index : nat) : literal value :=
  if addId
  then assign isNull (str "id") (VNumber (indexNumber index)) emptyLiteral
  else emptyLiteral.

(** The callback of [filteredData.map] (lines 129-165).  Of the row it
    returns, the own properties are kept: nothing reads its prototype. *)
Definition cleanRowOf (addId camelCase : bool) (r : row) (index : nat)
  : completion row :=
  cleanRow <- assignKeys camelCase r (newCleanRow addId index) (keys r) ;;
  Normal (own cleanRow).

(** [data] is [None] for [null] or [undefined]. *)
Definition processSheetData (data : option (list row))
    (addId camelCase : bool) : completion (list row) :=
  match data with
  | None | Some [] => Normal []
  | Some rows =>
      let filteredData := filter keepRow rows in
      mapiM (cleanRowOf addId camelCase) 0 filteredData
  end.

(** *** [convertExcelToJson] (lines 174-235) *)

(** The file system and the spreadsheet library. *)
Variable worksheet : Type.
Variable headerOption : Type.

Variable existsSync : jsstring -> bool.
Variable readFile : jsstring -> outcome (workbook worksheet).
Variable sheet_to_json :
  option worksheet -> headerOption -> outcome (list row).

Abbreviation workbook := (workbook worksheet).
Abbreviation options := (options headerOption).
Abbreviation conversionResult := (conversionResult number).

(** [options.sheet || sheetNames[0]] (line 209): an empty string is falsy. *)
Definition targetSheetOf (opts : options) (sheetNames : list jsstring)
  : option jsstring :=
  match sheet opts with
  | Some s => if nonEmpty s then Some s else hd_error sheetNames
  | None => hd_error sheetNames
  end.

(** [sheetNames.includes(targetSheet)]. *)
Definition includes (sheetNames : list jsstring) (x : option jsstring)
  : bool :=
  match x with
  | Some s => existsb (str_eqb s) sheetNames
  | None => false
  end.

(** One sheet through the library and [processSheetData]. *)
Definition convertSheet (wb : workbook) (opts : options)
    (sheetName : jsstring) : completion (list row) :=
  rawData <-
    library (sheet_to_json (Sheets wb sheetName) (header opts)) ;;
  processSheetData (Some rawData) (negb (noId opts))
    (negb (noCamelCase opts)).

(** The [forEach] of lines 199-206; the rows of a sheet are an array, which
    as a prototype still inherits from [Object.prototype]. *)
Fixpoint convertAll (wb : workbook) (opts : options)
    (result : literal (list row)) (names : list jsstring)
  : completion (literal (list row)) :=
  match names with
  | [] => Normal result
  | sheetName :: names' =>
      rows <- convertSheet wb opts sheetName ;;
      convertAll wb opts (assign (fun _ => false) sheetName rows result)
        names'
  end.

(** Lines 183-228, once the workbook is read. *)
Definition convertWorkbook (wb : workbook) (opts : options)
  : completion conversionResult :=
  let sheetNames := SheetNames wb in
  if listSheets opts then
    Normal (Listed sheetNames
              (str "Found " ++ natToString (List.length sheetNames)
               ++ str " sheet(s)"))
  else
    data <-
      (if allSheets opts then
         result <- convertAll wb opts emptyLiteral sheetNames ;;
         Normal (SheetMap (own result))
       else
         let targetSheet := targetSheetOf opts sheetNames in
         if negb (includes sheetNames targetSheet) then
           Throw (SheetNotFound targetSheet sheetNames)
         else
           result <- convertSheet wb opts (ToString targetSheet) ;;
           Normal (SheetRows result)) ;;
    Normal (Converted data sheetNames (str "Conversion successful")).

(** The body of the [try] (lines 176-228). *)
Definition convertTry (filePath : jsstring) (opts : options)
  : completion conversionResult :=
  if negb (existsSync filePath) then Throw (FileNotFound filePath)
  else
    wb <- library (readFile filePath) ;;
    convertWorkbook wb opts.

Definition convertExcelToJson (filePath : jsstring) (opts : options)
  : conversionResult :=
  match convertTry filePath opts with
  | Normal result => result
  | Throw e => Failed (errorMessage e)
  end.

(** *** [saveJsonFile], [main] and [quickConvert] (lines 243-338) *)

(** [JSON.stringify(data, null, space)] on the data of a conversion
    ([space] is [None] when the call has one argument), the two writers of
    the file system, which return or throw, and [path.parse(p).dir],
    [path.parse(p).name] and [path.join]. *)
Variable JSON_stringify : option nat -> conversionData number -> jsstring.
Variable writeFile : jsstring -> option jsstring -> outcome unit.
Variable writeFileSync : jsstring -> option jsstring -> outcome unit.
Variables parsedDir parsedName : jsstring -> jsstring.
Variable pathJoin : jsstring -> jsstring -> jsstring.

(** What the program does to the outside: a line on standard output or on
    standard error, and a call of a file writer with the path and the text
    ([None] is [undefined]). *)
Inductive event : Type :=
| ConsoleLog (line : jsstring)
| ConsoleError (line : jsstring)
| FileWrite (outputPath : jsstring) (text : option jsstring).

(** [result.data]; a listing has none. *)
Definition dataOf (result : conversionResult)
  : option (conversionData number) :=
  match result with
  | Converted data _ _ => Some data
  | Listed _ _ | Failed _ => None
  end.

(** [pretty ? JSON.stringify(data, null, 2) : JSON.stringify(data)];
    [JSON.stringify(undefined)] is [undefined]. *)
Definition jsonString (pretty : bool) (data : option (conversionData number))
  : option jsstring :=
  option_map (JSON_stringify (if pretty then Some 2%nat else None)) data.

(** [{success: true, message}] or [{success: false, error}]. *)
Inductive saveResult : Type :=
| Saved (message : jsstring)
| NotSaved (error : jsstring).

(** [saveJsonFile] (lines 243-252), with the calls it makes. *)
Definition saveJsonFile (data : option (conversionData number))
    (outputPath : jsstring) (pretty : bool) : list event * saveResult :=
  let text := jsonString pretty data in
  ([FileWrite outputPath text],
   match writeFile outputPath text with
   | Returns _ => Saved (str "Saved to " ++ outputPath)
   | Fails message => NotSaved message
   end).

(** The pictographs of the messages, as UTF-16 code units. *)
Definition CROSS : jsstring := [10060].
Definition CLIPBOARD : jsstring := [55357; 56523].
Definition CHECK : jsstring := [9989].
Definition FOLDER : jsstring := [55357; 56513].
Definition PAGE : jsstring := [55357; 56516].
Definition CHART : jsstring := [55357; 56522].
Definition TREND : jsstring := [55357; 56520].

(** Lines 290-294: [output], unless it is absent or empty. *)
Definition outputFileOf (excelFile : jsstring) (output : option jsstring)
  : jsstring :=
  let derived :=
    pathJoin (parsedDir excelFile) (parsedName excelFile ++ str ".json") in
  match output with
  | Some outputFile => if nonEmpty outputFile then outputFile else derived
  | None => derived
  end.

(** The callback of line 283. *)
Definition sheetLine (sheetName : jsstring) (index : nat) : event :=
  ConsoleLog (str "   " ++ natToString (index + 1) ++ str ". " ++ sheetName).

(** The callback of line 308; [rows] is [result.data[sheetName]]. *)
Definition previewLine (bySheet : jsobject (list row))
    (sheetName : jsstring) : option event :=
  match objGet bySheet sheetName with
  | Some rows =>
      Some (ConsoleLog (str "   " ++ sheetName ++ str ": "
                        ++ natToString (List.length rows) ++ str " rows"))
  | None => None
  end.

Fixpoint previewLines (bySheet : jsobject (list row))
    (sheetNames : list jsstring) : option (list event) :=
  match sheetNames with
  | [] => Some []
  | sheetName :: rest =>
      match previewLine bySheet sheetName, previewLines bySheet rest with
      | Some line, Some lines => Some (line :: lines)
      | _, _ => None
      end
  end.

(** The data preview (lines 305-312).  [None] stands for the states the
    program is never in: data that is not of the shape the mode gives
    it. *)
Definition preview (all : bool) (data : option (conversionData number))
  : option (list event) :=
  match all, data with
  | true, Some (SheetMap bySheet) => previewLines bySheet (keys bySheet)
  | false, Some (SheetRows rows) =>
      Some [ConsoleLog (TREND ++ str " Rows: "
                        ++ natToString (List.length rows))]
  | _, _ => None
  end.

(** How a run of [main] ends: it returns, or [process.exit(code)]. *)
Inductive ending : Type :=
| Returned
| Exited (code : nat).

(** [main] (lines 257-322) on the arguments of the command line:
    [excelFile], [output], [pretty], and the options it passes on. *)
Definition main (excelFile : jsstring) (output : option jsstring)
    (pretty : bool) (opts : options) : option (list event * ending) :=
  let result := convertExcelToJson excelFile opts in
  match result with
  | Failed error =>
      Some ([ConsoleError (CROSS ++ str " Error:" ++ str " " ++ error)],
            Exited 1)
  | Listed sheets _ | Converted _ sheets _ =>
      if listSheets opts then
        Some (ConsoleLog (CLIPBOARD ++ str " Sheets in " ++ [QUOTE]
                          ++ excelFile ++ [QUOTE] ++ str ":")
              :: mapi sheetLine sheets,
              Returned)
      else
        let outputFile := outputFileOf excelFile output in
        let (writes, saved) :=
          saveJsonFile (dataOf result) outputFile pretty in
        match saved with
        | Saved _ =>
            match preview (allSheets opts) (dataOf result) with
            | Some lines =>
                Some (writes
                      ++ [ ConsoleLog (CHECK ++ str " Success!");
                           ConsoleLog (FOLDER ++ str " Input: " ++ excelFile);
                           ConsoleLog (PAGE ++ str " Output: " ++ outputFile);
                           ConsoleLog (CHART ++ str " Sheets processed: "
                                       ++ join (str ", ") sheets) ]
                      ++ lines,
                      Returned)
            | None => None
            end
        | NotSaved error =>
            Some (writes
                  ++ [ConsoleError (CROSS ++ str " Save Error:" ++ str " "
                                    ++ error)],
                  Exited 1)
        end
  end.

(** What [quickConvert] returns, and what it throws: the error of the
    conversion, or the exception of [fs.writeFileSync]. *)
Inductive quickResult : Type :=
| QuickMessage (message : jsstring)
| QuickData (data : option (conversionData number)).

Inductive quickError : Type :=
| ConversionError (message : jsstring)
| WriteError (message : jsstring).

(** [quickConvert] (lines 325-338); [outputFile] is [None] for [null],
    and [pretty] is [options.pretty]. *)
Definition quickConvert (excelFile : jsstring) (outputFile : option jsstring)
    (pretty : bool) (opts : options)
  : list event * (quickError + quickResult) :=
  let result := convertExcelToJson excelFile opts in
  match result with
  | Failed error => ([], inl (ConversionError error))
  | Listed _ _ | Converted _ _ _ =>
      match outputFile with
      | Some outputPath =>
          if nonEmpty outputPath then
            let text := jsonString pretty (dataOf result) in
            ([FileWrite outputPath text],
             match writeFileSync outputPath text with
             | Returns _ =>
                 inr (QuickMessage (str "Converted to " ++ outputPath))
             | Fails message => inl (WriteError message)
             end)
          else ([], inr (QuickData (dataOf result)))
      | None => ([], inr (QuickData (dataOf result)))
      end
  end.

(** The calls of a file writer among the events: path and text. *)
Definition writesOf (events : list event)
  : list (jsstring * option jsstring) :=
  flat_map (fun e => match e with
                     | FileWrite outputPath text => [(outputPath, text)]
                     | ConsoleLog _ | ConsoleError _ => []
                     end) events.

(** The options of a conversion of one named sheet, the other options
    kept. *)
Definition selectSheet (opts : options) (sheetName : jsstring) : options :=
  {| sheet := Some sheetName; allSheets := false;
     listSheets := listSheets opts; header := header opts;
     noId := noId opts; noCamelCase := noCamelCase opts |}.

(** *** The specification's wording, to compare the code with *)

(** A finished token is kept unless it is empty. *)
Definition emit (cur : jsstring) : list jsstring :=
  if nonEmpty cur then [cur] else [].

(** The tokens of [s]: the maximal runs of code units that are not
    separators, in order; [cur] is the token being read. *)
Fixpoint spec_tokensFrom (sep : N -> bool) (cur s : jsstring)
  : list jsstring :=
  match s with
  | [] => emit cur
  | c :: s' =>
      if sep c then emit cur ++ spec_tokensFrom sep [] s'
      else spec_tokensFrom sep (cur ++ [c]) s'
  end.

Definition spec_tokens (s : jsstring) : list jsstring :=
  spec_tokensFrom isSeparator [] s.

(** Upper-case the first character, lower-case the rest. *)
Definition spec_capitalize (token : jsstring) : jsstring :=
  match token with
  | [] => []
  | c :: rest => toUpperCase [c] ++ toLowerCase rest
  end.

(** [normalize(header, true)] of 4.1. *)
Definition spec_camelCase (header : jsstring) : jsstring :=
  match spec_tokens header with
  | [] => []
  | first :: others =>
      toLowerCase first ++ List.concat (map spec_capitalize others)
  end.

(** [normalize(header, false)] of 4.1: the words between white space,
    one SPACE between two of them. *)
Definition spec_passthrough (header : jsstring) : jsstring :=
  join [SPACE] (spec_tokensFrom isWhiteSpace [] header).

(** What a tokenization is, without an algorithm: [s] is all separators
    and has no token, or it is separators, a first token, and a rest which
    is empty or starts with a separator and holds the other tokens. *)
Inductive Tokens (sep : N -> bool) : jsstring -> list jsstring -> Prop :=
| Tokens_none s :
    forallb sep s = true -> Tokens sep s []
| Tokens_more pre token rest ts :
    forallb sep pre = true ->
    token <> [] ->
    forallb (fun c => negb (sep c)) token = true ->
    forallb sep (firstn 1 rest) = true ->
    Tokens sep rest ts ->
    Tokens sep (pre ++ token ++ rest) (token :: ts).

Definition notWhiteSpace (c : N) : bool := negb (isWhiteSpace c).

(** The row has a cell that is not null, not absent and not the empty
    string. *)
Definition spec_hasValue (r : row) : Prop :=
  exists v, In v (values r)
            /\ v <> VNull /\ v <> VUndefined /\ v <> VString [].

(** The key [k] comes first among the keys that are not array indices,
    which is where the first key created stays. *)
Definition firstNamed {V : Type} (k : jsstring) (o : jsobject V) : Prop :=
  exists front back,
    keys o = front ++ k :: back
    /\ Forall (fun k' => arrayIndex k' <> None) front.

(** The row without the columns whose header normalizes to the empty
    string. *)
Definition dropEmptyColumns (camelCase : bool) (r : row) : row :=
  filter (fun kv => nonEmpty (cleanKeyOf camelCase (fst kv))) r.

(** The one way a row makes [processSheetData] throw: an invalid Date in
    a cell whose key is kept. *)
Definition isInvalidDate (v : value) : bool :=
  match v with VDate None => true | _ => false end.

Definition keyThrows (camelCase : bool) (r : row) (key : jsstring) : bool :=
  nonEmpty (cleanKeyOf camelCase key) && isInvalidDate (get r key).

Definition rowThrows (camelCase : bool) (r : row) : bool :=
  existsb (keyThrows camelCase r) (keys r).

(** [xs] is [ys] with some elements left out, the order kept. *)
Inductive Subsequence {A : Type} : list A -> list A -> Prop :=
| Subsequence_nil : Subsequence [] []
| Subsequence_keep x xs ys :
    Subsequence xs ys -> Subsequence (x :: xs) (x :: ys)
| Subsequence_drop y xs ys :
    Subsequence xs ys -> Subsequence xs (y :: ys).

(** The shape YYYY-MM-DD. *)
Definition isYMD (s : jsstring) : bool :=
  match s with
  | [y1; y2; y3; y4; h1; m1; m2; h2; d1; d2] =>
      isDigit y1 && isDigit y2 && isDigit y3 && isDigit y4 && (h1 =? 45)
      && isDigit m1 && isDigit m2 && (h2 =? 45) && isDigit d1 && isDigit d2
  | _ => false
  end.

(** The date YYYY-MM-DD written out. *)
Definition spec_ymd (y m d : Z) : jsstring :=
  pad4 y ++ str "-" ++ pad2 m ++ str "-" ++ pad2 d.

(** *** Further vocabulary *)

(** A value JSON has as it is: null, a boolean, a number, or a string
    that is not empty. *)
Definition isPlain (v : value) : bool :=
  match v with
  | VNull | VBool _ | VNumber _ => true
  | VString s => nonEmpty s
  | VUndefined | VDate _ => false
  end.

(** The keys of a list in the order of their first occurrences. *)
Definition addKey (seen : list jsstring) (k : jsstring) : list jsstring :=
  if existsb (str_eqb k) seen then seen else seen ++ [k].

Definition firstOccurrences (ks : list jsstring) : list jsstring :=
  fold_left addKey ks [].

Definition notSeparator (c : N) : bool := negb (isSeparator c).

(** The order in which an object enumerates its keys: a key that is not
    an array index is named; after an array index come only array indices
    that are not smaller and named keys, after a named key only named
    keys. *)
Definition isNamed (k : jsstring) : bool :=
  match arrayIndex k with Some _ => false | None => true end.

Definition mayFollow (k k' : jsstring) : bool :=
  match arrayIndex k, arrayIndex k' with
  | Some n, Some n' => n <=? n'
  | Some _, None => true
  | None, Some _ => false
  | None, None => true
  end.

Fixpoint enumerationOrder (ks : list jsstring) : bool :=
  match ks with
  | [] => true
  | k :: rest => forallb (mayFollow k) rest && enumerationOrder rest
  end.

(** A row without its [id] field. *)
Definition withoutId (o : row) : row :=
  filter (fun kv => negb (str_eqb (fst kv) (str "id"))) o.

(* =============================================================== *)
(** ** Strings: trimming, collapsing, splitting *)

Lemma nonEmpty_app_r (a : jsstring) (c : N) : nonEmpty (a ++ [c]) = true.
Proof. destruct a; reflexivity. Qed.

Lemma whiteSpace_isSeparator c : isWhiteSpace c = true -> isSeparator c = true.
Proof. unfold isSeparator. intros ->. reflexivity. Qed.

(** The regular-expression split, empty strings filtered out, gives the
    tokens. *)
Lemma filter_splitFrom sep s :
  forall inRun cur,
    (inRun = true -> cur = []) ->
    filter nonEmpty (splitFrom sep inRun cur s) = spec_tokensFrom sep cur s.
Proof.
  induction s as [|c s IH]; intros inRun cur Hrun; simpl.
  - unfold emit. destruct (nonEmpty cur); reflexivity.
  - destruct (sep c).
    + destruct inRun.
      * rewrite (Hrun eq_refl). simpl. apply IH. reflexivity.
      * simpl. unfold emit. rewrite (IH true []) by reflexivity.
        destruct (nonEmpty cur); reflexivity.
    + apply IH. discriminate.
Qed.

Lemma tokens_trimStart sep s :
  (forall c, isWhiteSpace c = true -> sep c = true) ->
  spec_tokensFrom sep [] (trimStart s) = spec_tokensFrom sep [] s.
Proof.
  intros Hsep. induction s as [|c s IH]; simpl; [reflexivity|].
  destruct (isWhiteSpace c) eqn:Hc.
  - rewrite (Hsep _ Hc). simpl. exact IH.
  - reflexivity.
Qed.

Lemma tokens_trimEnd sep s :
  (forall c, isWhiteSpace c = true -> sep c = true) ->
  forall cur,
    spec_tokensFrom sep cur (trimEnd s) = spec_tokensFrom sep cur s.
Proof.
  intros Hsep. induction s as [|c s IH]; intros cur; simpl; [reflexivity|].
  destruct (trimEnd s) as [|c' t] eqn:Ht.
  - destruct (isWhiteSpace c) eqn:Hc.
    + rewrite (Hsep _ Hc). rewrite <- IH. simpl.
      unfold emit. destruct (nonEmpty cur); reflexivity.
    + simpl. destruct (sep c); rewrite <- IH; reflexivity.
  - simpl. destruct (sep c); rewrite <- IH; reflexivity.
Qed.

Lemma tokens_collapseFrom s :
  (forall cur, spec_tokensFrom isSeparator cur (collapseFrom false s)
               = spec_tokensFrom isSeparator cur s)
  /\ spec_tokensFrom isSeparator [] (collapseFrom true s)
     = spec_tokensFrom isSeparator [] s.
Proof.
  induction s as [|c s [IHf IHt]]; simpl; [split; reflexivity|].
  destruct (isWhiteSpace c) eqn:Hc.
  - rewrite (whiteSpace_isSeparator _ Hc). split.
    + intros cur. simpl. rewrite IHt. reflexivity.
    + simpl. exact IHt.
  - split.
    + intros cur. simpl. destruct (isSeparator c); rewrite IHf; reflexivity.
    + simpl. destruct (isSeparator c); rewrite IHf; reflexivity.
Qed.

(** The words of [toCamelCase] are the tokens of the header. *)
Lemma toCamelCase_words s :
  filter nonEmpty (splitRuns isSeparator (collapseSpaces (trim s)))
  = spec_tokens s.
Proof.
  unfold splitRuns, collapseSpaces, trim, spec_tokens.
  rewrite filter_splitFrom by discriminate.
  rewrite (proj1 (tokens_collapseFrom _)).
  rewrite tokens_trimEnd, tokens_trimStart by exact whiteSpace_isSeparator.
  reflexivity.
Qed.

Lemma tokensFrom_nonEmpty sep s cur :
  Forall (fun t => t <> []) (spec_tokensFrom sep cur s).
Proof.
  rewrite <- (filter_splitFrom sep s false cur) by discriminate.
  apply Forall_forall. intros t Ht. apply filter_In in Ht.
  destruct Ht as [_ Ht]. destruct t; [discriminate|]. discriminate.
Qed.

Lemma tokensFrom_separators sep s :
  forallb sep s = true -> spec_tokensFrom sep [] s = [].
Proof.
  induction s as [|c s IH]; simpl; [reflexivity|].
  intros H. apply andb_true_iff in H. destruct H as [-> H]. simpl. auto.
Qed.

Lemma tokensFrom_skip sep pre s :
  forallb sep pre = true ->
  spec_tokensFrom sep [] (pre ++ s) = spec_tokensFrom sep [] s.
Proof.
  induction pre as [|c pre IH]; simpl; [reflexivity|].
  intros H. apply andb_true_iff in H. destruct H as [-> H]. simpl. auto.
Qed.

Lemma tokensFrom_read sep token s :
  forall cur,
    forallb (fun c => negb (sep c)) token = true ->
    spec_tokensFrom sep cur (token ++ s)
    = spec_tokensFrom sep (cur ++ token) s.
Proof.
  induction token as [|c token IH]; simpl; intros cur H.
  - rewrite app_nil_r. reflexivity.
  - apply andb_true_iff in H. destruct H as [Hc H].
    apply negb_true_iff in Hc. rewrite Hc, IH by exact H.
    rewrite <- app_assoc. reflexivity.
Qed.

Lemma tokensFrom_cut sep cur rest :
  forallb sep (firstn 1 rest) = true ->
  spec_tokensFrom sep cur rest = emit cur ++ spec_tokensFrom sep [] rest.
Proof.
  destruct rest as [|c r]; simpl.
  - intros _. rewrite app_nil_r. reflexivity.
  - rewrite andb_true_r. intros ->. reflexivity.
Qed.

Lemma Tokens_separator sep c s ts :
  sep c = true -> Tokens sep s ts -> Tokens sep (c :: s) ts.
Proof.
  intros Hc H. destruct H as [s Hs | pre token rest ts Hp Ht Hn Hr H].
  - apply Tokens_none. simpl. rewrite Hc. exact Hs.
  - apply (Tokens_more sep (c :: pre) token rest ts); auto.
    simpl. rewrite Hc. exact Hp.
Qed.

Lemma Tokens_tokensFrom sep s :
  forall cur,
    forallb (fun c => negb (sep c)) cur = true ->
    Tokens sep (cur ++ s) (spec_tokensFrom sep cur s).
Proof.
  induction s as [|c s IH]; intros cur Hcur; simpl.
  - rewrite app_nil_r. unfold emit. destruct cur as [|a cur]; simpl.
    + apply Tokens_none. reflexivity.
    + assert (Hlast : Tokens sep ([] ++ (a :: cur) ++ []) [a :: cur]).
      { apply (Tokens_more sep [] (a :: cur) [] []);
          [reflexivity | discriminate | exact Hcur | reflexivity |].
        apply Tokens_none. reflexivity. }
      simpl in Hlast. rewrite app_nil_r in Hlast. exact Hlast.
  - destruct (sep c) eqn:Hc.
    + pose proof (Tokens_separator sep c _ _ Hc (IH [] eq_refl)) as Hrest.
      simpl in Hrest. unfold emit. destruct cur as [|a cur]; simpl.
      * exact Hrest.
      * apply (Tokens_more sep [] (a :: cur) (c :: s) _);
          [reflexivity | discriminate | exact Hcur | | exact Hrest].
        simpl. rewrite Hc. reflexivity.
    + replace (cur ++ c :: s) with ((cur ++ [c]) ++ s)
        by (rewrite <- app_assoc; reflexivity).
      apply IH. rewrite forallb_app, Hcur. simpl. rewrite Hc. reflexivity.
Qed.

(** The tokens are the only tokenization. *)
Lemma Tokens_unique sep s ts :
  Tokens sep s ts <-> ts = spec_tokensFrom sep [] s.
Proof.
  split.
  - induction 1 as [s Hs | pre token rest ts Hp Ht Hn Hr _ IH].
    + symmetry. apply tokensFrom_separators. exact Hs.
    + rewrite tokensFrom_skip by exact Hp.
      rewrite tokensFrom_read by exact Hn. simpl.
      rewrite tokensFrom_cut by exact Hr.
      unfold emit. destruct token; [contradiction|]. simpl.
      rewrite IH. reflexivity.
  - intros ->. apply (Tokens_tokensFrom sep s []). reflexivity.
Qed.

Lemma join_nil ws : join [] ws = List.concat ws.
Proof.
  induction ws as [|w ws IH]; [reflexivity|].
  destruct ws as [|w' ws]; simpl in *.
  - rewrite app_nil_r. reflexivity.
  - rewrite IH. reflexivity.
Qed.

Lemma mapiFrom_camelWord ts :
  forall i,
    Forall (fun t => t <> []) ts ->
    mapiFrom camelWord (S i) ts = map spec_capitalize ts.
Proof.
  induction ts as [|t ts IH]; intros i H; [reflexivity|].
  inversion H as [|? ? Ht Hts]; subst. simpl.
  rewrite IH by exact Hts. destruct t; [contradiction|]. reflexivity.
Qed.

(** The code against the specification's [normalize(header, true)]. *)
Lemma toCamelCase_refines s : toCamelCase s = spec_camelCase s.
Proof.
  unfold toCamelCase, spec_camelCase. rewrite toCamelCase_words, join_nil.
  pose proof (tokensFrom_nonEmpty isSeparator s []) as Hne.
  fold (spec_tokens s) in Hne.
  destruct (spec_tokens s) as [|t ts]; [reflexivity|].
  inversion Hne; subst. unfold mapi. simpl.
  rewrite mapiFrom_camelWord by assumption. reflexivity.
Qed.

(** *** The passthrough mode: trimming and collapsing *)

Lemma trimEnd_cons c s :
  isWhiteSpace c = false -> trimEnd (c :: s) = c :: trimEnd s.
Proof. intros Hc. simpl. rewrite Hc. destruct (trimEnd s); reflexivity. Qed.

Lemma trimEnd_idem s : trimEnd (trimEnd s) = trimEnd s.
Proof.
  induction s as [|c s IH]; simpl; [reflexivity|].
  destruct (trimEnd s) as [|c' t] eqn:Ht.
  - destruct (isWhiteSpace c) eqn:Hc; simpl; [reflexivity|].
    rewrite Hc. reflexivity.
  - change (trimEnd (c :: c' :: t)) with
      (match trimEnd (c' :: t) with
       | [] => if isWhiteSpace c then [] else [c]
       | u => c :: u
       end).
    rewrite IH. reflexivity.
Qed.

Lemma trimEnd_fixed_cons c s :
  trimEnd (c :: s) = c :: s ->
  trimEnd s = s /\ (isWhiteSpace c = true -> s <> []).
Proof.
  simpl. destruct (trimEnd s) as [|c' t] eqn:Ht.
  - destruct (isWhiteSpace c); [discriminate|].
    intros H. injection H as <-. split; [reflexivity | discriminate].
  - intros H. injection H as <-. split; [reflexivity|].
    intros _. discriminate.
Qed.

Lemma trim_shape s :
  trim s = [] \/ exists c t, trim s = c :: t /\ isWhiteSpace c = false.
Proof.
  unfold trim. induction s as [|c s IH]; simpl; [left; reflexivity|].
  destruct (isWhiteSpace c) eqn:Hc; [exact IH|].
  right. exists c, (trimEnd s). split; [|exact Hc].
  apply trimEnd_cons. exact Hc.
Qed.

Lemma tokensFrom_cur sep s cur :
  cur <> [] -> spec_tokensFrom sep cur s <> [].
Proof.
  revert cur. induction s as [|c s IH]; intros cur Hcur; simpl.
  - unfold emit. destruct cur; [contradiction | discriminate].
  - destruct (sep c).
    + unfold emit. destruct cur; [contradiction | discriminate].
    + apply IH. destruct cur; discriminate.
Qed.

Lemma join_cons sep w ws :
  ws <> [] -> join sep (w :: ws) = w ++ sep ++ join sep ws.
Proof. destruct ws; [contradiction | reflexivity]. Qed.

Lemma collapse_trimmed t :
  trimEnd t = t ->
  (forall cur, cur <> [] ->
     join [SPACE] (spec_tokensFrom isWhiteSpace cur t)
     = cur ++ collapseFrom false t)
  /\ (t <> [] ->
      join [SPACE] (spec_tokensFrom isWhiteSpace [] t) = collapseFrom true t
      /\ spec_tokensFrom isWhiteSpace [] t <> []).
Proof.
  induction t as [|c t IH]; intros Hfix.
  - split; [|contradiction].
    intros cur Hcur. simpl. unfold emit. rewrite app_nil_r.
    destruct cur; [contradiction | reflexivity].
  - destruct (trimEnd_fixed_cons c t Hfix) as [Ht Hwhite].
    destruct (IH Ht) as [IHf IHt]. simpl.
    destruct (isWhiteSpace c) eqn:Hc.
    + destruct (IHt (Hwhite eq_refl)) as [Hjoin Hne]. split.
      * intros cur Hcur. unfold emit.
        destruct cur as [|a cur]; [contradiction|]. simpl nonEmpty. cbv iota.
        change ([a :: cur] ++ spec_tokensFrom isWhiteSpace [] t)
          with ((a :: cur) :: spec_tokensFrom isWhiteSpace [] t).
        rewrite join_cons by exact Hne. rewrite Hjoin. reflexivity.
      * intros _. simpl. split; assumption.
    + split.
      * intros cur Hcur. rewrite IHf by (destruct cur; discriminate).
        rewrite <- app_assoc. reflexivity.
      * intros _. simpl. split.
        -- apply (IHf [c]). discriminate.
        -- apply tokensFrom_cur. discriminate.
Qed.

(** The code against the specification's [normalize(header, false)]. *)
Lemma passthrough_refines s : collapseSpaces (trim s) = spec_passthrough s.
Proof.
  unfold spec_passthrough, collapseSpaces.
  rewrite <- (tokens_trimStart isWhiteSpace s) by auto.
  rewrite <- (tokens_trimEnd isWhiteSpace (trimStart s)) by auto.
  fold (trim s).
  assert (Hfix : trimEnd (trim s) = trim s) by apply trimEnd_idem.
  destruct (trim_shape s) as [-> | (c & t & Heq & Hc)]; [reflexivity|].
  rewrite Heq in *. destruct (trimEnd_fixed_cons c t Hfix) as [Ht _].
  simpl. rewrite Hc. symmetry.
  apply (proj1 (collapse_trimmed t Ht) [c]). discriminate.
Qed.

Lemma filter_trimStart s :
  filter notWhiteSpace (trimStart s) = filter notWhiteSpace s.
Proof.
  unfold notWhiteSpace. induction s as [|c s IH]; simpl; [reflexivity|].
  destruct (isWhiteSpace c) eqn:Hc; simpl; [exact IH|].
  rewrite Hc. reflexivity.
Qed.

Lemma filter_trimEnd s :
  filter notWhiteSpace (trimEnd s) = filter notWhiteSpace s.
Proof.
  unfold notWhiteSpace. induction s as [|c s IH]; simpl; [reflexivity|].
  rewrite <- IH.
  destruct (trimEnd s) as [|c' t]; destruct (isWhiteSpace c) eqn:Hc; simpl;
    rewrite ?Hc; reflexivity.
Qed.

Lemma filter_collapseFrom s :
  forall inRun,
    filter notWhiteSpace (collapseFrom inRun s) = filter notWhiteSpace s.
Proof.
  unfold notWhiteSpace.
  induction s as [|c s IH]; intros inRun; simpl; [reflexivity|].
  destruct (isWhiteSpace c) eqn:Hc; simpl.
  - destruct inRun; simpl; apply IH.
  - rewrite Hc. simpl. rewrite IH. reflexivity.
Qed.

Lemma tokens_whiteSpace s :
  forallb isWhiteSpace s = true -> spec_tokens s = [].
Proof.
  intros H. apply tokensFrom_separators.
  rewrite forallb_forall in *. intros c Hc.
  apply whiteSpace_isSeparator. auto.
Qed.

Ltac camel_example Hlower Hupper :=
  rewrite toCamelCase_refines; unfold spec_camelCase;
  match goal with
  | |- context [spec_tokens ?h] =>
      let ts := eval vm_compute in (spec_tokens h) in
      replace (spec_tokens h) with ts by (vm_compute; reflexivity)
  end;
  cbn [map spec_capitalize];
  repeat (rewrite Hlower by reflexivity);
  repeat (rewrite Hupper by reflexivity);
  vm_compute; reflexivity.

(** C4. With [camelCase] true the header is cut into its tokens (the
    maximal runs of code units other than white space, hyphen, underscore
    and period; none is empty), the first token is lower-cased, every later
    one gets its first character upper-cased and its rest lower-cased, and
    the results are concatenated; a header of white space only, the empty
    one included, gives the empty string.  Where the case conversions are
    the ASCII ones on ASCII strings, the eight examples of the
    specification hold. *)
Theorem toCamelCase_normalization :
  (forall header tokens,
      Tokens isSeparator header tokens ->
      cleanKeyOf true header
      = match tokens with
        | [] => []
        | first :: others =>
            toLowerCase first ++ List.concat (map spec_capitalize others)
        end)
  /\ (forall header, Forall (fun t => t <> []) (spec_tokens header))
  /\ (forall header,
         forallb isWhiteSpace header = true -> cleanKeyOf true header = [])
  /\ ((forall s, forallb isAscii s = true -> toLowerCase s = asciiLower s) ->
      (forall s, forallb isAscii s = true -> toUpperCase s = asciiUpper s) ->
      cleanKeyOf true (str "premiu turneu") = str "premiuTurneu"
      /\ cleanKeyOf true (str "First Name") = str "firstName"
      /\ cleanKeyOf true (str "user_email") = str "userEmail"
      /\ cleanKeyOf true (str "product-category") = str "productCategory"
      /\ cleanKeyOf true (str "Order   Date") = str "orderDate"
      /\ cleanKeyOf true (str "total.amount") = str "totalAmount"
      /\ cleanKeyOf true [] = []
      /\ cleanKeyOf true (str "   ") = []).
Proof.
  unfold cleanKeyOf. split; [|split; [|split]].
  - intros header tokens H. apply Tokens_unique in H. subst tokens.
    apply toCamelCase_refines.
  - intros header. apply tokensFrom_nonEmpty.
  - intros header H. rewrite toCamelCase_refines. unfold spec_camelCase.
    rewrite tokens_whiteSpace by exact H. reflexivity.
  - intros Hlower Hupper.
    repeat split; camel_example Hlower Hupper.
Qed.

(** C9. With [camelCase] false the header is trimmed and every run of
    white space inside it becomes one SPACE: the result is the words of the
    header (its maximal runs of code units that are not white space) with
    one SPACE between two of them, so the code units that are not white
    space, hyphens, underscores and periods included, are kept as they
    are; normalize("  First   Name ", false) is "First Name". *)
Theorem passthrough_normalization :
  (forall header words,
      Tokens isWhiteSpace header words ->
      cleanKeyOf false header = join [SPACE] words)
  /\ (forall header,
         filter notWhiteSpace (cleanKeyOf false header)
         = filter notWhiteSpace header)
  /\ cleanKeyOf false (str "  First   Name ") = str "First Name"
  /\ cleanKeyOf false (str "a-b_c.D") = str "a-b_c.D".
Proof.
  unfold cleanKeyOf. split; [|split; [|split]].
  - intros header words H. apply Tokens_unique in H. subst words.
    apply passthrough_refines.
  - intros header. unfold collapseSpaces, trim.
    rewrite filter_collapseFrom, filter_trimEnd, filter_trimStart.
    reflexivity.
  - vm_compute. reflexivity.
  - vm_compute. reflexivity.
Qed.

(* =============================================================== *)
(** ** The calendar of [toISOString] *)

Section CalendarFacts.
Import Calendar.
Local Open Scope Z_scope.

Lemma DayFromYear_step y :
  DayFromYear (y + 1) = DayFromYear y + DaysInYear y.
Proof.
  unfold DayFromYear, DaysInYear.
  destruct (Z.eqb_spec (y mod 4) 0); destruct (Z.eqb_spec (y mod 100) 0);
    destruct (Z.eqb_spec (y mod 400) 0); cbn [negb];
    Z.to_euclidean_division_equations; lia.
Qed.

Lemma DayFromYear_mono y1 y2 :
  y1 <= y2 -> DayFromYear y1 <= DayFromYear y2.
Proof.
  unfold DayFromYear. intros H. Z.to_euclidean_division_equations; lia.
Qed.

(** [YearFromTime] is the year ECMAScript defines: the last one that
    starts on or before the day of [t]. *)
Lemma YearFromTime_spec t :
  DayFromYear (YearFromTime t) <= Day t < DayFromYear (YearFromTime t + 1).
Proof.
  unfold YearFromTime. set (d := Day t). clearbody d. cbv zeta.
  set (y := 1970 + 400 * d / 146097).
  destruct (Z.ltb_spec d (DayFromYear y)) as [Hlt | Hge].
  - replace (y - 1 + 1) with y by lia. split; [|lia].
    unfold DayFromYear in *. subst y.
    Z.to_euclidean_division_equations; lia.
  - destruct (Z.leb_spec (DayFromYear (y + 1)) d) as [Hle | Hgt].
    + split; [lia|]. unfold DayFromYear in *. subst y.
      Z.to_euclidean_division_equations; lia.
    + lia.
Qed.

Lemma YearFromTime_largest t y :
  DayFromYear y <= Day t -> y <= YearFromTime t.
Proof.
  intros H. destruct (Z.le_gt_cases y (YearFromTime t)) as [|Hgt]; [assumption|].
  pose proof (YearFromTime_spec t) as [_ Hlt].
  pose proof (DayFromYear_mono (YearFromTime t + 1) y). lia.
Qed.

Lemma DaysInYear_leap t : DaysInYear (YearFromTime t) = 365 + InLeapYear t.
Proof.
  unfold InLeapYear, DaysInYear.
  destruct (negb (YearFromTime t mod 4 =? 0)); [reflexivity|].
  destruct (negb (YearFromTime t mod 100 =? 0)); [reflexivity|].
  destruct (negb (YearFromTime t mod 400 =? 0)); reflexivity.
Qed.

Lemma InLeapYear_cases t : InLeapYear t = 0 \/ InLeapYear t = 1.
Proof. unfold InLeapYear. destruct (_ =? _); auto. Qed.

Lemma DayWithinYear_range t : 0 <= DayWithinYear t < 365 + InLeapYear t.
Proof.
  unfold DayWithinYear. pose proof (YearFromTime_spec t) as H.
  rewrite DayFromYear_step, DaysInYear_leap in H. lia.
Qed.

(** The year, month and day of [toISOString] are a date of the civil
    calendar, and it is the date of the day [t] falls on. *)
Lemma calendar_date t :
  1 <= MonthFromTime t + 1 <= 12
  /\ 1 <= DateFromTime t
     <= daysInMonth (YearFromTime t) (MonthFromTime t + 1)
  /\ dayNumber (YearFromTime t) (MonthFromTime t + 1) (DateFromTime t)
     = Day t.
Proof.
  pose proof (DayWithinYear_range t) as Hw.
  pose proof (DaysInYear_leap t) as Hl.
  pose proof (InLeapYear_cases t) as Hc.
  assert (Hd : Day t = DayFromYear (YearFromTime t) + DayWithinYear t)
    by (unfold DayWithinYear; lia).
  unfold dayNumber, DateFromTime, MonthFromTime. rewrite Hd.
  set (w := DayWithinYear t) in *. set (l := InLeapYear t) in *.
  set (y := YearFromTime t) in *.
  assert (H29 : (if DaysInYear y =? 366 then 29 else 28) = 28 + l).
  { rewrite Hl. destruct Hc as [-> | ->]; reflexivity. }
  clearbody w l y. clear Hd Hl.
  repeat match goal with
         | |- context [?a <? ?b] => destruct (Z.ltb_spec a b)
         end;
    cbn [Z.add Z.sub Z.opp Z.to_nat Pos.add Pos.succ Pos.pred_double
         Z.pos_sub];
    repeat match goal with
           | |- context [Pos.to_nat ?p] =>
               let n := eval compute in (Pos.to_nat p) in
               change (Pos.to_nat p) with n
           end;
    cbn [daysBeforeMonth daysInMonth Z.of_nat Pos.of_succ_nat Pos.succ];
    rewrite ?H29; lia.
Qed.

Lemma isDigit_digit x : isDigit (digit x) = true.
Proof.
  unfold isDigit, digit. pose proof (Z.mod_pos_bound x 10 eq_refl) as H.
  apply andb_true_iff. split; apply N.leb_le; lia.
Qed.

Lemma digit_not_T x : (digit x =? 84)%N = false.
Proof.
  unfold digit. pose proof (Z.mod_pos_bound x 10 eq_refl) as H.
  apply N.eqb_neq. lia.
Qed.

Lemma splitAt_first sep pre rest :
  forall cur,
    forallb (fun c => negb (c =? sep)%N) pre = true ->
    splitAt sep cur (pre ++ sep :: rest)
    = (cur ++ pre) :: splitAt sep [] rest.
Proof.
  induction pre as [|c pre IH]; intros cur H; simpl.
  - rewrite N.eqb_refl, app_nil_r. reflexivity.
  - simpl in H. apply andb_true_iff in H. destruct H as [Hc H].
    apply negb_true_iff in Hc. rewrite Hc, IH by exact H.
    rewrite <- app_assoc. reflexivity.
Qed.

Lemma isoDate_no_T t :
  forallb (fun c => negb (c =? 84)%N) (isoDate t) = true.
Proof.
  unfold isoDate, isoYear.
  destruct ((0 <=? YearFromTime t) && (YearFromTime t <=? 9999));
    [|destruct (YearFromTime t <? 0)];
    cbn [pad2 pad3 pad4 pad6 Datatypes.app forallb];
    rewrite ?digit_not_T; reflexivity.
Qed.

Lemma isoDate_ymd t :
  0 <= YearFromTime t <= 9999 ->
  isoDate t
  = spec_ymd (YearFromTime t) (MonthFromTime t + 1) (DateFromTime t)
  /\ isYMD (isoDate t) = true.
Proof.
  intros [H0 H1]. unfold isoDate, isoYear, spec_ymd.
  apply Z.leb_le in H0, H1. rewrite H0, H1. split; [reflexivity|].
  cbn [pad2 pad3 pad4 Datatypes.app str map list_ascii_of_string andb isYMD].
  rewrite !isDigit_digit. reflexivity.
Qed.
End CalendarFacts.

(* =============================================================== *)
(** ** Cell coercion *)

Lemma coerceValue_date t :
  coerceValue (VDate (Some t)) = Normal (VString (Calendar.isoDate t)).
Proof.
  unfold coerceValue, toISOString, bind.
  change (str "T") with [84]. cbn [Datatypes.app].
  rewrite splitAt_first by apply isoDate_no_T. reflexivity.
Qed.

Lemma coerceValue_throws v e :
  coerceValue v = Throw e -> v = VDate None /\ e = InvalidTimeValue.
Proof.
  destruct v as [| | b | n | s | [t|]]; try discriminate.
  - destruct s; discriminate.
  - simpl. intros H. injection H as <-. split; reflexivity.
Qed.

Lemma coerceValue_day t1 t2 :
  Calendar.Day t1 = Calendar.Day t2 ->
  coerceValue (VDate (Some t1)) = coerceValue (VDate (Some t2)).
Proof.
  intros H. rewrite !coerceValue_date.
  unfold Calendar.isoDate, Calendar.DateFromTime, Calendar.MonthFromTime,
    Calendar.InLeapYear, Calendar.DayWithinYear, Calendar.YearFromTime.
  rewrite H. reflexivity.
Qed.

(** C6, as the code has it. A Date with a valid time value is coerced to
    the date part of its ISO string, which depends on the UTC day only;
    when the UTC year is from 0 to 9999 this is YYYY-MM-DD, the date of that
    day in the civil calendar (day 0 is 1970-01-01, a year has 365 days or,
    by the Gregorian rule, 366), and otherwise the year is written with a
    sign and six digits; every instant of 2024-03-15 gives "2024-03-15".
    null, undefined and the empty string become null, every other string,
    number and boolean is returned as it is.  Coercion throws on an invalid
    Date and on nothing else. *)
Theorem coerceValue_cases :
  (forall t,
      let y := Calendar.YearFromTime t in
      let m := (Calendar.MonthFromTime t + 1)%Z in
      let d := Calendar.DateFromTime t in
      (0 <= y <= 9999)%Z ->
      coerceValue (VDate (Some t)) = Normal (VString (spec_ymd y m d))
      /\ isYMD (spec_ymd y m d) = true
      /\ (1 <= m <= 12)%Z /\ (1 <= d <= Calendar.daysInMonth y m)%Z
      /\ Calendar.dayNumber y m d = Calendar.Day t)
  /\ (forall t,
         let y := Calendar.YearFromTime t in
         (y < 0 \/ 9999 < y)%Z ->
         coerceValue (VDate (Some t))
         = Normal (VString
                     ((if (y <? 0)%Z then 45 else 43) :: pad6 (Z.abs y)
                      ++ str "-" ++ pad2 (Calendar.MonthFromTime t + 1)
                      ++ str "-" ++ pad2 (Calendar.DateFromTime t))))
    /\ (forall t1 t2,
         Calendar.Day t1 = Calendar.Day t2 ->
         coerceValue (VDate (Some t1)) = coerceValue (VDate (Some t2)))
  /\ (forall t,
         Calendar.Day t = 19797%Z ->
         coerceValue (VDate (Some t)) = Normal (VString (str "2024-03-15")))
  /\ (Calendar.DayFromYear 1970 = 0%Z
      /\ forall y,
          Calendar.DayFromYear (y + 1)
          = (Calendar.DayFromYear y + Calendar.DaysInYear y)%Z)
  /\ coerceValue VNull = Normal VNull
  /\ coerceValue VUndefined = Normal VNull
  /\ coerceValue (VString []) = Normal VNull
  /\ (forall s, s <> [] -> coerceValue (VString s) = Normal (VString s))
  /\ (forall n, coerceValue (VNumber n) = Normal (VNumber n))
  /\ (forall b, coerceValue (VBool b) = Normal (VBool b))
  /\ (forall v,
         (exists e, coerceValue v = Throw e) <-> v = VDate None)
  /\ coerceValue (VDate None) = Throw InvalidTimeValue.
Proof.
  repeat match goal with |- _ /\ _ => split end; try reflexivity.
  - intros t y m d Hy. rewrite coerceValue_date.
    destruct (isoDate_ymd t Hy) as [Heq Hshape].
    destruct (calendar_date t) as (Hm & Hd & Hday).
    subst y m d. rewrite <- Heq. repeat split; try assumption; lia.
  - intros t y Hy. rewrite coerceValue_date.
    unfold Calendar.isoDate, Calendar.isoYear. fold y.
    replace ((0 <=? y)%Z && (y <=? 9999)%Z) with false; [reflexivity|].
    symmetry. apply andb_false_iff.
    destruct Hy; [left; apply Z.leb_gt | right; apply Z.leb_gt]; lia.
    - intros t1 t2 H. apply coerceValue_day. exact H.
  - intros t H.
    rewrite (coerceValue_day t (19797 * Calendar.msPerDay)%Z)
      by (rewrite H; reflexivity).
    vm_compute. reflexivity.
  - exact DayFromYear_step.
  - intros s Hs. destruct s; [contradiction | reflexivity].
  - intros v. split.
    + intros [e He]. apply coerceValue_throws in He. tauto.
    + intros ->. exists InvalidTimeValue. reflexivity.
Qed.

(* =============================================================== *)
(** ** Objects: reading back what was assigned, and the key order *)

Lemma str_eqb_eq a b : str_eqb a b = true <-> a = b.
Proof.
  unfold str_eqb. destruct (list_eq_dec N.eq_dec a b); split; auto.
  discriminate.
Qed.

Lemma str_eqb_refl a : str_eqb a a = true.
Proof. apply str_eqb_eq. reflexivity. Qed.

Lemma str_eqb_neq a b : a <> b -> str_eqb a b = false.
Proof.
  intros H. destruct (str_eqb a b) eqn:E; [|reflexivity].
  apply str_eqb_eq in E. contradiction.
Qed.

Section ObjectFacts.
Variable V : Type.
Implicit Types (o : jsobject V) (k : jsstring) (v : V).

Lemma objGet_In o k : objGet o k <> None <-> In k (keys o).
Proof.
  induction o as [|[k' v'] o IH]; simpl.
  - split; [congruence | contradiction].
  - destruct (str_eqb k k') eqn:E.
    + apply str_eqb_eq in E. subst. split; [auto | discriminate].
    + rewrite IH. split; [auto|]. intros [->|H]; [|exact H].
      rewrite str_eqb_refl in E. discriminate.
Qed.

Lemma objHas_In o k : objHas o k = true <-> In k (keys o).
Proof.
  rewrite <- objGet_In. unfold objHas.
  destruct (objGet o k); split; congruence.
Qed.

Lemma keys_objReplace o k v : keys (objReplace k v o) = keys o.
Proof.
  induction o as [|[k' v'] o IH]; simpl; [reflexivity|].
  destruct (str_eqb k k'); simpl; [reflexivity|]. rewrite IH. reflexivity.
Qed.

Lemma objGet_objReplace o k v k' :
  objGet (objReplace k v o) k'
  = if str_eqb k' k then (if objHas o k then Some v else None)
    else objGet o k'.
Proof.
  induction o as [|[k0 v0] o IH]; simpl.
  - destruct (str_eqb k' k); reflexivity.
  - unfold objHas in *. simpl.
    destruct (str_eqb k k0) eqn:E0; simpl.
    + apply str_eqb_eq in E0. subst k0.
      destruct (str_eqb k' k); reflexivity.
    + destruct (str_eqb k' k0) eqn:E1.
      * apply str_eqb_eq in E1. subst k0.
        destruct (str_eqb k' k) eqn:E2; [|reflexivity].
        apply str_eqb_eq in E2. subst. rewrite str_eqb_refl in E0.
        discriminate.
      * exact IH.
Qed.

(** Where a new array index lands: somewhere in front, after array
    indices only. *)
Lemma objInsertIndex_split n k v o :
  exists front back,
    o = front ++ back
    /\ objInsertIndex n k v o = front ++ (k, v) :: back
    /\ Forall (fun kv => arrayIndex (fst kv) <> None) front.
Proof.
  induction o as [|[k' v'] o (front & back & Ho & Hins & Hfront)]; simpl.
  - exists [], []. repeat split. constructor.
  - destruct (arrayIndex k') as [n'|] eqn:Hk'.
    + destruct (n' <? n).
      * exists ((k', v') :: front), back. subst o. rewrite Hins.
        repeat split. constructor; [simpl; congruence | exact Hfront].
      * exists [], ((k', v') :: o). repeat split. constructor.
    + exists [], ((k', v') :: o). repeat split. constructor.
Qed.

Lemma objGet_app o1 o2 k :
  objGet (o1 ++ o2) k
  = match objGet o1 k with Some v => Some v | None => objGet o2 k end.
Proof.
  induction o1 as [|[k' v'] o1 IH]; simpl; [reflexivity|].
  destruct (str_eqb k k'); [reflexivity | exact IH].
Qed.

Lemma objGet_insert front back k v k' :
  objGet (front ++ back) k = None ->
  objGet (front ++ (k, v) :: back) k'
  = if str_eqb k' k then Some v else objGet (front ++ back) k'.
Proof.
  rewrite !objGet_app. simpl. intros Hk.
  destruct (str_eqb k' k) eqn:E.
  - apply str_eqb_eq in E. subst k'.
    destruct (objGet front k); [discriminate | reflexivity].
  - reflexivity.
Qed.

Lemma objGet_objSet o k v k' :
  objGet (objSet k v o) k' = if str_eqb k' k then Some v else objGet o k'.
Proof.
  unfold objSet. destruct (objHas o k) eqn:Hhas.
  - rewrite objGet_objReplace, Hhas. reflexivity.
  - assert (Hnone : objGet o k = None).
    { unfold objHas in Hhas. destruct (objGet o k); [discriminate|].
      reflexivity. }
    destruct (arrayIndex k) as [n|].
    + destruct (objInsertIndex_split n k v o)
        as (front & back & Ho & -> & _).
      subst o. apply objGet_insert. exact Hnone.
    + rewrite <- (app_nil_r (o ++ [(k, v)])), <- app_assoc. simpl.
      rewrite objGet_insert by (rewrite app_nil_r; exact Hnone).
      rewrite app_nil_r. reflexivity.
Qed.

Lemma objGet_objSet_same o k v : objGet (objSet k v o) k = Some v.
Proof. rewrite objGet_objSet, str_eqb_refl. reflexivity. Qed.

Lemma objGet_objSet_other o k v k' :
  k' <> k -> objGet (objSet k v o) k' = objGet o k'.
Proof. intros H. rewrite objGet_objSet, str_eqb_neq by exact H. reflexivity. Qed.

Lemma keys_objSet_In o k v k' :
  In k' (keys (objSet k v o)) <-> k' = k \/ In k' (keys o).
Proof.
  rewrite <- !objGet_In, objGet_objSet.
  destruct (str_eqb k' k) eqn:E.
  - apply str_eqb_eq in E. split; [auto | discriminate].
  - split; [auto|]. intros [->|H]; [|exact H].
    rewrite str_eqb_refl in E. discriminate.
Qed.

Lemma keys_objSet_NoDup o k v :
  NoDup (keys o) -> NoDup (keys (objSet k v o)).
Proof.
  intros Hnd. unfold objSet. destruct (objHas o k) eqn:Hhas.
  - rewrite keys_objReplace. exact Hnd.
  - assert (Hnot : ~ In k (keys o)).
    { rewrite <- objHas_In, Hhas. discriminate. }
    destruct (arrayIndex k) as [n|].
    + destruct (objInsertIndex_split n k v o)
        as (front & back & Ho & -> & _).
      subst o. unfold keys in *. rewrite map_app in Hnd, Hnot.
      rewrite map_app. simpl.
      apply NoDup_Add with (a := k) (l := map fst front ++ map fst back);
        [apply Add_app | split; assumption].
    + unfold keys in *. rewrite map_app. simpl.
      apply NoDup_Add with (a := k) (l := map fst o ++ []);
        [apply Add_app | rewrite app_nil_r; split; assumption].
Qed.

Lemma firstNamed_objSet o k0 k v :
  arrayIndex k0 = None ->
  firstNamed k0 o -> firstNamed k0 (objSet k v o).
Proof.
  intros Hk0 (front & back & Hkeys & Hfront). unfold objSet.
  destruct (objHas o k).
  - exists front, back. rewrite keys_objReplace. auto.
  - destruct (arrayIndex k) as [n|] eqn:Hk.
    + destruct (objInsertIndex_split n k v o)
        as (f & b & Ho & -> & Hf).
      subst o. unfold firstNamed, keys in *. rewrite map_app in Hkeys.
      rewrite map_app. simpl.
      assert (Hf' : Forall (fun k' => arrayIndex k' <> None) (map fst f)).
      { apply Forall_map. exact Hf. }
      clear Hf. revert front Hkeys Hfront.
      induction (map fst f) as [|a l IH]; intros front Hkeys Hfront.
      * simpl in *. exists (k :: front), back. rewrite Hkeys.
        split; [reflexivity|]. constructor; [congruence | exact Hfront].
      * inversion Hf' as [|? ? Ha Hl]; subst.
        destruct front as [|a' front]; simpl in Hkeys.
        -- injection Hkeys as -> _. contradiction.
        -- injection Hkeys as -> Hkeys. inversion Hfront; subst.
           destruct (IH Hl front Hkeys) as (front' & back' & E & HF);
             [assumption|].
           exists (a' :: front'), back'. simpl. rewrite E.
           split; [reflexivity|]. constructor; assumption.
    + exists front, (back ++ [k]). unfold keys in *.
      rewrite map_app, Hkeys, <- app_assoc. simpl. auto.
Qed.

(** Assignment to an object made by a literal. *)
Variable unlinks : V -> bool.

Lemma assign_named (l : literal V) k v :
  k <> PROTO ->
  assign unlinks k v l
  = {| own := objSet k v (own l); inheritsObject := inheritsObject l |}.
Proof.
  intros H. unfold assign. rewrite (str_eqb_neq _ _ H). reflexivity.
Qed.

Lemma own_assign_cases (l : literal V) k v :
  (k = PROTO /\ own (assign unlinks k v l) = own l)
  \/ own (assign unlinks k v l) = objSet k v (own l).
Proof.
  unfold assign. destruct (str_eqb k PROTO) eqn:E; [|right; reflexivity].
  apply str_eqb_eq in E.
  destruct (inheritsObject l); [|right; reflexivity].
  destruct (objHas (own l) k); simpl; auto.
Qed.

Lemma objGet_assign_same (l : literal V) k v :
  k <> PROTO -> objGet (own (assign unlinks k v l)) k = Some v.
Proof.
  intros H. rewrite assign_named by exact H. apply objGet_objSet_same.
Qed.

Lemma objGet_assign_other (l : literal V) k v k' :
  k' <> k -> objGet (own (assign unlinks k v l)) k' = objGet (own l) k'.
Proof.
  intros H. destruct (own_assign_cases l k v) as [[_ ->] | ->];
    [reflexivity | apply objGet_objSet_other; exact H].
Qed.

Lemma keys_assign_In (l : literal V) k v k' :
  In k' (keys (own (assign unlinks k v l))) -> k' = k \/ In k' (keys (own l)).
Proof.
  destruct (own_assign_cases l k v) as [[_ ->] | ->];
    [auto | apply keys_objSet_In].
Qed.

Lemma keys_assign_NoDup (l : literal V) k v :
  NoDup (keys (own l)) -> NoDup (keys (own (assign unlinks k v l))).
Proof.
  destruct (own_assign_cases l k v) as [[_ ->] | ->];
    [auto | apply keys_objSet_NoDup].
Qed.

Lemma firstNamed_assign (l : literal V) k0 k v :
  arrayIndex k0 = None ->
  firstNamed k0 (own l) -> firstNamed k0 (own (assign unlinks k v l)).
Proof.
  destruct (own_assign_cases l k v) as [[_ ->] | ->];
    [auto | apply firstNamed_objSet].
Qed.

(** The one assignment that makes no property. *)
Lemma assign_proto (l : literal V) v :
  inheritsObject l = true -> objHas (own l) PROTO = false ->
  assign unlinks PROTO v l
  = {| own := own l; inheritsObject := negb (unlinks v) |}.
Proof.
  intros Hi Hh. unfold assign. rewrite str_eqb_refl, Hi, Hh. reflexivity.
Qed.
End ObjectFacts.

(* =============================================================== *)
(** ** Rows: the [for ... in] loop *)

Lemma isInvalidDate_coerce v :
  isInvalidDate v = true -> coerceValue v = Throw InvalidTimeValue.
Proof. destruct v as [| | | | |[t|]]; try discriminate. reflexivity. Qed.

Lemma coerceValue_valid v :
  isInvalidDate v = false -> exists v', coerceValue v = Normal v'.
Proof.
  intros H. destruct (coerceValue v) as [v'|e] eqn:E; [eauto|].
  apply coerceValue_throws in E. destruct E as [-> _]. discriminate.
Qed.

(** What one turn of the loop does. *)
Lemma assignKey_cases camelCase r cleanRow key :
  (cleanKeyOf camelCase key = []
   /\ assignKey camelCase r cleanRow key = Normal cleanRow)
  \/ (cleanKeyOf camelCase key <> []
      /\ keyThrows camelCase r key = true
      /\ assignKey camelCase r cleanRow key = Throw InvalidTimeValue)
  \/ (cleanKeyOf camelCase key <> []
      /\ keyThrows camelCase r key = false
      /\ exists v,
          coerceValue (get r key) = Normal v
          /\ assignKey camelCase r cleanRow key
             = Normal (assign isNull (cleanKeyOf camelCase key) v cleanRow)).
Proof.
  unfold assignKey, keyThrows.
  destruct (cleanKeyOf camelCase key) as [|c ck] eqn:Hck; simpl.
  - left. auto.
  - right. destruct (isInvalidDate (get r key)) eqn:Hinv.
    + left. rewrite (isInvalidDate_coerce _ Hinv).
      repeat split. discriminate.
    + right. destruct (coerceValue_valid _ Hinv) as [v Hv]. rewrite Hv.
      repeat split; [discriminate|]. exists v. auto.
Qed.

Lemma assignKeys_app camelCase r ks1 ks2 :
  forall cleanRow,
    assignKeys camelCase r cleanRow (ks1 ++ ks2)
    = (cleanRow' <- assignKeys camelCase r cleanRow ks1 ;;
       assignKeys camelCase r cleanRow' ks2).
Proof.
  induction ks1 as [|key ks1 IH]; intros cleanRow; simpl; [reflexivity|].
  destruct (assignKey camelCase r cleanRow key); simpl; auto.
Qed.

(** The loop ends normally unless a kept key holds an invalid Date. *)
Lemma assignKeys_result camelCase r ks :
  forall cleanRow,
    (existsb (keyThrows camelCase r) ks = false ->
     exists o, assignKeys camelCase r cleanRow ks = Normal o)
    /\ (existsb (keyThrows camelCase r) ks = true ->
        assignKeys camelCase r cleanRow ks = Throw InvalidTimeValue).
Proof.
  induction ks as [|key ks IH]; intros cleanRow; simpl.
  - split; [eauto | discriminate].
  - destruct (assignKey_cases camelCase r cleanRow key)
      as [[Hck ->] | [(Hck & Ht & ->) | (Hck & Ht & v & Hv & ->)]]; simpl.
    + unfold keyThrows at 1 3. rewrite Hck. simpl. apply IH.
    + rewrite Ht. simpl. split; [discriminate | reflexivity].
    + rewrite Ht. simpl. apply IH.
Qed.

(** A property of the output row that every assignment of a non-empty
    key keeps holds at the end of the loop. *)
Lemma assignKeys_invariant (P : literal value -> Prop) camelCase r :
  (forall cleanRow k v,
      k <> [] -> P cleanRow -> P (assign isNull k v cleanRow)) ->
  forall ks cleanRow o,
    P cleanRow -> assignKeys camelCase r cleanRow ks = Normal o -> P o.
Proof.
  intros Hset. induction ks as [|key ks IH]; intros cleanRow o HP; simpl.
  - intros H. injection H as <-. exact HP.
  - destruct (assignKey_cases camelCase r cleanRow key)
      as [[Hck ->] | [(Hck & Ht & ->) | (Hck & Ht & v & Hv & ->)]]; simpl.
    + apply IH. exact HP.
    + discriminate.
    + apply IH. apply Hset; assumption.
Qed.

(** Keys that normalize to the empty string leave no trace. *)
Lemma assignKeys_skip camelCase r ks :
  forall cleanRow,
    assignKeys camelCase r cleanRow ks
    = assignKeys camelCase r cleanRow
        (filter (fun key => nonEmpty (cleanKeyOf camelCase key)) ks).
Proof.
  induction ks as [|key ks IH]; intros cleanRow; simpl; [reflexivity|].
  destruct (nonEmpty (cleanKeyOf camelCase key)) eqn:Hne.
  - simpl. destruct (assignKey camelCase r cleanRow key); simpl; auto.
  - unfold assignKey. rewrite Hne. simpl. apply IH.
Qed.

Lemma assignKeys_untouched camelCase r ck ks :
  forall cleanRow o,
    (forall key, In key ks -> cleanKeyOf camelCase key <> ck) ->
    assignKeys camelCase r cleanRow ks = Normal o ->
    objGet (own o) ck = objGet (own cleanRow) ck.
Proof.
  induction ks as [|key ks IH]; intros cleanRow o Hks; simpl.
  - intros H. injection H as <-. reflexivity.
  - destruct (assignKey_cases camelCase r cleanRow key)
      as [[Hck ->] | [(Hck & Ht & ->) | (Hck & Ht & v & Hv & ->)]]; simpl.
    + apply IH. intros k' Hk'. apply Hks. right. exact Hk'.
    + discriminate.
    + intros H. rewrite (IH _ _ (fun k' Hk' => Hks k' (or_intror Hk')) H).
      apply objGet_assign_other. intros E. symmetry in E. revert E.
      apply Hks. left. reflexivity.
Qed.

(** Last write wins: the output holds, under a clean key, the coerced
    cell of the last raw key that normalizes to it. *)
Lemma assignKeys_last camelCase r ks1 key ks2 cleanRow o :
  cleanKeyOf camelCase key <> [] ->
  cleanKeyOf camelCase key <> PROTO ->
  (forall k', In k' ks2 ->
              cleanKeyOf camelCase k' <> cleanKeyOf camelCase key) ->
  assignKeys camelCase r cleanRow (ks1 ++ key :: ks2) = Normal o ->
  exists v,
    coerceValue (get r key) = Normal v
    /\ objGet (own o) (cleanKeyOf camelCase key) = Some v.
Proof.
  intros Hne Hproto Hlater. rewrite assignKeys_app.
  destruct (assignKeys camelCase r cleanRow ks1) as [mid|e]; simpl;
    [|discriminate].
  destruct (assignKey_cases camelCase r mid key)
    as [[Hck _] | [(_ & _ & ->) | (_ & _ & v & Hv & ->)]]; simpl.
  - contradiction.
  - discriminate.
  - intros H. exists v. split; [exact Hv|].
    rewrite (assignKeys_untouched _ _ _ _ _ _ Hlater H).
    apply objGet_assign_same. exact Hproto.
Qed.

(** Every key of the output was in the row under construction or is the
    non-empty clean key of a raw key. *)
Lemma assignKeys_keys camelCase r ks :
  forall cleanRow o,
    assignKeys camelCase r cleanRow ks = Normal o ->
    forall k, In k (keys (own o)) ->
              In k (keys (own cleanRow))
              \/ exists key, In key ks /\ cleanKeyOf camelCase key = k
                             /\ k <> [].
Proof.
  induction ks as [|key ks IH]; intros cleanRow o; simpl.
  - intros H. injection H as <-. auto.
  - destruct (assignKey_cases camelCase r cleanRow key)
      as [[Hck ->] | [(Hck & Ht & ->) | (Hck & Ht & v & Hv & ->)]]; simpl.
    + intros H k Hk. destruct (IH _ _ H k Hk) as [|(k' & Hin & E)]; [auto|].
      right. exists k'. auto.
    + discriminate.
    + intros H k Hk. destruct (IH _ _ H k Hk) as [Hold|(k' & Hin & E)].
      * apply keys_assign_In in Hold. destruct Hold as [-> | Hold]; [|auto].
        right. exists key. auto.
      * right. exists k'. auto.
Qed.

(* =============================================================== *)
(** ** Sheets: filtering and numbering *)

Lemma mapiM_Normal {A B} (f : A -> nat -> completion B) xs :
  forall i ys,
    mapiM f i xs = Normal ys ->
    List.length ys = List.length xs
    /\ forall j x, nth_error xs j = Some x ->
                   exists y, nth_error ys j = Some y
                             /\ f x (i + j)%nat = Normal y.
Proof.
  induction xs as [|x xs IH]; intros i ys; simpl.
  - intros H. injection H as <-. split; [reflexivity|].
    intros [|j] x'; discriminate.
  - destruct (f x i) as [y|e] eqn:Hy; simpl; [|discriminate].
    destruct (mapiM f (S i) xs) as [ys'|e] eqn:Hys; simpl; [|discriminate].
    intros H. injection H as <-. destruct (IH _ _ Hys) as [Hlen Hnth].
    split; [simpl; congruence|]. intros [|j] x' Hx'; simpl in *.
    + injection Hx' as <-. exists y. rewrite Nat.add_0_r. auto.
    + destruct (Hnth j x' Hx') as (y' & Hy' & Hf). exists y'.
      rewrite Nat.add_succ_r. auto.
Qed.

Lemma mapiM_total {A B} (f : A -> nat -> completion B) xs :
  forall i,
    (forall j x, nth_error xs j = Some x ->
                 exists y, f x (i + j)%nat = Normal y) ->
    exists ys, mapiM f i xs = Normal ys.
Proof.
  induction xs as [|x xs IH]; intros i Hf; simpl; [eauto|].
  destruct (Hf 0%nat x eq_refl) as [y Hy]. rewrite Nat.add_0_r in Hy.
  rewrite Hy. simpl. destruct (IH (S i)) as [ys Hys].
  - intros j x' Hx'. specialize (Hf (S j) x' Hx').
    rewrite Nat.add_succ_r in Hf. exact Hf.
  - rewrite Hys. simpl. eauto.
Qed.

Lemma mapiM_Throw {A B} (f : A -> nat -> completion B) xs :
  forall i e,
    mapiM f i xs = Throw e ->
    exists j x, nth_error xs j = Some x /\ f x (i + j)%nat = Throw e.
Proof.
  induction xs as [|x xs IH]; intros i e; simpl; [discriminate|].
  destruct (f x i) as [y|e'] eqn:Hy; simpl.
  - destruct (mapiM f (S i) xs) as [ys'|e'] eqn:Hys; simpl; [discriminate|].
    intros H. injection H as ->. destruct (IH _ _ Hys) as (j & x' & Hx' & Hf).
    exists (S j), x'. rewrite Nat.add_succ_r. auto.
  - intros H. injection H as ->. exists 0%nat, x. rewrite Nat.add_0_r. auto.
Qed.

(** The early return on an empty array is what the general path gives. *)
Lemma processSheetData_rows rows addId camelCase :
  processSheetData (Some rows) addId camelCase
  = mapiM (cleanRowOf addId camelCase) 0 (filter keepRow rows).
Proof. destruct rows; reflexivity. Qed.

Lemma hasContent_spec v :
  hasContent v = true <-> v <> VNull /\ v <> VUndefined /\ v <> VString [].
Proof.
  destruct v as [| | b | n | [|c s] | tv]; simpl; split;
    try discriminate;
    try (intros _; repeat split; discriminate);
    intros (H1 & H2 & H3); exfalso;
    solve [apply H1; reflexivity | apply H2; reflexivity
          | apply H3; reflexivity].
Qed.

Lemma keepRow_spec r : keepRow r = true <-> spec_hasValue r.
Proof.
  unfold keepRow, spec_hasValue. rewrite existsb_exists.
  split; intros (v & Hin & Hv); exists v; (split; [exact Hin|]);
    apply hasContent_spec; exact Hv.
Qed.

Lemma filter_Subsequence {A} (f : A -> bool) xs :
  Subsequence (filter f xs) xs.
Proof.
  induction xs as [|x xs IH]; simpl; [constructor|].
  destruct (f x); constructor; exact IH.
Qed.

Lemma cleanRowOf_result addId camelCase r index :
  (rowThrows camelCase r = false ->
   exists o, cleanRowOf addId camelCase r index = Normal o)
  /\ (rowThrows camelCase r = true ->
      cleanRowOf addId camelCase r index = Throw InvalidTimeValue).
Proof.
  unfold cleanRowOf, rowThrows.
  destruct (assignKeys_result camelCase r (keys r) (newCleanRow addId index))
    as [Hok Hthrow].
  split; intros H.
  - destruct (Hok H) as [l ->]. simpl. eauto.
  - rewrite (Hthrow H). reflexivity.
Qed.

Lemma cleanRowOf_Normal addId camelCase r index o :
  cleanRowOf addId camelCase r index = Normal o ->
  exists cleanRow,
    assignKeys camelCase r (newCleanRow addId index) (keys r)
    = Normal cleanRow
    /\ own cleanRow = o.
Proof.
  unfold cleanRowOf.
  destruct (assignKeys camelCase r (newCleanRow addId index) (keys r))
    as [l|e]; simpl; [|discriminate].
  intros H. injection H as <-. eauto.
Qed.

(** [processSheetData] returns unless a retained row throws. *)
Lemma processSheetData_result rows addId camelCase :
  (existsb (rowThrows camelCase) (filter keepRow rows) = false ->
   exists out, processSheetData (Some rows) addId camelCase = Normal out)
  /\ (existsb (rowThrows camelCase) (filter keepRow rows) = true ->
      processSheetData (Some rows) addId camelCase = Throw InvalidTimeValue).
Proof.
  rewrite processSheetData_rows. split; intros H.
  - apply mapiM_total. intros j r Hr.
    apply cleanRowOf_result.
    destruct (rowThrows camelCase r) eqn:Hthrow; [|reflexivity].
    assert (Hex : existsb (rowThrows camelCase) (filter keepRow rows) = true).
    { apply existsb_exists. exists r. split; [|exact Hthrow].
      eapply nth_error_In. exact Hr. }
    congruence.
  - destruct (mapiM (cleanRowOf addId camelCase) 0 (filter keepRow rows))
      as [out|e] eqn:E.
    + exfalso. apply existsb_exists in H. destruct H as (r & Hin & Hthrow).
      apply In_nth_error in Hin. destruct Hin as [j Hj].
      destruct (mapiM_Normal _ _ _ _ E) as [_ Hnth].
      destruct (Hnth j r Hj) as (o & _ & Ho).
      rewrite (proj2 (cleanRowOf_result addId camelCase r _) Hthrow) in Ho.
      discriminate.
    + destruct (mapiM_Throw _ _ _ _ E) as (j & r & Hj & Hthrow).
      destruct (rowThrows camelCase r) eqn:Hr.
      * rewrite (proj2 (cleanRowOf_result addId camelCase r _) Hr) in Hthrow.
        congruence.
      * destruct (proj1 (cleanRowOf_result addId camelCase r (0 + j)) Hr)
          as [o Ho]. congruence.
Qed.

(** C3. [processSheetData] retains exactly the rows that have a value
    other than null, undefined and the empty string, whatever their keys,
    in their order: it returns one output row for each retained row, the
    i-th made from the i-th retained row.  It returns for every input
    except when a retained row holds an invalid Date under a key that is
    kept, where [toISOString] throws. *)
Theorem processSheetData_filters_empty_rows rows addId camelCase :
  let retained := filter keepRow rows in
  (forall r, keepRow r = true <-> spec_hasValue r)
  /\ (forall r1 r2, values r1 = values r2 -> keepRow r1 = keepRow r2)
  /\ (forall r, In r retained <-> In r rows /\ spec_hasValue r)
  /\ Subsequence retained rows
  /\ (forall out,
         processSheetData (Some rows) addId camelCase = Normal out ->
         List.length out = List.length retained
         /\ forall i r,
             nth_error retained i = Some r ->
             exists o, nth_error out i = Some o
                       /\ cleanRowOf addId camelCase r i = Normal o)
  /\ (existsb (rowThrows camelCase) retained = false ->
      exists out, processSheetData (Some rows) addId camelCase = Normal out)
  /\ (existsb (rowThrows camelCase) retained = true ->
      processSheetData (Some rows) addId camelCase = Throw InvalidTimeValue)
  /\ processSheetData (Some []) addId camelCase = Normal []
  /\ processSheetData None addId camelCase = Normal [].
Proof.
  intros retained. subst retained.
  split; [exact keepRow_spec|].
  split; [intros r1 r2 H; unfold keepRow; rewrite H; reflexivity|].
  split; [intros r; rewrite filter_In, keepRow_spec; reflexivity|].
  split; [apply filter_Subsequence|].
  split.
  - intros out H. rewrite processSheetData_rows in H.
    apply mapiM_Normal in H. exact H.
  - split; [apply processSheetData_result|].
    split; [apply processSheetData_result|]. split; reflexivity.
Qed.

Lemma mapiM_In {A B} (f : A -> nat -> completion B) xs :
  forall i ys y,
    mapiM f i xs = Normal ys -> In y ys ->
    exists j x, nth_error xs j = Some x /\ f x (i + j)%nat = Normal y.
Proof.
  induction xs as [|x xs IH]; intros i ys y; simpl.
  - intros H. injection H as <-. contradiction.
  - destruct (f x i) as [y0|e] eqn:Hy; simpl; [|discriminate].
    destruct (mapiM f (S i) xs) as [ys'|e] eqn:Hys; simpl; [|discriminate].
    intros H. injection H as <-. intros [<- | Hin].
    + exists 0%nat, x. rewrite Nat.add_0_r. auto.
    + destruct (IH _ _ _ Hys Hin) as (j & x' & Hx' & Hf).
      exists (S j), x'. rewrite Nat.add_succ_r. auto.
Qed.

Lemma processSheetData_rowwise rows addId camelCase :
  existsb (rowThrows camelCase) (filter keepRow rows) = false ->
  exists out,
    processSheetData (Some rows) addId camelCase = Normal out
    /\ List.length out = List.length (filter keepRow rows)
    /\ forall i r,
        nth_error (filter keepRow rows) i = Some r ->
        exists o, nth_error out i = Some o
                  /\ cleanRowOf addId camelCase r i = Normal o.
Proof.
  intros H.
  destruct (proj1 (processSheetData_result rows addId camelCase) H)
    as [out Hout].
  exists out. split; [exact Hout|].
  rewrite processSheetData_rows in Hout. apply mapiM_Normal in Hout.
  exact Hout.
Qed.

Lemma retained_row_safe camelCase rows i r :
  existsb (rowThrows camelCase) (filter keepRow rows) = false ->
  nth_error (filter keepRow rows) i = Some r ->
  rowThrows camelCase r = false.
Proof.
  intros H Hr. destruct (rowThrows camelCase r) eqn:E; [|reflexivity].
  rewrite <- H. symmetry. apply existsb_exists. exists r.
  split; [eapply nth_error_In; exact Hr | exact E].
Qed.

Lemma keys_initial addId index k :
  In k (keys (own (newCleanRow addId index))) ->
  addId = true /\ k = str "id".
Proof. destruct addId; simpl; [|contradiction]. intros [<-|[]]. auto. Qed.

Lemma cleanRowOf_keys addId camelCase r index o :
  cleanRowOf addId camelCase r index = Normal o ->
  forall k, In k (keys o) ->
            (addId = true /\ k = str "id")
            \/ exists key, In key (keys r)
                           /\ cleanKeyOf camelCase key = k /\ k <> [].
Proof.
  intros H k Hk. apply cleanRowOf_Normal in H.
  destruct H as (l & H & <-).
  destruct (assignKeys_keys _ _ _ _ _ H k Hk) as [Hinit | Hkey]; [|auto].
  left. eapply keys_initial. exact Hinit.
Qed.

Lemma cleanRowOf_NoDup addId camelCase r index o :
  cleanRowOf addId camelCase r index = Normal o -> NoDup (keys o).
Proof.
  intros H. apply cleanRowOf_Normal in H. destruct H as (l & H & <-).
  revert H.
  apply (assignKeys_invariant (fun l => NoDup (keys (own l)))).
  - intros cleanRow k v _. apply keys_assign_NoDup.
  - destruct addId; simpl; repeat constructor. intros [].
Qed.

Lemma cleanRowOf_firstNamed camelCase r index o :
  cleanRowOf true camelCase r index = Normal o -> firstNamed (str "id") o.
Proof.
  intros H. apply cleanRowOf_Normal in H. destruct H as (l & H & <-).
  revert H.
  apply (assignKeys_invariant (fun l => firstNamed (str "id") (own l))).
  - intros cleanRow k v _. apply firstNamed_assign. reflexivity.
  - exists [], []. split; [reflexivity | constructor].
Qed.

Lemma keys_dropEmptyColumns camelCase r :
  keys (dropEmptyColumns camelCase r)
  = filter (fun key => nonEmpty (cleanKeyOf camelCase key)) (keys r).
Proof.
  unfold dropEmptyColumns, keys.
  induction r as [|[k v] r IH]; simpl; [reflexivity|].
  destruct (nonEmpty (cleanKeyOf camelCase k)); simpl; rewrite IH; reflexivity.
Qed.

Lemma get_dropEmptyColumns camelCase r key :
  nonEmpty (cleanKeyOf camelCase key) = true ->
  get (dropEmptyColumns camelCase r) key = get r key.
Proof.
  intros Hkey. unfold get, dropEmptyColumns.
  induction r as [|[k v] r IH]; simpl; [reflexivity|].
  destruct (str_eqb key k) eqn:E.
  - apply str_eqb_eq in E. subst k. rewrite Hkey. simpl.
    rewrite str_eqb_refl. reflexivity.
  - destruct (nonEmpty (cleanKeyOf camelCase k)); simpl; [rewrite E|];
      exact IH.
Qed.

Lemma assignKeys_ext camelCase r r' ks :
  (forall key, In key ks -> get r key = get r' key) ->
  forall cleanRow,
    assignKeys camelCase r cleanRow ks = assignKeys camelCase r' cleanRow ks.
Proof.
  induction ks as [|key ks IH]; intros Hget cleanRow; simpl; [reflexivity|].
  unfold assignKey at 1 2. rewrite (Hget key (or_introl eq_refl)).
  destruct (negb (nonEmpty (cleanKeyOf camelCase key))); simpl.
  - apply IH. intros k Hk. apply Hget. right. exact Hk.
  - destruct (coerceValue (get r' key)); simpl; [|reflexivity].
    apply IH. intros k Hk. apply Hget. right. exact Hk.
Qed.

(** C7. A raw key whose clean key is the empty string is passed over:
    the turn of the loop changes nothing (and cannot throw), the output row
    is the one the row without such columns gives, and no output row of
    [processSheetData] has the empty string as a key. *)
Theorem empty_clean_key_is_dropped :
  (forall camelCase r cleanRow key,
      cleanKeyOf camelCase key = [] ->
      assignKey camelCase r cleanRow key = Normal cleanRow)
  /\ (forall addId camelCase r index,
         cleanRowOf addId camelCase r index
         = cleanRowOf addId camelCase (dropEmptyColumns camelCase r) index)
  /\ (forall data addId camelCase out,
         processSheetData data addId camelCase = Normal out ->
         forall o, In o out -> ~ In [] (keys o)).
Proof.
  split; [|split].
  - intros camelCase r cleanRow key H. unfold assignKey. rewrite H.
    reflexivity.
  - intros addId camelCase r index. unfold cleanRowOf.
    rewrite keys_dropEmptyColumns, (assignKeys_skip camelCase r (keys r)).
    rewrite (assignKeys_ext camelCase r (dropEmptyColumns camelCase r));
      [reflexivity|].
    intros key Hkey. apply filter_In in Hkey. symmetry.
    apply get_dropEmptyColumns. apply Hkey.
  - intros [rows|] addId camelCase out H o Ho.
    + rewrite processSheetData_rows in H.
      destruct (mapiM_In _ _ _ _ _ H Ho) as (j & r & _ & Hrow).
      intros Hin.
      destruct (cleanRowOf_keys _ _ _ _ _ Hrow _ Hin)
        as [[_ E] | (key & _ & _ & Hne)]; [discriminate | auto].
    + simpl in H. injection H as <-. contradiction.
Qed.

(** Last write wins. When two raw keys of a row normalize to the same
    non-empty clean key other than [__proto__], the second being the last
    key of the row that does, the row is processed as any other (a collision
    throws nothing) and the output row holds under that clean key, once, the
    coerced cell of the second. *)
Theorem key_collision_last_write_wins
    addId camelCase r index ks1 key1 ks2 key2 ks3 :
  keys r = ks1 ++ key1 :: ks2 ++ key2 :: ks3 ->
  cleanKeyOf camelCase key1 = cleanKeyOf camelCase key2 ->
  cleanKeyOf camelCase key2 <> [] ->
  cleanKeyOf camelCase key2 <> PROTO ->
  (forall k, In k ks3 ->
             cleanKeyOf camelCase k <> cleanKeyOf camelCase key2) ->
  rowThrows camelCase r = false ->
  exists o v,
    cleanRowOf addId camelCase r index = Normal o
    /\ coerceValue (get r key2) = Normal v
    /\ objGet o (cleanKeyOf camelCase key2) = Some v
    /\ count_occ (list_eq_dec N.eq_dec) (keys o) (cleanKeyOf camelCase key2)
       = 1%nat.
Proof.
  intros Hkeys _ Hne Hproto Hlast Hsafe.
  destruct (proj1 (cleanRowOf_result addId camelCase r index) Hsafe)
    as [o Ho].
  pose proof (cleanRowOf_NoDup _ _ _ _ _ Ho) as Hnd.
  destruct (cleanRowOf_Normal _ _ _ _ _ Ho) as (l & Hl & <-).
  rewrite Hkeys in Hl.
  replace (ks1 ++ key1 :: ks2 ++ key2 :: ks3)
    with ((ks1 ++ key1 :: ks2) ++ key2 :: ks3) in Hl
    by (rewrite <- app_assoc; reflexivity).
  destruct (assignKeys_last _ _ _ _ _ _ _ Hne Hproto Hlast Hl)
    as (v & Hv & Hget).
  exists (own l), v. repeat split; try assumption.
  apply NoDup_count_occ'; [exact Hnd|].
  apply objGet_In. rewrite Hget. discriminate.
Qed.

(** C10. With [addId] true, a retained row with a raw key that
    normalizes to "id" (the last such key of the row) gets as its [id] the
    coerced cell of that column, which replaces the position written
    first; the output row has one [id] key. *)
Theorem id_column_overrides_position rows camelCase i r ks1 key ks2 :
  existsb (rowThrows camelCase) (filter keepRow rows) = false ->
  nth_error (filter keepRow rows) i = Some r ->
  keys r = ks1 ++ key :: ks2 ->
  cleanKeyOf camelCase key = str "id" ->
  (forall k, In k ks2 -> cleanKeyOf camelCase k <> str "id") ->
  exists out o v,
    processSheetData (Some rows) true camelCase = Normal out
    /\ nth_error out i = Some o
    /\ objGet (own (newCleanRow true i)) (str "id")
       = Some (VNumber (indexNumber i))
    /\ coerceValue (get r key) = Normal v
    /\ objGet o (str "id") = Some v
    /\ count_occ (list_eq_dec N.eq_dec) (keys o) (str "id") = 1%nat.
Proof.
  intros Hsafe Hr Hkeys Hid Hlast.
  destruct (processSheetData_rowwise rows true camelCase Hsafe)
    as (out & Hout & _ & Hrows).
  destruct (Hrows i r Hr) as (o & Ho & Hrow).
  pose proof (cleanRowOf_NoDup _ _ _ _ _ Hrow) as Hnd.
  destruct (cleanRowOf_Normal _ _ _ _ _ Hrow) as (l & Hl & <-).
  rewrite Hkeys in Hl. rewrite <- Hid in Hlast.
  destruct (assignKeys_last _ _ _ _ _ _ _
              ltac:(rewrite Hid; discriminate)
              ltac:(rewrite Hid; discriminate) Hlast Hl)
    as (v & Hv & Hget).
  rewrite Hid in Hget. exists out, (own l), v.
  repeat split; try assumption.
  apply NoDup_count_occ'; [exact Hnd|].
  apply objGet_In. rewrite Hget. discriminate.
Qed.

(** The [id] of a row none of whose keys normalizes to "id" is its
    position among the retained rows. *)
Lemma cleanRowOf_id camelCase r index o :
  cleanRowOf true camelCase r index = Normal o ->
  (forall key, In key (keys r) -> cleanKeyOf camelCase key <> str "id") ->
  objGet o (str "id") = Some (VNumber (indexNumber index)).
Proof.
  intros H Hno. apply cleanRowOf_Normal in H. destruct H as (l & H & <-).
  rewrite (assignKeys_untouched _ _ _ _ _ _ Hno H). reflexivity.
Qed.

Lemma cleanRowOf_id_first camelCase r index o :
  cleanRowOf true camelCase r index = Normal o ->
  (forall key, In key (keys r) ->
               arrayIndex (cleanKeyOf camelCase key) = None) ->
  exists rest, keys o = str "id" :: rest.
Proof.
  intros H Hno.
  destruct (cleanRowOf_firstNamed _ _ _ _ H) as (front & back & E & Hfront).
  destruct front as [|k front]; [exists back; exact E|].
  exfalso. inversion Hfront as [|? ? Hk _]; subst.
  assert (Hin : In k (keys o)) by (rewrite E; left; reflexivity).
  destruct (cleanRowOf_keys _ _ _ _ _ H _ Hin)
    as [[_ ->] | (key & Hkey & <- & _)].
  - apply Hk. reflexivity.
  - apply Hk. apply Hno. exact Hkey.
Qed.

(* =============================================================== *)
(** ** Sheet selection *)

(** After the [forEach], the mapping holds under every sheet name other than
    [__proto__] the processed rows of that sheet. *)
Lemma convertAll_get wb opts names :
  forall result bySheet,
    convertAll wb opts result names = Normal bySheet ->
    (forall name, In name names -> name <> PROTO ->
                  exists rows, convertSheet wb opts name = Normal rows
                               /\ objGet (own bySheet) name = Some rows)
    /\ (forall name, ~ In name names ->
                     objGet (own bySheet) name = objGet (own result) name).
Proof.
  induction names as [|n names IH]; intros result bySheet; simpl.
  - intros H. injection H as <-. split; [contradiction | reflexivity].
  - destruct (convertSheet wb opts n) as [rows|e] eqn:Hn; simpl;
      [|discriminate].
    intros H. destruct (IH _ _ H) as [Hin Hout]. split.
    + intros name Hname Hproto.
      destruct (in_dec (list_eq_dec N.eq_dec) name names) as [Hi|Hni];
        [apply Hin; assumption|].
      destruct Hname as [<- | Hname]; [|contradiction].
      exists rows. split; [exact Hn|].
      rewrite (Hout _ Hni). apply objGet_assign_same. exact Hproto.
    + intros name Hname.
      rewrite Hout by (intros Hlater; apply Hname; right; exact Hlater).
      apply objGet_assign_other. intros ->. apply Hname. left. reflexivity.
Qed.

(** A sheet named [__proto__] leaves nothing in the mapping. *)
Lemma assign_sheet_proto (result : literal (list row)) n rows :
  inheritsObject result = true ->
  ~ In PROTO (keys (own result)) ->
  inheritsObject (assign (fun _ => false) n rows result) = true
  /\ ~ In PROTO (keys (own (assign (fun _ => false) n rows result))).
Proof.
  intros Hi Hno.
  destruct (list_eq_dec N.eq_dec n PROTO) as [-> | Hn].
  - assert (Hnot : objHas (own result) PROTO = false).
    { destruct (objHas (own result) PROTO) eqn:E; [|reflexivity].
      exfalso. apply Hno. apply objHas_In. exact E. }
    rewrite (assign_proto _ _ _ _ Hi Hnot). simpl. auto.
  - rewrite (assign_named _ _ _ _ _ Hn). simpl. split; [exact Hi|].
    intros Hin. apply keys_objSet_In in Hin.
    destruct Hin as [E | Hin]; [apply Hn; symmetry; exact E | exact (Hno Hin)].
Qed.

Lemma convertAll_keys wb opts names :
  forall result bySheet,
    convertAll wb opts result names = Normal bySheet ->
    inheritsObject result = true ->
    ~ In PROTO (keys (own result)) ->
    inheritsObject bySheet = true /\ ~ In PROTO (keys (own bySheet)).
Proof.
  induction names as [|n names IH]; intros result bySheet; simpl.
  - intros H. injection H as <-. auto.
  - destruct (convertSheet wb opts n) as [rows|e]; simpl; [|discriminate].
    intros H Hi Hno.
    destruct (assign_sheet_proto result n rows Hi Hno) as [Hi' Hno'].
    exact (IH _ _ H Hi' Hno').
Qed.

Lemma includes_In names x :
  includes names x = true <-> exists s, x = Some s /\ In s names.
Proof.
  destruct x as [s|]; simpl.
  - rewrite existsb_exists. split.
    + intros (s' & Hin & E). apply str_eqb_eq in E. subst. eauto.
    + intros (s' & E & Hin). injection E as <-. exists s.
      split; [exact Hin | apply str_eqb_refl].
  - split; [discriminate|]. intros (s & E & _). discriminate.
Qed.

Lemma includes_hd names : names <> [] -> includes names (hd_error names) = true.
Proof.
  destruct names as [|n names]; [contradiction|]. intros _. simpl.
  rewrite str_eqb_refl. reflexivity.
Qed.

(** When the target is missing: a sheet was asked for by a non-empty name
    that the workbook does not have, or none was and the workbook has no
    sheet. *)
Lemma target_missing opts names :
  includes names (targetSheetOf opts names) = false
  <-> (exists s, sheet opts = Some s /\ s <> [] /\ ~ In s names)
      \/ ((sheet opts = None \/ sheet opts = Some []) /\ names = []).
Proof.
  unfold targetSheetOf. destruct (sheet opts) as [[|c s]|]; simpl.
  - split.
    + intros H. right. split; [auto|].
      destruct names; [reflexivity|]. rewrite includes_hd in H; discriminate.
    + intros [(s & E & Hs & _) | [_ ->]]; [|reflexivity].
      injection E as <-. contradiction.
  - split.
    + intros H. left. exists (c :: s). repeat split; [discriminate|].
      intros Hin. assert (E : includes names (Some (c :: s)) = true)
        by (apply includes_In; eauto).
      simpl in E. congruence.
    + intros [(s' & E & _ & Hnot) | [[E | E] _]]; try discriminate.
      injection E as <-.
      destruct (existsb (str_eqb (c :: s)) names) eqn:Hex; [|reflexivity].
      exfalso. apply Hnot.
      assert (E : includes names (Some (c :: s)) = true) by exact Hex.
      apply includes_In in E. destruct E as (s' & E & Hin).
      injection E as <-. exact Hin.
  - split.
    + intros H. right. split; [auto|].
      destruct names; [reflexivity|]. rewrite includes_hd in H; discriminate.
    + intros [(s & E & _) | [_ ->]]; [discriminate | reflexivity].
Qed.

Lemma convertSheet_not_SheetNotFound wb opts name t n :
  convertSheet wb opts name <> Throw (SheetNotFound t n).
Proof.
  unfold convertSheet.
  destruct (sheet_to_json (Sheets wb name) (header opts))
    as [raw|msg]; cbn [library bind]; [|discriminate].
  destruct (processSheetData_result raw (negb (noId opts))
              (negb (noCamelCase opts))) as [Hok Hthrow].
  destruct (existsb (rowThrows (negb (noCamelCase opts)))
              (filter keepRow raw)).
  - rewrite Hthrow by reflexivity. discriminate.
  - destruct (Hok eq_refl) as [out ->]. discriminate.
Qed.

(** Single-sheet mode, the workbook read. *)
Lemma convertWorkbook_single wb opts :
  listSheets opts = false -> allSheets opts = false ->
  convertWorkbook wb opts
  = (if includes (SheetNames wb) (targetSheetOf opts (SheetNames wb))
     then
       rows <- convertSheet wb opts
                 (ToString (targetSheetOf opts (SheetNames wb))) ;;
       Normal (Converted (SheetRows rows) (SheetNames wb)
                 (str "Conversion successful"))
     else
       Throw (SheetNotFound (targetSheetOf opts (SheetNames wb))
                (SheetNames wb))).
Proof.
  intros Hl Ha. unfold convertWorkbook. rewrite Hl, Ha.
  destruct (includes (SheetNames wb) (targetSheetOf opts (SheetNames wb)));
    simpl; [|reflexivity].
  destruct (convertSheet wb opts _); reflexivity.
Qed.

Lemma convertTry_read filePath opts wb :
  existsSync filePath = true -> readFile filePath = Returns wb ->
  convertTry filePath opts = convertWorkbook wb opts.
Proof. intros He Hr. unfold convertTry. rewrite He, Hr. reflexivity. Qed.

Lemma convertAll_total wb opts names :
  forall result,
    (forall name, In name names ->
                  exists rows, convertSheet wb opts name = Normal rows) ->
    exists bySheet, convertAll wb opts result names = Normal bySheet.
Proof.
  induction names as [|n names IH]; intros result H; simpl; [eauto|].
  destruct (H n (or_introl eq_refl)) as [rows ->]. simpl.
  apply IH. intros name Hname. apply H. right. exact Hname.
Qed.

Lemma convertSheet_Normal wb opts name rows :
  convertSheet wb opts name = Normal rows <->
  exists raw,
    sheet_to_json (Sheets wb name) (header opts) = Returns raw
    /\ processSheetData (Some raw) (negb (noId opts))
         (negb (noCamelCase opts)) = Normal rows.
Proof.
  unfold convertSheet.
  destruct (sheet_to_json (Sheets wb name) (header opts))
    as [raw|msg]; cbn [library bind].
  - split; [eauto|]. intros (raw' & E & H). injection E as <-. exact H.
  - split; [discriminate|]. intros (raw' & E & _). discriminate.
Qed.

(** C1, as the code has it. With [addId] true every output row has an
    [id], placed before every key that is not an array index (so first,
    when no clean key of the row is an array index), and for a retained row
    none of whose keys normalizes to "id" it is the position of the row
    among the retained rows, counted from 0; with N retained rows these
    are 0..N-1.  In all-sheets mode each sheet name maps to what
    [processSheetData] makes of the rows of that sheet alone, so the
    numbering starts at 0 in each sheet (a sheet named [__proto__] apart:
    the assignment of line 205 makes no property of that name). *)
Theorem sequential_ids :
  (forall rows camelCase,
      existsb (rowThrows camelCase) (filter keepRow rows) = false ->
      exists out,
        processSheetData (Some rows) true camelCase = Normal out
        /\ List.length out = List.length (filter keepRow rows)
        /\ forall i r,
            nth_error (filter keepRow rows) i = Some r ->
            exists o,
              nth_error out i = Some o
              /\ In (str "id") (keys o)
              /\ firstNamed (str "id") o
              /\ ((forall key, In key (keys r) ->
                               cleanKeyOf camelCase key <> str "id") ->
                  objGet o (str "id") = Some (VNumber (indexNumber i)))
              /\ ((forall key, In key (keys r) ->
                               arrayIndex (cleanKeyOf camelCase key) = None)
                  -> exists rest, keys o = str "id" :: rest))
  /\ (forall wb opts,
         listSheets opts = false -> allSheets opts = true ->
         (forall name, In name (SheetNames wb) ->
                       exists rows, convertSheet wb opts name = Normal rows)
         ->
                  exists bySheet,
           convertWorkbook wb opts
           = Normal (Converted (SheetMap bySheet) (SheetNames wb)
                       (str "Conversion successful"))
           /\ forall name,
               In name (SheetNames wb) -> name <> PROTO ->
               exists raw rows,
                 sheet_to_json (Sheets wb name) (header opts)
                 = Returns raw
                 /\ processSheetData (Some raw) (negb (noId opts))
                      (negb (noCamelCase opts)) = Normal rows
                 /\ objGet bySheet name = Some rows).
Proof.
  split.
  - intros rows camelCase Hsafe.
    destruct (processSheetData_rowwise rows true camelCase Hsafe)
      as (out & Hout & Hlen & Hrows).
    exists out. repeat split; try assumption.
    intros i r Hr. destruct (Hrows i r Hr) as (o & Ho & Hrow).
    exists o. pose proof (cleanRowOf_firstNamed _ _ _ _ Hrow) as Hfirst.
    repeat split; try assumption.
    + destruct Hfirst as (front & back & E & _). rewrite E.
      apply in_or_app. right. left. reflexivity.
    + intros Hno. exact (cleanRowOf_id _ _ _ _ Hrow Hno).
    + intros Hno. exact (cleanRowOf_id_first _ _ _ _ Hrow Hno).
  - intros wb opts Hl Ha Hall. unfold convertWorkbook. rewrite Hl, Ha.
    destruct (convertAll_total wb opts (SheetNames wb) emptyLiteral Hall)
      as [bySheet HbySheet].
    exists (own bySheet). rewrite HbySheet. split; [reflexivity|].
    intros name Hname Hproto.
    destruct (proj1 (convertAll_get _ _ _ _ _ HbySheet) name Hname Hproto)
      as (rows & Hrows & Hget).
    apply convertSheet_Normal in Hrows. destruct Hrows as (raw & Hraw & Hp).
    exists raw, rows. auto.
Qed.

(** C2, as the code has it. On a workbook without sheets (no listing
    asked for) the conversion fails in single-sheet mode, with the
    sheet-not-found error for the sheet asked for, or for "undefined" when
    none was; in all-sheets mode it succeeds with an empty mapping. *)
Theorem empty_workbook filePath opts wb :
  existsSync filePath = true ->
  readFile filePath = Returns wb ->
  SheetNames wb = [] ->
  listSheets opts = false ->
  (allSheets opts = false ->
   convertTry filePath opts
   = Throw (SheetNotFound (targetSheetOf opts []) [])
   /\ convertExcelToJson filePath opts
      = Failed (str "Sheet " ++ [QUOTE] ++ ToString (targetSheetOf opts [])
                ++ [QUOTE] ++ str " not found. Available sheets: ")
   /\ (sheet opts = None -> ToString (targetSheetOf opts []) = str "undefined"))
  /\ (allSheets opts = true ->
      convertExcelToJson filePath opts
      = Converted (SheetMap []) [] (str "Conversion successful")).
Proof.
  intros He Hr Hnames Hl. unfold convertExcelToJson.
  rewrite (convertTry_read _ opts _ He Hr). split; intros Ha.
  - rewrite (convertWorkbook_single wb opts Hl Ha), Hnames.
    assert (Hmiss : includes [] (targetSheetOf opts []) = false).
    { unfold targetSheetOf. destruct (sheet opts) as [[|c s]|]; reflexivity. }
    rewrite Hmiss. split; [reflexivity|]. split; [reflexivity|].
    intros Hnone. unfold targetSheetOf. rewrite Hnone. reflexivity.
  - unfold convertWorkbook. rewrite Hl, Ha, Hnames. reflexivity.
Qed.

(** C5, as the code has it. In single-sheet mode the target is
    [options.sheet] when that is a non-empty string and the first sheet
    name otherwise.  The conversion throws the sheet-not-found error
    exactly when the target is not a sheet name, that is when a non-empty
    name was asked for that the workbook does not have, or none was and the
    workbook has no sheet; the error names the target and all the sheet
    names.  When it succeeds the data is the array of the processed rows of
    the target sheet, with no mapping around it. *)
Theorem single_sheet_selection filePath opts wb :
  existsSync filePath = true ->
  readFile filePath = Returns wb ->
  listSheets opts = false ->
  allSheets opts = false ->
  let names := SheetNames wb in
  let target := targetSheetOf opts names in
  (forall s, sheet opts = Some s -> s <> [] -> target = Some s)
  /\ (sheet opts = None \/ sheet opts = Some [] -> target = hd_error names)
  /\ ((exists requested available,
          convertTry filePath opts
          = Throw (SheetNotFound requested available))
      <-> includes names target = false)
  /\ (includes names target = false
      <-> (exists s, sheet opts = Some s /\ s <> [] /\ ~ In s names)
          \/ ((sheet opts = None \/ sheet opts = Some []) /\ names = []))
  /\ (includes names target = false ->
      convertTry filePath opts = Throw (SheetNotFound target names)
      /\ convertExcelToJson filePath opts
         = Failed (str "Sheet " ++ [QUOTE] ++ ToString target ++ [QUOTE]
                   ++ str " not found. Available sheets: "
                   ++ join (str ", ") names))
  /\ (forall result,
         convertExcelToJson filePath opts = result ->
         (forall error, result <> Failed error) ->
         exists s raw rows,
           target = Some s /\ In s names
           /\ sheet_to_json (Sheets wb s) (header opts)
              = Returns raw
           /\ processSheetData (Some raw) (negb (noId opts))
                (negb (noCamelCase opts)) = Normal rows
           /\ result = Converted (SheetRows rows) names
                         (str "Conversion successful"))
  /\ (forall s raw rows,
         target = Some s -> In s names ->
         sheet_to_json (Sheets wb s) (header opts) = Returns raw ->
         processSheetData (Some raw) (negb (noId opts))
           (negb (noCamelCase opts)) = Normal rows ->
         convertExcelToJson filePath opts
         = Converted (SheetRows rows) names (str "Conversion successful")).
Proof.
  intros He Hr Hl Ha names target.
  assert (Hconv : convertTry filePath opts
                  = (if includes names target
                     then
                       rows <- convertSheet wb opts (ToString target) ;;
                       Normal (Converted (SheetRows rows) names
                                 (str "Conversion successful"))
                     else Throw (SheetNotFound target names))).
  { rewrite (convertTry_read _ opts _ He Hr).
    apply convertWorkbook_single; assumption. }
  split; [|split; [|split; [|split; [|split; [|split]]]]].
  - intros s Hs Hne. subst target. unfold targetSheetOf. rewrite Hs.
    destruct s; [contradiction | reflexivity].
  - intros [H | H]; subst target; unfold targetSheetOf; rewrite H;
      reflexivity.
  - rewrite Hconv. destruct (includes names target) eqn:Hinc.
    + split; [|discriminate]. intros (t & n & H). exfalso.
      destruct (convertSheet wb opts (ToString target)) as [rows|e] eqn:Hs;
        simpl in H; [discriminate|].
      injection H as ->. eapply convertSheet_not_SheetNotFound. exact Hs.
    + split; [reflexivity|]. intros _. eauto.
  - apply target_missing.
  - intros Hinc. unfold convertExcelToJson. rewrite Hconv, Hinc.
    split; reflexivity.
  - intros result Hres Hok. unfold convertExcelToJson in Hres.
    rewrite Hconv in Hres.
    destruct (includes names target) eqn:Hinc.
    + apply includes_In in Hinc. destruct Hinc as (s & Htarget & Hin).
      rewrite Htarget in Hres. simpl ToString in Hres.
      destruct (convertSheet wb opts s) as [rows|e] eqn:Hs; simpl in Hres.
      * apply convertSheet_Normal in Hs. destruct Hs as (raw & Hraw & Hp).
        exists s, raw, rows. auto.
      * exfalso. eapply Hok. symmetry. exact Hres.
    + exfalso. eapply Hok. symmetry. exact Hres.
  - intros s raw rows Htarget Hin Hraw Hp. unfold convertExcelToJson.
    rewrite Hconv.
    assert (Hinc : includes names target = true)
      by (apply includes_In; eauto).
    rewrite Hinc, Htarget. simpl ToString.
    assert (Hs : convertSheet wb opts s = Normal rows)
      by (apply convertSheet_Normal; eauto).
    rewrite Hs. reflexivity.
Qed.

(* =============================================================== *)
(** ** Normalized keys: fixed points, dropped headers, separators *)

Lemma tokensFrom_clean sep s :
  forall cur,
    forallb (fun c => negb (sep c)) cur = true ->
    Forall (fun t => forallb (fun c => negb (sep c)) t = true)
      (spec_tokensFrom sep cur s).
Proof.
  induction s as [|c s IH]; intros cur Hcur; cbn [spec_tokensFrom].
  - unfold emit. destruct (nonEmpty cur); constructor; [exact Hcur | constructor].
  - destruct (sep c) eqn:Hc.
    + apply Forall_app. split.
      * unfold emit. destruct (nonEmpty cur); constructor;
          [exact Hcur | constructor].
      * apply IH. reflexivity.
    + apply IH. rewrite forallb_app, Hcur. cbn [forallb].
      rewrite Hc. reflexivity.
Qed.

Lemma Tokens_join sep ws :
  sep SPACE = true ->
  Forall (fun t => t <> []) ws ->
  Forall (fun t => forallb (fun c => negb (sep c)) t = true) ws ->
  Tokens sep (join [SPACE] ws) ws.
Proof.
  intros Hsep Hne Hclean.
  induction ws as [|w ws IH].
  - apply Tokens_none. reflexivity.
  - inversion Hne as [|? ? Hw Hne']; subst.
    inversion Hclean as [|? ? Hcw Hclean']; subst.
    specialize (IH Hne' Hclean').
    destruct ws as [|w2 ws].
    + cbn [join].
      replace w with ([] ++ w ++ []) at 1 by (cbn; apply app_nil_r).
      apply Tokens_more; try reflexivity; assumption.
    + change (join [SPACE] (w :: w2 :: ws))
        with (w ++ [SPACE] ++ join [SPACE] (w2 :: ws)).
      change (w ++ [SPACE] ++ join [SPACE] (w2 :: ws))
        with ([] ++ w ++ (SPACE :: join [SPACE] (w2 :: ws))).
      apply Tokens_more; try reflexivity; try assumption.
      * cbn [firstn forallb]. rewrite Hsep. reflexivity.
      * apply Tokens_separator; assumption.
Qed.

Lemma tokensFrom_join sep s :
  sep SPACE = true ->
  spec_tokensFrom sep [] (join [SPACE] (spec_tokensFrom sep [] s))
  = spec_tokensFrom sep [] s.
Proof.
  intros Hsep. symmetry. apply Tokens_unique.
  apply Tokens_join.
  - exact Hsep.
  - apply tokensFrom_nonEmpty.
  - apply tokensFrom_clean. reflexivity.
Qed.

Lemma tokens_passthrough s :
  spec_tokens (collapseSpaces (trim s)) = spec_tokens s.
Proof.
  unfold collapseSpaces, trim, spec_tokens.
  rewrite (proj1 (tokens_collapseFrom _)).
  rewrite tokens_trimEnd, tokens_trimStart by exact whiteSpace_isSeparator.
  reflexivity.
Qed.

(** Normalizing a key that is already normalized without camelCase gives
    what normalizing the header gives, in both modes: the normalization
    without camelCase is idempotent, and camelCase after it is camelCase.
    So a sheet that is converted with its column names kept, and converted
    again from the output, has the keys of a direct conversion. *)
Theorem normalization_after_passthrough camelCase key :
  cleanKeyOf camelCase (cleanKeyOf false key) = cleanKeyOf camelCase key.
Proof.
  destruct camelCase; cbn [cleanKeyOf].
  - rewrite !toCamelCase_refines. unfold spec_camelCase.
    rewrite tokens_passthrough. reflexivity.
  - rewrite !passthrough_refines.
    unfold spec_passthrough. rewrite tokensFrom_join; reflexivity.
Qed.

Lemma tokensFrom_nil sep s :
  spec_tokensFrom sep [] s = [] <-> forallb sep s = true.
Proof.
  split; [| apply tokensFrom_separators].
  induction s as [|c s IH]; intros H; [reflexivity |].
  cbn [spec_tokensFrom] in H. cbn [forallb].
  destruct (sep c) eqn:Hc.
  - cbn in H. rewrite (IH H). reflexivity.
  - exfalso. revert H. apply tokensFrom_cur. intros E. discriminate E.
Qed.

Lemma join_nonEmpty sep w ws : w <> [] -> join sep (w :: ws) <> [].
Proof.
  intros Hw. destruct ws as [|w2 ws].
  - exact Hw.
  - change (join sep (w :: w2 :: ws)) with (w ++ sep ++ join sep (w2 :: ws)).
    destruct w; [congruence | discriminate].
Qed.

(** Which headers are dropped: the clean key is empty exactly when
    the header consists of separators only (white space, hyphens,
    underscores and periods) with camelCase, and of white space only
    without; the case conversion is taken not to erase a word. *)
Theorem empty_clean_key_characterized camelCase key :
  (forall w, w <> [] -> toLowerCase w <> []) ->
  cleanKeyOf camelCase key = []
  <-> forallb (if camelCase then isSeparator else isWhiteSpace) key = true.
Proof.
  intros Hlower. destruct camelCase; cbn [cleanKeyOf].
  - rewrite toCamelCase_refines. unfold spec_camelCase, spec_tokens.
    rewrite <- tokensFrom_nil.
    pose proof (tokensFrom_nonEmpty isSeparator key []) as Hne.
    destruct (spec_tokensFrom isSeparator [] key) as [|first others].
    + split; reflexivity.
    + inversion Hne as [|? ? Hfirst _]; subst.
      split; intros H; [| discriminate H].
      exfalso. apply (Hlower first Hfirst).
      destruct (toLowerCase first); [reflexivity | discriminate H].
  - unfold cleanKeyOf. rewrite passthrough_refines. unfold spec_passthrough.
    rewrite <- tokensFrom_nil.
    pose proof (tokensFrom_nonEmpty isWhiteSpace key []) as Hne.
    destruct (spec_tokensFrom isWhiteSpace [] key) as [|first others].
    + split; reflexivity.
    + inversion Hne as [|? ? Hfirst _]; subst.
      split; intros H; [| discriminate H].
      exfalso. revert H. apply join_nonEmpty. exact Hfirst.
Qed.

Lemma forallb_concat {A} (f : A -> bool) (xss : list (list A)) :
  Forall (fun xs => forallb f xs = true) xss ->
  forallb f (List.concat xss) = true.
Proof.
  induction 1 as [|xs xss Hxs _ IH]; [reflexivity |].
  cbn [List.concat]. rewrite forallb_app, Hxs, IH. reflexivity.
Qed.

Lemma passthrough_fixed s :
  forallb notSeparator s = true -> collapseSpaces (trim s) = s.
Proof.
  intros Hs. rewrite passthrough_refines. unfold spec_passthrough.
  assert (Hw : forallb (fun c => negb (isWhiteSpace c)) s = true).
  { apply forallb_forall. intros c Hc.
    pose proof (proj1 (forallb_forall _ _) Hs c Hc) as Hsep.
    unfold notSeparator in Hsep.
    destruct (isWhiteSpace c) eqn:Hwc; [| reflexivity].
    rewrite (whiteSpace_isSeparator _ Hwc) in Hsep. discriminate Hsep. }
  pose proof (tokensFrom_read isWhiteSpace s [] [] Hw) as Hread.
  rewrite app_nil_r in Hread. rewrite Hread.
  cbn [Datatypes.app spec_tokensFrom]. unfold emit.
  destruct s; reflexivity.
Qed.

(** With camelCase a clean key holds no separator: no white space,
    hyphen, underscore or period, provided the case conversions make none
    from words that have none.  So it is never [__proto__], the one key
    for which an assignment to the output row is lost, and the
    normalization without camelCase leaves it as it is. *)
Theorem camelCase_key_has_no_separator key :
  (forall w, forallb notSeparator w = true ->
             forallb notSeparator (toLowerCase w) = true) ->
  (forall w, forallb notSeparator w = true ->
             forallb notSeparator (toUpperCase w) = true) ->
  forallb notSeparator (cleanKeyOf true key) = true
  /\ cleanKeyOf true key <> PROTO
  /\ cleanKeyOf false (cleanKeyOf true key) = cleanKeyOf true key.
Proof.
  intros Hlower Hupper.
  assert (Hclean : forallb notSeparator (cleanKeyOf true key) = true).
  { cbn [cleanKeyOf]. rewrite toCamelCase_refines.
    unfold spec_camelCase, spec_tokens.
    pose proof (tokensFrom_clean isSeparator key [] eq_refl) as Hts.
    destruct (spec_tokensFrom isSeparator [] key) as [|first others];
      [reflexivity |].
    inversion Hts as [|? ? Hfirst Hothers]; subst.
    rewrite forallb_app. rewrite (Hlower first Hfirst). cbn [andb].
    apply forallb_concat. apply Forall_map.
    revert Hothers. apply Forall_impl. intros t Ht.
    destruct t as [|c rest]; [reflexivity |].
    cbn [spec_capitalize]. cbn [forallb] in Ht.
    apply andb_prop in Ht. destruct Ht as [Hc Hrest].
    rewrite forallb_app. rewrite (Hlower rest Hrest).
    rewrite Hupper; [reflexivity |].
    cbn [forallb]. unfold notSeparator. rewrite Hc. reflexivity. }
  split; [exact Hclean |]. split.
  - intros E. rewrite E in Hclean. vm_compute in Hclean. discriminate Hclean.
  - exact (passthrough_fixed _ Hclean).
Qed.

(* =============================================================== *)
(** ** Output rows: cells, keys and their order *)

Lemma isoDate_nonEmpty t : nonEmpty (Calendar.isoDate t) = true.
Proof.
  unfold Calendar.isoDate.
  destruct (Calendar.isoYear (Calendar.YearFromTime t)); reflexivity.
Qed.

Lemma coerceValue_plain v v' :
  coerceValue v = Normal v' -> isPlain v' = true.
Proof.
  destruct v as [| |b|n|s|[t|]]; try (intros H; injection H as <-; reflexivity).
  - destruct s; intros H; injection H as <-; reflexivity.
  - rewrite coerceValue_date. intros H. injection H as <-.
    apply isoDate_nonEmpty.
  - intros H. discriminate H.
Qed.

Lemma isPlain_fixed v : isPlain v = true -> coerceValue v = Normal v.
Proof.
  destruct v as [| |b|n|s|tv]; try reflexivity; try discriminate.
  destruct s; [discriminate | reflexivity].
Qed.

Lemma values_objReplace_In (o : row) k v x :
  In x (values (objReplace k v o)) -> x = v \/ In x (values o).
Proof.
  induction o as [|[k' v'] o IH]; cbn [objReplace]; [intros [] |].
  destruct (str_eqb k k').
  - cbn. intros [E | H]; [left; symmetry; exact E | right; right; exact H].
  - cbn. intros [E | H]; [right; left; exact E |].
    destruct (IH H) as [E | H']; [left; exact E | right; right; exact H'].
Qed.

Lemma values_objSet_In (o : row) k v x :
  In x (values (objSet k v o)) -> x = v \/ In x (values o).
Proof.
  unfold objSet. destruct (objHas o k).
  - apply values_objReplace_In.
  - destruct (arrayIndex k) as [n|].
    + destruct (objInsertIndex_split _ n k v o)
        as (front & back & Ho & Hins & _).
      rewrite Hins, Ho. unfold values. rewrite !map_app. cbn [map snd].
      rewrite !in_app_iff. cbn [In].
      intros [H | [E | H]];
        [right; left; exact H | left; symmetry; exact E | right; right; exact H].
    + unfold values. rewrite map_app, in_app_iff. cbn.
      intros [H | [E | []]]; [right; exact H | left; symmetry; exact E].
Qed.

Lemma values_assign_In (l : literal value) k v x :
  In x (values (own (assign isNull k v l))) -> x = v \/ In x (values (own l)).
Proof.
  destruct (own_assign_cases _ isNull l k v) as [[_ E] | E]; rewrite E.
  - intros H. right. exact H.
  - apply values_objSet_In.
Qed.

Lemma assignKeys_plain camelCase r ks :
  forall cleanRow o,
    (forall x, In x (values (own cleanRow)) -> isPlain x = true) ->
    assignKeys camelCase r cleanRow ks = Normal o ->
    forall x, In x (values (own o)) -> isPlain x = true.
Proof.
  induction ks as [|key ks IH]; intros cleanRow o Hinit H; cbn [assignKeys] in H.
  - injection H as <-. exact Hinit.
  - destruct (assignKey_cases camelCase r cleanRow key)
      as [[_ E] | [(_ & _ & E) | (_ & _ & v & Hv & E)]];
      rewrite E in H; cbn [bind] in H.
    + exact (IH _ _ Hinit H).
    + discriminate H.
    + refine (IH _ _ _ H). intros x Hx.
      destruct (values_assign_In _ _ _ _ Hx) as [-> | Hx'].
      * exact (coerceValue_plain _ _ Hv).
      * exact (Hinit x Hx').
Qed.

Lemma newCleanRow_plain addId index x :
  In x (values (own (newCleanRow addId index))) -> isPlain x = true.
Proof.
  unfold newCleanRow. destruct addId; [| intros []].
  intros H. destruct (values_assign_In _ _ _ _ H) as [-> | []]. reflexivity.
Qed.

Lemma cleanRowOf_plain addId camelCase r index o :
  cleanRowOf addId camelCase r index = Normal o ->
  forall x, In x (values o) -> isPlain x = true.
Proof.
  intros H. destruct (cleanRowOf_Normal _ _ _ _ _ H) as (cleanRow & Hk & <-).
  refine (assignKeys_plain _ _ _ _ _ _ Hk).
  apply newCleanRow_plain.
Qed.

Lemma processSheetData_In data addId camelCase out o :
  processSheetData data addId camelCase = Normal out ->
  In o out ->
  exists i r rows,
    data = Some rows
    /\ nth_error (filter keepRow rows) i = Some r
    /\ cleanRowOf addId camelCase r i = Normal o.
Proof.
  intros H Ho. destruct data as [rows|].
  - rewrite processSheetData_rows in H.
    destruct (mapiM_In _ _ _ _ _ H Ho) as (j & x & Hx & Hf).
    exists j, x, rows. repeat split; assumption.
  - injection H as <-. destruct Ho.
Qed.

(** Every cell of every output row is null, a boolean, a number or
    a string that is not empty: no output row holds [undefined], the empty
    string or a Date.  Coercion leaves such a cell as it is, so processing
    output rows again does not change their cells. *)
Theorem output_cells_plain data addId camelCase out o v :
  processSheetData data addId camelCase = Normal out ->
  In o out -> In v (values o) ->
  isPlain v = true /\ coerceValue v = Normal v.
Proof.
  intros H Ho Hv.
  destruct (processSheetData_In _ _ _ _ _ H Ho) as (i & r & rows & _ & _ & Hr).
  pose proof (cleanRowOf_plain _ _ _ _ _ Hr v Hv) as Hp.
  split; [exact Hp | apply isPlain_fixed; exact Hp].
Qed.

Lemma processSheetData_nth rows addId camelCase out i r o :
  processSheetData (Some rows) addId camelCase = Normal out ->
  nth_error (filter keepRow rows) i = Some r ->
  nth_error out i = Some o ->
  cleanRowOf addId camelCase r i = Normal o.
Proof.
  intros H Hr Ho. rewrite processSheetData_rows in H.
  destruct (mapiM_Normal _ _ _ _ H) as [_ Hnth].
  destruct (Hnth i r Hr) as (y & Hy & Hf).
  rewrite Ho in Hy. injection Hy as <-. exact Hf.
Qed.

Lemma keys_assign_keep (l : literal value) k v k' :
  In k' (keys (own l)) -> In k' (keys (own (assign isNull k v l))).
Proof.
  intros H. destruct (own_assign_cases _ isNull l k v) as [[_ E] | E]; rewrite E.
  - exact H.
  - apply keys_objSet_In. right. exact H.
Qed.

Lemma assignKeys_keep camelCase r ks :
  forall cleanRow o k,
    assignKeys camelCase r cleanRow ks = Normal o ->
    In k (keys (own cleanRow)) -> In k (keys (own o)).
Proof.
  induction ks as [|key ks IH]; intros cleanRow o k H Hk; cbn [assignKeys] in H.
  - injection H as <-. exact Hk.
  - destruct (assignKey_cases camelCase r cleanRow key)
      as [[_ E] | [(_ & _ & E) | (_ & _ & v & _ & E)]];
      rewrite E in H; cbn [bind] in H.
    + exact (IH _ _ _ H Hk).
    + discriminate H.
    + refine (IH _ _ _ H _). apply keys_assign_keep. exact Hk.
Qed.

Lemma assignKeys_has camelCase r ks :
  forall cleanRow o key,
    assignKeys camelCase r cleanRow ks = Normal o ->
    In key ks ->
    cleanKeyOf camelCase key <> [] ->
    cleanKeyOf camelCase key <> PROTO ->
    In (cleanKeyOf camelCase key) (keys (own o)).
Proof.
  induction ks as [|key0 ks IH]; intros cleanRow o key H Hin Hne Hproto;
    [destruct Hin |].
  cbn [assignKeys] in H.
  destruct (assignKey_cases camelCase r cleanRow key0)
    as [[E0 E] | [(_ & _ & E) | (_ & _ & v & _ & E)]];
    rewrite E in H; cbn [bind] in H.
  - destruct Hin as [-> | Hin]; [contradiction |].
    exact (IH _ _ _ H Hin Hne Hproto).
  - discriminate H.
  - destruct Hin as [-> | Hin].
    + refine (assignKeys_keep _ _ _ _ _ _ H _).
      apply objGet_In. rewrite objGet_assign_same by exact Hproto.
      discriminate.
    + exact (IH _ _ _ H Hin Hne Hproto).
Qed.

(** The keys of an output row are distinct, and they are: [id] when
    ids are added, and the non-empty clean keys of the row's headers.
    Conversely every such key other than [__proto__] is a key of the
    output row: no column with a non-empty clean key is lost. *)
Theorem output_keys_exact rows addId camelCase out i r o :
  processSheetData (Some rows) addId camelCase = Normal out ->
  nth_error (filter keepRow rows) i = Some r ->
  nth_error out i = Some o ->
  NoDup (keys o)
  /\ (forall k,
         In k (keys o) ->
         (addId = true /\ k = str "id")
         \/ exists key, In key (keys r)
                        /\ cleanKeyOf camelCase key = k /\ k <> [])
  /\ (addId = true -> In (str "id") (keys o))
  /\ (forall key,
         In key (keys r) ->
         cleanKeyOf camelCase key <> [] ->
         cleanKeyOf camelCase key <> PROTO ->
         In (cleanKeyOf camelCase key) (keys o)).
Proof.
  intros H Hr Ho.
  pose proof (processSheetData_nth _ _ _ _ _ _ _ H Hr Ho) as Hrow.
  split; [exact (cleanRowOf_NoDup _ _ _ _ _ Hrow) |].
  split; [exact (cleanRowOf_keys _ _ _ _ _ Hrow) |].
  destruct (cleanRowOf_Normal _ _ _ _ _ Hrow) as (cleanRow & Hk & <-).
  split.
  - intros ->. refine (assignKeys_keep _ _ _ _ _ _ Hk _).
    unfold newCleanRow. apply objGet_In.
    rewrite objGet_assign_same; [discriminate |].
    intros E. vm_compute in E. discriminate E.
  - intros key Hin Hne Hproto.
    exact (assignKeys_has _ _ _ _ _ _ Hk Hin Hne Hproto).
Qed.

Lemma objHas_keys (o : row) k : objHas o k = existsb (str_eqb k) (keys o).
Proof.
  unfold objHas. induction o as [|[k' v'] o IH]; [reflexivity |].
  cbn [objGet keys map fst existsb]. destruct (str_eqb k k'); [reflexivity |].
  exact IH.
Qed.

Lemma keys_objSet_named (o : row) k v :
  arrayIndex k = None -> keys (objSet k v o) = addKey (keys o) k.
Proof.
  intros Hk. unfold objSet, addKey. rewrite <- objHas_keys.
  destruct (objHas o k).
  - apply keys_objReplace.
  - rewrite Hk. unfold keys. rewrite map_app. reflexivity.
Qed.

Lemma assignKeys_order camelCase r ks :
  forall cleanRow o,
    (forall key, In key ks ->
                 arrayIndex (cleanKeyOf camelCase key) = None
                 /\ cleanKeyOf camelCase key <> PROTO) ->
    assignKeys camelCase r cleanRow ks = Normal o ->
    keys (own o)
    = fold_left addKey
        (filter nonEmpty (map (cleanKeyOf camelCase) ks))
        (keys (own cleanRow)).
Proof.
  induction ks as [|key ks IH]; intros cleanRow o Hks H; cbn [assignKeys] in H.
  - injection H as <-. reflexivity.
  - assert (Hks' : forall key', In key' ks ->
                     arrayIndex (cleanKeyOf camelCase key') = None
                     /\ cleanKeyOf camelCase key' <> PROTO).
    { intros key' Hin. apply Hks. right. exact Hin. }
    destruct (Hks key (or_introl eq_refl)) as [Hidx Hproto].
    cbn [map filter].
    destruct (assignKey_cases camelCase r cleanRow key)
      as [[E0 E] | [(_ & _ & E) | (Hne & _ & v & _ & E)]];
      rewrite E in H; cbn [bind] in H.
    + rewrite E0. cbn [nonEmpty]. exact (IH _ _ Hks' H).
    + discriminate H.
    + rewrite (IH _ _ Hks' H).
      rewrite assign_named by exact Hproto. cbn [own].
      rewrite keys_objSet_named by exact Hidx.
      destruct (cleanKeyOf camelCase key); [congruence | reflexivity].
Qed.

Lemma keys_objInsertIndex_In (o : row) n k v k' :
  In k' (keys (objInsertIndex n k v o)) -> k' = k \/ In k' (keys o).
Proof.
  destruct (objInsertIndex_split _ n k v o) as (front & back & Ho & Hins & _).
  rewrite Hins, Ho. unfold keys. rewrite !map_app. cbn [map fst].
  rewrite !in_app_iff. cbn [In].
  intros [H | [E | H]];
    [right; left; exact H | left; symmetry; exact E | right; right; exact H].
Qed.

Lemma mayFollow_trans_head n k' k'' :
  arrayIndex k' = Some n ->
  forall k n0, arrayIndex k = Some n0 -> (n0 <=? n) = true ->
  mayFollow k' k'' = true -> mayFollow k k'' = true.
Proof.
  intros Hk' k n0 Hk Hle. unfold mayFollow. rewrite Hk', Hk.
  destruct (arrayIndex k'') as [n''|]; [| reflexivity].
  rewrite !N.leb_le in *. lia.
Qed.

Lemma enumerationOrder_insert (o : row) n k v :
  arrayIndex k = Some n ->
  enumerationOrder (keys o) = true ->
  enumerationOrder (keys (objInsertIndex n k v o)) = true.
Proof.
  intros Hk. unfold keys.
  induction o as [|[k' v'] o IH]; intros Ho; [reflexivity |].
  cbn [map fst enumerationOrder] in Ho.
  apply andb_prop in Ho. destruct Ho as [Hhead Hrest].
  cbn [objInsertIndex].
  destruct (arrayIndex k') as [n'|] eqn:Hk'.
  - destruct (n' <? n) eqn:Hlt.
    + cbn [map fst enumerationOrder].
      rewrite (IH Hrest), andb_true_r.
      apply forallb_forall. intros x Hx.
      destruct (keys_objInsertIndex_In _ _ _ _ _ Hx) as [-> | Hx'].
      * unfold mayFollow. rewrite Hk', Hk.
        apply N.ltb_lt in Hlt. apply N.leb_le. lia.
      * exact (proj1 (forallb_forall _ _) Hhead x Hx').
    + cbn [map fst enumerationOrder].
      rewrite Hhead, Hrest, !andb_true_r.
      assert (Hle : (n <=? n') = true).
      { apply N.ltb_ge in Hlt. apply N.leb_le. exact Hlt. }
      apply andb_true_intro. split.
      * unfold mayFollow. rewrite Hk, Hk'. exact Hle.
      * apply forallb_forall. intros x Hx.
        apply (mayFollow_trans_head n' k' x Hk' k n Hk Hle).
        exact (proj1 (forallb_forall _ _) Hhead x Hx).
  - cbn [map fst enumerationOrder].
    rewrite Hhead, Hrest, !andb_true_r.
    apply andb_true_intro. split.
    + unfold mayFollow. rewrite Hk, Hk'. reflexivity.
    + apply forallb_forall. intros x Hx.
      pose proof (proj1 (forallb_forall _ _) Hhead x Hx) as Hf.
      unfold mayFollow in Hf |- *. rewrite Hk' in Hf. rewrite Hk.
      destruct (arrayIndex x); [discriminate Hf | reflexivity].
Qed.

Lemma enumerationOrder_append ks k :
  arrayIndex k = None ->
  enumerationOrder ks = true -> enumerationOrder (ks ++ [k]) = true.
Proof.
  intros Hk. induction ks as [|k' ks IH]; intros H; [reflexivity |].
  cbn [enumerationOrder] in H. apply andb_prop in H. destruct H as [Hhead Hrest].
  cbn [Datatypes.app enumerationOrder]. rewrite (IH Hrest), andb_true_r.
  rewrite forallb_app, Hhead. cbn [forallb andb]. rewrite andb_true_r.
  unfold mayFollow. rewrite Hk. destruct (arrayIndex k'); reflexivity.
Qed.

Lemma enumerationOrder_objSet (o : row) k v :
  enumerationOrder (keys o) = true ->
  enumerationOrder (keys (objSet k v o)) = true.
Proof.
  intros Ho. unfold objSet. destruct (objHas o k).
  - rewrite keys_objReplace. exact Ho.
  - destruct (arrayIndex k) as [n|] eqn:Hk.
    + apply enumerationOrder_insert; assumption.
    + unfold keys. rewrite map_app. apply enumerationOrder_append; assumption.
Qed.

Lemma named_objSet (o : row) k v :
  filter isNamed (keys (objSet k v o))
  = if isNamed k then addKey (filter isNamed (keys o)) k
    else filter isNamed (keys o).
Proof.
  unfold objSet. destruct (objHas o k) eqn:Hhas.
  - rewrite keys_objReplace. destruct (isNamed k) eqn:Hnamed; [| reflexivity].
    unfold addKey.
    replace (existsb (str_eqb k) (filter isNamed (keys o))) with true;
      [reflexivity |].
    symmetry. apply existsb_exists. exists k. split; [| apply str_eqb_refl].
    apply filter_In. split; [| exact Hnamed].
    apply objHas_In. exact Hhas.
  - unfold isNamed at 2. destruct (arrayIndex k) as [n|] eqn:Hk.
    + destruct (objInsertIndex_split _ n k v o)
        as (front & back & Ho & Hins & _).
      rewrite Hins, Ho. unfold keys. rewrite !map_app, !filter_app.
      cbn [map fst filter]. unfold isNamed at 2. rewrite Hk. reflexivity.
    + unfold keys. rewrite map_app, filter_app. cbn [map fst filter].
      unfold isNamed at 2. rewrite Hk. unfold addKey.
      replace (existsb (str_eqb k) (filter isNamed (map fst o))) with false;
        [reflexivity |].
      symmetry. apply not_true_is_false. intros Hex.
      apply existsb_exists in Hex. destruct Hex as (x & Hx & Heq).
      apply str_eqb_eq in Heq. subst x.
      apply filter_In in Hx. destruct Hx as [Hx _].
      apply objHas_In in Hx. fold (keys o) in Hx. congruence.
Qed.

Lemma assignKeys_named camelCase r ks :
  forall cleanRow o,
    (forall key, In key ks -> cleanKeyOf camelCase key <> PROTO) ->
    assignKeys camelCase r cleanRow ks = Normal o ->
    filter isNamed (keys (own o))
    = fold_left addKey
        (filter isNamed (filter nonEmpty (map (cleanKeyOf camelCase) ks)))
        (filter isNamed (keys (own cleanRow))).
Proof.
  induction ks as [|key ks IH]; intros cleanRow o Hks H; cbn [assignKeys] in H.
  - injection H as <-. reflexivity.
  - assert (Hks' : forall key', In key' ks ->
                     cleanKeyOf camelCase key' <> PROTO).
    { intros key' Hin. apply Hks. right. exact Hin. }
    pose proof (Hks key (or_introl eq_refl)) as Hproto.
    cbn [map filter].
    destruct (assignKey_cases camelCase r cleanRow key)
      as [[E0 E] | [(_ & _ & E) | (Hne & _ & v & _ & E)]];
      rewrite E in H; cbn [bind] in H.
    + rewrite E0. cbn [nonEmpty]. exact (IH _ _ Hks' H).
    + discriminate H.
    + rewrite (IH _ _ Hks' H).
      rewrite assign_named by exact Hproto. cbn [own].
      rewrite named_objSet.
      destruct (cleanKeyOf camelCase key) as [|c ck] eqn:Hck; [congruence |].
      cbn [nonEmpty filter].
      destruct (isNamed (c :: ck)); reflexivity.
Qed.

Lemma cleanRowOf_enumerationOrder addId camelCase r index o :
  cleanRowOf addId camelCase r index = Normal o ->
  enumerationOrder (keys o) = true.
Proof.
  intros H. destruct (cleanRowOf_Normal _ _ _ _ _ H) as (cleanRow & Hk & <-).
  refine (assignKeys_invariant
            (fun l => enumerationOrder (keys (own l)) = true)
            camelCase r _ _ _ _ _ Hk).
  - intros l k v _ Hl.
    destruct (own_assign_cases _ isNull l k v) as [[_ E] | E]; rewrite E.
    + exact Hl.
    + apply enumerationOrder_objSet. exact Hl.
  - unfold newCleanRow. destruct addId; reflexivity.
Qed.

(** The order of the keys of an output row.  Keys that are array
    indices (such as 2024) come first, in ascending order, and the other
    keys after them; these, when no clean key of the row is [__proto__],
    are [id] when ids are added and then the clean keys in the order of
    their first occurrences among the headers.  So when no clean key is an
    array index the keys are exactly: [id], then the clean keys by first
    occurrence. *)
Theorem output_key_order rows addId camelCase out i r o :
  processSheetData (Some rows) addId camelCase = Normal out ->
  nth_error (filter keepRow rows) i = Some r ->
  nth_error out i = Some o ->
  (forall key, In key (keys r) -> cleanKeyOf camelCase key <> PROTO) ->
  let cleanKeys :=
    (if addId then [str "id"] else [])
    ++ filter nonEmpty (map (cleanKeyOf camelCase) (keys r)) in
  enumerationOrder (keys o) = true
  /\ filter isNamed (keys o) = firstOccurrences (filter isNamed cleanKeys)
  /\ ((forall key, In key (keys r) ->
                   arrayIndex (cleanKeyOf camelCase key) = None) ->
      keys o = firstOccurrences cleanKeys).
Proof.
  intros H Hr Ho Hproto cleanKeys.
  pose proof (processSheetData_nth _ _ _ _ _ _ _ H Hr Ho) as Hrow.
  split; [exact (cleanRowOf_enumerationOrder _ _ _ _ _ Hrow) |].
  destruct (cleanRowOf_Normal _ _ _ _ _ Hrow) as (cleanRow & Hk & <-).
  split.
  - rewrite (assignKeys_named _ _ _ _ _ Hproto Hk).
    unfold firstOccurrences, cleanKeys. rewrite filter_app, fold_left_app.
    destruct addId; reflexivity.
  - intros Hidx.
    rewrite (assignKeys_order _ _ _ _ _
               (fun key Hin => conj (Hidx key Hin) (Hproto key Hin)) Hk).
    unfold firstOccurrences, cleanKeys. rewrite fold_left_app.
    destruct addId; reflexivity.
Qed.

Lemma mapiM_app {A B} (f : A -> nat -> completion B) xs ys :
  forall i,
    mapiM f i (xs ++ ys)
    = (a <- mapiM f i xs ;;
       b <- mapiM f (i + List.length xs) ys ;;
       Normal (a ++ b)).
Proof.
  induction xs as [|x xs IH]; intros i.
  - cbn [Datatypes.app mapiM bind List.length]. rewrite Nat.add_0_r.
    destruct (mapiM f i ys); reflexivity.
  - cbn [Datatypes.app mapiM List.length].
    destruct (f x i) as [y|e]; cbn [bind]; [| reflexivity].
    rewrite IH.
    replace (i + S (List.length xs))%nat with (S i + List.length xs)%nat
      by lia.
    destruct (mapiM f (S i) xs) as [a|e]; cbn [bind]; [| reflexivity].
    destruct (mapiM f (S i + List.length xs) ys); reflexivity.
Qed.

Lemma mapiM_index {A B} (f : A -> nat -> completion B) xs :
  (forall x i j, f x i = f x j) ->
  forall i j, mapiM f i xs = mapiM f j xs.
Proof.
  intros Hf. induction xs as [|x xs IH]; intros i j; [reflexivity |].
  cbn [mapiM]. rewrite (Hf x i j), (IH (S i) (S j)). reflexivity.
Qed.

(** Appending rows to a sheet leaves the output rows of the rows
    before them as they were: the output of the longer sheet starts with
    the output of the shorter one. *)
Theorem processSheetData_prefix rows1 rows2 addId camelCase out :
  processSheetData (Some (rows1 ++ rows2)) addId camelCase = Normal out ->
  exists out1 out2,
    out = out1 ++ out2
    /\ processSheetData (Some rows1) addId camelCase = Normal out1
    /\ List.length out2 = List.length (filter keepRow rows2).
Proof.
  rewrite !processSheetData_rows, filter_app, mapiM_app.
  intros H.
  destruct (mapiM (cleanRowOf addId camelCase) 0 (filter keepRow rows1))
    as [out1|e]; cbn [bind] in H; [| discriminate H].
  destruct (mapiM (cleanRowOf addId camelCase)
              (0 + List.length (filter keepRow rows1)) (filter keepRow rows2))
    as [out2|e] eqn:E2; cbn [bind] in H; [| discriminate H].
  injection H as <-. exists out1, out2.
  split; [reflexivity |]. split; [reflexivity |].
  exact (proj1 (mapiM_Normal _ _ _ _ E2)).
Qed.

(** Without ids the rows are processed one by one, whatever their
    position: the output of two sheets put end to end is the two outputs
    put end to end. *)
Theorem processSheetData_concat rows1 rows2 camelCase out1 out2 :
  processSheetData (Some rows1) false camelCase = Normal out1 ->
  processSheetData (Some rows2) false camelCase = Normal out2 ->
  processSheetData (Some (rows1 ++ rows2)) false camelCase
  = Normal (out1 ++ out2).
Proof.
  rewrite !processSheetData_rows, filter_app, mapiM_app.
  intros H1 H2. rewrite H1. cbn [bind].
  rewrite (mapiM_index (cleanRowOf false camelCase)
             (filter keepRow rows2) (fun x i j => eq_refl) _ 0%nat).
  rewrite H2. reflexivity.
Qed.

(* =============================================================== *)
(** ** Without ids *)

Lemma withoutId_objGet (o : row) k :
  k <> str "id" -> objGet (withoutId o) k = objGet o k.
Proof.
  intros Hk. unfold withoutId.
  induction o as [|[k' v'] o IH]; [reflexivity |].
  cbn [filter fst objGet].
  destruct (str_eqb k' (str "id")) eqn:Hid; cbn [negb].
  - apply str_eqb_eq in Hid. subst k'.
    rewrite (str_eqb_neq _ _ Hk). exact IH.
  - cbn [objGet]. destruct (str_eqb k k'); [reflexivity | exact IH].
Qed.

Lemma withoutId_objReplace (o : row) k v :
  k <> str "id" ->
  withoutId (objReplace k v o) = objReplace k v (withoutId o).
Proof.
  intros Hk. unfold withoutId.
  induction o as [|[k' v'] o IH]; [reflexivity |].
  cbn [objReplace]. destruct (str_eqb k k') eqn:Hkk.
  - apply str_eqb_eq in Hkk. subst k'.
    cbn [filter fst]. rewrite (str_eqb_neq _ _ Hk). cbn [negb objReplace].
    rewrite str_eqb_refl. reflexivity.
  - cbn [filter fst]. destruct (str_eqb k' (str "id")); cbn [negb].
    + exact IH.
    + cbn [objReplace]. rewrite Hkk, IH. reflexivity.
Qed.

Lemma objInsertIndex_named (o : row) n k v :
  forallb isNamed (keys o) = true -> objInsertIndex n k v o = (k, v) :: o.
Proof.
  destruct o as [|[k' v'] o]; [reflexivity |].
  cbn [keys map fst forallb]. intros H. apply andb_prop in H.
  destruct H as [Hk' _]. cbn [objInsertIndex].
  unfold isNamed in Hk'. destruct (arrayIndex k'); [discriminate Hk' |].
  reflexivity.
Qed.

Lemma named_after_named k (ks : list jsstring) :
  arrayIndex k = None ->
  forallb (mayFollow k) ks = true -> forallb isNamed ks = true.
Proof.
  intros Hk H. apply forallb_forall. intros x Hx.
  pose proof (proj1 (forallb_forall _ _) H x Hx) as Hf.
  unfold mayFollow in Hf. rewrite Hk in Hf. unfold isNamed.
  destruct (arrayIndex x); [discriminate Hf | reflexivity].
Qed.

Lemma withoutId_named (o : row) :
  forallb isNamed (keys o) = true ->
  forallb isNamed (keys (withoutId o)) = true.
Proof.
  intros H. apply forallb_forall. intros x Hx.
  apply (proj1 (forallb_forall _ _) H).
  unfold keys, withoutId in *. apply in_map_iff in Hx.
  destruct Hx as (kv & <- & Hkv). apply filter_In in Hkv.
  apply in_map. exact (proj1 Hkv).
Qed.

Lemma withoutId_objInsertIndex (o : row) n k v :
  arrayIndex k = Some n ->
  enumerationOrder (keys o) = true ->
  withoutId (objInsertIndex n k v o) = objInsertIndex n k v (withoutId o).
Proof.
  intros Hk.
  assert (Hkid : str_eqb k (str "id") = false).
  { apply str_eqb_neq. intros ->. vm_compute in Hk. discriminate Hk. }
  induction o as [|[k' v'] o IH]; intros Ho.
  - cbn [objInsertIndex withoutId filter fst]. rewrite Hkid. reflexivity.
  - cbn [keys map fst enumerationOrder] in Ho.
    apply andb_prop in Ho. destruct Ho as [Hhead Hrest].
    cbn [objInsertIndex].
    destruct (arrayIndex k') as [n'|] eqn:Hk'.
    + assert (Hk'id : str_eqb k' (str "id") = false).
      { apply str_eqb_neq. intros ->. vm_compute in Hk'. discriminate Hk'. }
      destruct (n' <? n) eqn:Hlt.
      * unfold withoutId at 1 2. cbn [filter fst]. rewrite Hk'id. cbn [negb].
        fold (withoutId (objInsertIndex n k v o)). fold (withoutId o).
        rewrite (IH Hrest). cbn [objInsertIndex]. rewrite Hk', Hlt.
        reflexivity.
      * unfold withoutId at 1 2. cbn [filter fst].
        rewrite Hkid, Hk'id. cbn [negb]. fold (withoutId o).
        cbn [objInsertIndex]. rewrite Hk', Hlt. reflexivity.
    + pose proof (named_after_named k' _ Hk' Hhead) as Hnamed.
      assert (Hall : forallb isNamed (keys ((k', v') :: o)) = true).
      { cbn [keys map fst forallb]. unfold isNamed at 1. rewrite Hk'.
        exact Hnamed. }
      rewrite (objInsertIndex_named _ n k v (withoutId_named _ Hall)).
      unfold withoutId at 1. cbn [filter fst]. rewrite Hkid. reflexivity.
Qed.

Lemma withoutId_objSet (o : row) k v :
  k <> str "id" ->
  enumerationOrder (keys o) = true ->
  withoutId (objSet k v o) = objSet k v (withoutId o).
Proof.
  intros Hk Ho. unfold objSet, objHas.
  rewrite (withoutId_objGet o k Hk).
  destruct (objGet o k).
  - apply withoutId_objReplace. exact Hk.
  - destruct (arrayIndex k) as [n|] eqn:Hidx.
    + apply withoutId_objInsertIndex; assumption.
    + unfold withoutId. rewrite filter_app. cbn [filter fst].
      rewrite (str_eqb_neq _ _ Hk). reflexivity.
Qed.

(** The two rows being filled, with and without ids, go together. *)
Definition sameButId (withId without : literal value) : Prop :=
  own without = withoutId (own withId)
  /\ inheritsObject without = inheritsObject withId
  /\ enumerationOrder (keys (own withId)) = true.

Lemma sameButId_assign withId without k v :
  k <> str "id" ->
  sameButId withId without ->
  sameButId (assign isNull k v withId) (assign isNull k v without).
Proof.
  intros Hk (Hown & Hinh & Hord). unfold sameButId, assign.
  rewrite Hinh. unfold objHas. rewrite Hown, (withoutId_objGet _ k Hk).
  destruct (str_eqb k PROTO && inheritsObject withId
            && negb match objGet (own withId) k with
                    | Some _ => true
                    | None => false
                    end); cbn [own inheritsObject].
  - repeat split; assumption.
  - split; [symmetry; apply withoutId_objSet; assumption |].
    split; [reflexivity | apply enumerationOrder_objSet; exact Hord].
Qed.

Lemma sameButId_assignKeys camelCase r ks :
  forall withId without o,
    (forall key, In key ks -> cleanKeyOf camelCase key <> str "id") ->
    sameButId withId without ->
    assignKeys camelCase r withId ks = Normal o ->
    exists o',
      assignKeys camelCase r without ks = Normal o' /\ sameButId o o'.
Proof.
  induction ks as [|key ks IH]; intros withId without o Hks Hsame H;
    cbn [assignKeys] in *.
  - injection H as <-. exists without. split; [reflexivity | exact Hsame].
  - assert (Hks' : forall key', In key' ks ->
                     cleanKeyOf camelCase key' <> str "id").
    { intros key' Hin. apply Hks. right. exact Hin. }
    pose proof (Hks key (or_introl eq_refl)) as Hid.
    unfold assignKey in *.
    destruct (negb (nonEmpty (cleanKeyOf camelCase key))); cbn [bind] in *.
    + exact (IH _ _ _ Hks' Hsame H).
    + destruct (coerceValue (get r key)) as [v|e]; cbn [bind] in *;
        [| discriminate H].
      refine (IH _ _ _ Hks' _ H). apply sameButId_assign; assumption.
Qed.

Lemma noId_row camelCase r index o :
  cleanRowOf true camelCase r index = Normal o ->
  (forall key, In key (keys r) -> cleanKeyOf camelCase key <> str "id") ->
  forall index',
    cleanRowOf false camelCase r index' = Normal (withoutId o).
Proof.
  intros H Hks index'.
  destruct (cleanRowOf_Normal _ _ _ _ _ H) as (cleanRow & Hk & <-).
  destruct (sameButId_assignKeys camelCase r (keys r)
              (newCleanRow true index) (newCleanRow false index') cleanRow
              Hks)
    as (o' & Ho' & Hown & _).
  - repeat split.
  - exact Hk.
  - unfold cleanRowOf. rewrite Ho'. cbn [bind]. rewrite Hown. reflexivity.
Qed.

Lemma mapiM_related {A B} (f g : A -> nat -> completion B) (h : B -> B)
    (P : A -> Prop) xs :
  (forall x i y, P x -> f x i = Normal y -> g x i = Normal (h y)) ->
  Forall P xs ->
  forall i ys,
    mapiM f i xs = Normal ys -> mapiM g i xs = Normal (map h ys).
Proof.
  intros Hfg HP. induction HP as [|x xs Hx _ IH]; intros i ys H;
    cbn [mapiM] in *.
  - injection H as <-. reflexivity.
  - destruct (f x i) as [y|e] eqn:Hf; cbn [bind] in H; [| discriminate H].
    destruct (mapiM f (S i) xs) as [ys'|e] eqn:Hrest; cbn [bind] in H;
      [| discriminate H].
    injection H as <-.
    rewrite (Hfg x i y Hx Hf). cbn [bind].
    rewrite (IH (S i) ys' Hrest). reflexivity.
Qed.

(** Without ids the output is the output with ids, the [id] field taken
    out of every row, when no header of a retained row normalizes to
    [id]: the ids change nothing else, neither the other keys, nor their
    order, nor the cells. *)
Theorem noId_removes_id rows camelCase out :
  processSheetData (Some rows) true camelCase = Normal out ->
  (forall r key,
      In r rows -> keepRow r = true -> In key (keys r) ->
      cleanKeyOf camelCase key <> str "id") ->
  processSheetData (Some rows) false camelCase = Normal (map withoutId out).
Proof.
  rewrite !processSheetData_rows. intros H Hid.
  refine (mapiM_related (cleanRowOf true camelCase)
            (cleanRowOf false camelCase) withoutId
            (fun r => forall key, In key (keys r) ->
                                  cleanKeyOf camelCase key <> str "id")
            (filter keepRow rows) _ _ 0%nat out H).
  - intros r i o Hr Ho. exact (noId_row _ _ _ _ Ho Hr i).
  - apply Forall_forall. intros r Hr key Hkey.
    apply filter_In in Hr. destruct Hr as [Hin Hkeep].
    exact (Hid r key Hin Hkeep Hkey).
Qed.

(* =============================================================== *)
(** ** Conversions: how they fail, and all sheets at once *)

Lemma processSheetData_Throw rows addId camelCase e :
  processSheetData (Some rows) addId camelCase = Throw e ->
  e = InvalidTimeValue
  /\ existsb (rowThrows camelCase) (filter keepRow rows) = true.
Proof.
  intros H.
  destruct (processSheetData_result rows addId camelCase) as [Hok Hbad].
  destruct (existsb (rowThrows camelCase) (filter keepRow rows)).
  - rewrite (Hbad eq_refl) in H. injection H as <-. split; reflexivity.
  - destruct (Hok eq_refl) as (out & Hout). rewrite Hout in H. discriminate H.
Qed.

Lemma convertSheet_Throw wb opts name e :
  convertSheet wb opts name = Throw e ->
  sheet_to_json (Sheets wb name) (header opts) = Fails (errorMessage e)
  \/ exists raw,
       sheet_to_json (Sheets wb name) (header opts) = Returns raw
       /\ existsb (rowThrows (negb (noCamelCase opts))) (filter keepRow raw)
          = true
       /\ e = InvalidTimeValue.
Proof.
  unfold convertSheet.
  destruct (sheet_to_json (Sheets wb name) (header opts)) as [raw|message];
    cbn [library bind]; intros H.
  - right. exists raw. split; [reflexivity |].
    destruct (processSheetData_Throw _ _ _ _ H) as [-> Hrows].
    split; [exact Hrows | reflexivity].
  - left. injection H as <-. reflexivity.
Qed.

Lemma convertAll_Throw wb opts names :
  forall result e,
    convertAll wb opts result names = Throw e ->
    exists names1 name names2,
      names = names1 ++ name :: names2
      /\ (forall n, In n names1 ->
                    exists rows, convertSheet wb opts n = Normal rows)
      /\ convertSheet wb opts name = Throw e.
Proof.
  induction names as [|name names IH]; intros result e H; cbn [convertAll] in H.
  - discriminate H.
  - destruct (convertSheet wb opts name) as [rows|e'] eqn:Hsheet;
      cbn [bind] in H.
    + destruct (IH _ _ H) as (names1 & name' & names2 & -> & Hbefore & Hthrow).
      exists (name :: names1), name', names2.
      split; [reflexivity |]. split; [| exact Hthrow].
      intros n [<- | Hn]; [exists rows; exact Hsheet | exact (Hbefore n Hn)].
    + injection H as <-. exists [], name, names.
      split; [reflexivity |]. split; [intros n [] | exact Hsheet].
Qed.

Lemma convertAll_first_failure wb opts names1 name names2 e :
  forall result,
    (forall n, In n names1 ->
               exists rows, convertSheet wb opts n = Normal rows) ->
    convertSheet wb opts name = Throw e ->
    convertAll wb opts result (names1 ++ name :: names2) = Throw e.
Proof.
  induction names1 as [|n names1 IH]; intros result Hbefore Hthrow.
  - cbn [Datatypes.app convertAll]. rewrite Hthrow. reflexivity.
  - cbn [Datatypes.app convertAll].
    destruct (Hbefore n (or_introl eq_refl)) as (rows & ->). cbn [bind].
    apply IH; [| exact Hthrow].
    intros n' Hn'. apply Hbefore. right. exact Hn'.
Qed.

Lemma convertWorkbook_not_Failed wb opts error :
  convertWorkbook wb opts <> Normal (Failed error).
Proof.
  unfold convertWorkbook. destruct (listSheets opts); [discriminate |].
  destruct (allSheets opts).
  - destruct (convertAll wb opts emptyLiteral (SheetNames wb));
      cbn [bind]; discriminate.
  - destruct (negb (includes (SheetNames wb)
                      (targetSheetOf opts (SheetNames wb))));
      cbn [bind]; [discriminate |].
    destruct (convertSheet wb opts
                (ToString (targetSheetOf opts (SheetNames wb))));
      cbn [bind]; discriminate.
Qed.

Lemma convertExcelToJson_Failed filePath opts error :
  convertExcelToJson filePath opts = Failed error <->
  exists e, convertTry filePath opts = Throw e /\ errorMessage e = error.
Proof.
  unfold convertExcelToJson. split.
  - destruct (convertTry filePath opts) as [result|e] eqn:Htry.
    + intros ->. exfalso. revert Htry. unfold convertTry.
      destruct (negb (existsSync filePath)); [discriminate |].
      destruct (readFile filePath) as [wb|message]; cbn [library bind];
        [apply convertWorkbook_not_Failed | discriminate].
    + intros H. injection H as <-. exists e. split; reflexivity.
  - intros (e & -> & <-). reflexivity.
Qed.

(** The ways a conversion fails, and the error it reports: the
    file does not exist; the library cannot read it (its message); the
    sheet looked for is not in the workbook; the library cannot read a
    sheet that is converted (its message); a sheet that is converted has a
    retained row with an invalid Date under a kept key.  There is no other
    failure, and listing the sheets fails only in the first two ways. *)
Theorem conversion_failures filePath opts error :
  convertExcelToJson filePath opts = Failed error ->
  (existsSync filePath = false
   /\ error = str "File not found: " ++ filePath)
  \/ (existsSync filePath = true /\ readFile filePath = Fails error)
  \/ exists wb,
       existsSync filePath = true
       /\ readFile filePath = Returns wb
       /\ listSheets opts = false
       /\ let names := SheetNames wb in
          let target := targetSheetOf opts names in
          (allSheets opts = false
           /\ includes names target = false
           /\ error
              = str "Sheet " ++ [QUOTE] ++ ToString target ++ [QUOTE]
                ++ str " not found. Available sheets: "
                ++ join (str ", ") names)
          \/ exists name,
               In name names
               /\ (allSheets opts = false -> target = Some name)
               /\ (sheet_to_json (Sheets wb name) (header opts)
                   = Fails error
                   \/ exists raw,
                        sheet_to_json (Sheets wb name) (header opts)
                        = Returns raw
                        /\ existsb (rowThrows (negb (noCamelCase opts)))
                             (filter keepRow raw) = true
                        /\ error = str "Invalid time value").
Proof.
  intros H. apply convertExcelToJson_Failed in H.
  destruct H as (e & Htry & <-). unfold convertTry in Htry.
  destruct (existsSync filePath) eqn:Hexists; cbn [negb] in Htry.
  2:{ left. injection Htry as <-. split; reflexivity. }
  right.
  destruct (readFile filePath) as [wb|message] eqn:Hread;
    cbn [library bind] in Htry.
  2:{ left. injection Htry as <-. split; reflexivity. }
  right. exists wb. split; [reflexivity |]. split; [reflexivity |].
  unfold convertWorkbook in Htry.
  destruct (listSheets opts); [discriminate Htry |].
  split; [reflexivity |]. cbv zeta.
  assert (Hsheet : forall name,
             convertSheet wb opts name = Throw e ->
             sheet_to_json (Sheets wb name) (header opts)
             = Fails (errorMessage e)
             \/ exists raw,
                  sheet_to_json (Sheets wb name) (header opts) = Returns raw
                  /\ existsb (rowThrows (negb (noCamelCase opts)))
                       (filter keepRow raw) = true
                  /\ errorMessage e = str "Invalid time value").
  { intros name Hname.
    destruct (convertSheet_Throw _ _ _ _ Hname)
      as [Hfails | (raw & Hraw & Hrows & ->)].
    - left. exact Hfails.
    - right. exists raw. repeat split; assumption. }
  destruct (allSheets opts).
  - right.
    destruct (convertAll wb opts emptyLiteral (SheetNames wb))
      as [result|e'] eqn:Hall; cbn [bind] in Htry; [discriminate Htry |].
    injection Htry as ->.
    destruct (convertAll_Throw _ _ _ _ _ Hall)
      as (names1 & name & names2 & Hnames & _ & Hthrow).
    exists name. split.
    + rewrite Hnames. apply in_or_app. right. left. reflexivity.
    + split; [intros D; discriminate D | exact (Hsheet name Hthrow)].
  - destruct (includes (SheetNames wb) (targetSheetOf opts (SheetNames wb)))
      eqn:Hinc; cbn [negb] in Htry.
    + right.
      destruct (proj1 (includes_In _ _) Hinc) as (s & Htarget & Hin).
      rewrite Htarget in Htry. cbn [ToString] in Htry.
      destruct (convertSheet wb opts s) as [rows|e'] eqn:Hthrow;
        cbn [bind] in Htry; [discriminate Htry |].
      injection Htry as ->.
      exists s. split; [exact Hin |].
      split; [intros _; exact Htarget | exact (Hsheet s Hthrow)].
    + left. injection Htry as <-.
      split; [reflexivity |]. split; reflexivity.
Qed.

(** All sheets or none: with allSheets the conversion succeeds
    exactly when every sheet of the workbook converts, and otherwise it
    fails with the error of the first sheet, in workbook order, that does
    not; the sheets converted before it are discarded. *)
Theorem all_sheets_all_or_nothing filePath opts wb :
  existsSync filePath = true ->
  readFile filePath = Returns wb ->
  listSheets opts = false ->
  allSheets opts = true ->
  ((exists bySheet,
       convertExcelToJson filePath opts
       = Converted (SheetMap bySheet) (SheetNames wb)
           (str "Conversion successful"))
   <-> forall name, In name (SheetNames wb) ->
                    exists rows, convertSheet wb opts name = Normal rows)
  /\ (forall names1 name names2 e,
         SheetNames wb = names1 ++ name :: names2 ->
         (forall n, In n names1 ->
                    exists rows, convertSheet wb opts n = Normal rows) ->
         convertSheet wb opts name = Throw e ->
         convertExcelToJson filePath opts = Failed (errorMessage e)).
Proof.
  intros Hexists Hread Hlist Hall.
  assert (Hrun : convertExcelToJson filePath opts
                 = match convertAll wb opts emptyLiteral (SheetNames wb) with
                   | Normal result =>
                       Converted (SheetMap (own result)) (SheetNames wb)
                         (str "Conversion successful")
                   | Throw e => Failed (errorMessage e)
                   end).
  { unfold convertExcelToJson.
    rewrite (convertTry_read _ _ _ Hexists Hread).
    unfold convertWorkbook. rewrite Hlist, Hall.
    destruct (convertAll wb opts emptyLiteral (SheetNames wb)); reflexivity. }
  split; [split |].
  - intros (bySheet & Hconv) name Hin. rewrite Hrun in Hconv.
    destruct (convertAll wb opts emptyLiteral (SheetNames wb))
      as [result|e] eqn:Hrows; [| discriminate Hconv].
    destruct (convertSheet wb opts name) as [rows|e] eqn:Hsheet;
      [exists rows; reflexivity |].
    exfalso. destruct (in_split _ _ Hin) as (names1 & names2 & Hnames).
    assert (Hfirst : forall l1 n l2 e0,
               SheetNames wb = l1 ++ n :: l2 ->
               convertSheet wb opts n = Throw e0 ->
               exists e1, convertAll wb opts emptyLiteral (SheetNames wb)
                          = Throw e1).
    { clear. intros l1 n l2 e0 ->. generalize (@emptyLiteral (list row)).
      induction l1 as [|m l1 IH]; intros result Hn; cbn [Datatypes.app convertAll].
      - rewrite Hn. exists e0. reflexivity.
      - destruct (convertSheet wb opts m) as [rows|e1]; cbn [bind].
        + apply IH. exact Hn.
        + exists e1. reflexivity. }
    destruct (Hfirst _ _ _ _ Hnames Hsheet) as (e1 & He1).
    rewrite He1 in Hrows. discriminate Hrows.
  - intros Hevery.
    destruct (convertAll_total wb opts (SheetNames wb) emptyLiteral Hevery)
      as (result & Hresult).
    exists (own result). rewrite Hrun, Hresult. reflexivity.
  - intros names1 name names2 e Hnames Hbefore Hthrow.
    rewrite Hrun, Hnames.
    rewrite (convertAll_first_failure wb opts names1 name names2 e
               emptyLiteral Hbefore Hthrow).
    reflexivity.
Qed.

Lemma convertAll_NoDup wb opts names :
  forall result bySheet,
    convertAll wb opts result names = Normal bySheet ->
    NoDup (keys (own result)) -> NoDup (keys (own bySheet)).
Proof.
  induction names as [|name names IH]; intros result bySheet H Hnd;
    cbn [convertAll] in H.
  - injection H as <-. exact Hnd.
  - destruct (convertSheet wb opts name) as [rows|e]; cbn [bind] in H;
      [| discriminate H].
    refine (IH _ _ H _). apply keys_assign_NoDup. exact Hnd.
Qed.

(** With allSheets the data has one entry for each sheet name of
    the workbook other than [__proto__], and no other; and the entry of a
    sheet is the array that the conversion of that sheet alone returns
    with the same options. *)
Theorem all_sheets_entries filePath opts wb bySheet sheets message :
  existsSync filePath = true ->
  readFile filePath = Returns wb ->
  listSheets opts = false ->
  allSheets opts = true ->
  convertExcelToJson filePath opts
  = Converted (SheetMap bySheet) sheets message ->
  NoDup (keys bySheet)
  /\ (forall name,
         In name (keys bySheet) <-> In name (SheetNames wb) /\ name <> PROTO)
  /\ (forall name rows,
         name <> [] ->
         objGet bySheet name = Some rows ->
         convertExcelToJson filePath (selectSheet opts name)
         = Converted (SheetRows rows) sheets message).
Proof.
  intros Hexists Hread Hlist Hall Hconv.
  unfold convertExcelToJson in Hconv.
  rewrite (convertTry_read _ _ _ Hexists Hread) in Hconv.
  unfold convertWorkbook in Hconv. rewrite Hlist, Hall in Hconv.
  destruct (convertAll wb opts emptyLiteral (SheetNames wb))
    as [result|e] eqn:Hrows; cbn [bind] in Hconv; [| discriminate Hconv].
  injection Hconv as <- <- <-.
  destruct (convertAll_get _ _ _ _ _ Hrows) as [Hin Hout].
  destruct (convertAll_keys _ _ _ _ _ Hrows eq_refl (fun H => H))
    as [_ Hproto].
  assert (Hkeys : forall name,
             In name (keys (own result))
             <-> In name (SheetNames wb) /\ name <> PROTO).
  { intros name. split.
    - intros Hk. split.
      + destruct (in_dec (list_eq_dec N.eq_dec) name (SheetNames wb))
          as [Hyes | Hno]; [exact Hyes |].
        exfalso. apply objGet_In in Hk. apply Hk.
        exact (Hout name Hno).
      + intros ->. exact (Hproto Hk).
    - intros [Hname Hnp]. destruct (Hin name Hname Hnp) as (rows & _ & Hget).
      apply objGet_In. rewrite Hget. discriminate. }
  split; [| split].
  - refine (convertAll_NoDup _ _ _ _ _ Hrows _). constructor.
  - exact Hkeys.
  - intros name rows Hne Hget.
    assert (Hk : In name (keys (own result))).
    { apply objGet_In. intros E.
      pose proof (eq_trans (eq_sym E) Hget) as D. discriminate D. }
    apply Hkeys in Hk. destruct Hk as [Hname Hnp].
    destruct (Hin name Hname Hnp) as (rows' & Hsheet & Hget').
    pose proof (eq_trans (eq_sym Hget) Hget') as D. injection D as ->.
    unfold convertExcelToJson.
    rewrite (convertTry_read _ _ _ Hexists Hread).
    rewrite convertWorkbook_single by (cbn; first [exact Hlist | reflexivity]).
    assert (Htarget : targetSheetOf (selectSheet opts name) (SheetNames wb)
                      = Some name).
    { unfold targetSheetOf. cbn [sheet selectSheet].
      destruct name; [congruence | reflexivity]. }
    rewrite Htarget.
    replace (includes (SheetNames wb) (Some name)) with true
      by (symmetry; apply includes_In; exists name; split;
          [reflexivity | exact Hname]).
    cbn [ToString].
    change (convertSheet wb (selectSheet opts name) name)
      with (convertSheet wb opts name).
    rewrite Hsheet. reflexivity.
Qed.

(* =============================================================== *)
(** ** The command line and [quickConvert] *)

(** The shape of a result follows the options: a listing when listSheets
    is set, and otherwise an object by sheet name with allSheets and one
    array without. *)
Lemma convertExcelToJson_shape filePath opts :
  match convertExcelToJson filePath opts with
  | Listed _ _ => listSheets opts = true
  | Converted data _ _ =>
      listSheets opts = false
      /\ (if allSheets opts
          then exists bySheet, data = SheetMap bySheet
          else exists rows, data = SheetRows rows)
  | Failed _ => True
  end.
Proof.
  unfold convertExcelToJson, convertTry.
  destruct (negb (existsSync filePath)); [exact I |].
  destruct (readFile filePath) as [wb|message]; cbn [library bind];
    [| exact I].
  unfold convertWorkbook. destruct (listSheets opts); [reflexivity |].
  destruct (allSheets opts).
  - destruct (convertAll wb opts emptyLiteral (SheetNames wb)) as [result|e];
      cbn [bind]; [| exact I].
    split; [reflexivity | exists (own result); reflexivity].
  - destruct (negb (includes (SheetNames wb)
                      (targetSheetOf opts (SheetNames wb))));
      cbn [bind]; [exact I |].
    destruct (convertSheet wb opts
                (ToString (targetSheetOf opts (SheetNames wb))))
      as [rows|e]; cbn [bind]; [| exact I].
    split; [reflexivity | exists rows; reflexivity].
Qed.

Lemma previewLines_defined (bySheet : jsobject (list row)) names :
  (forall name, In name names -> In name (keys bySheet)) ->
  exists lines,
    previewLines bySheet names = Some lines
    /\ writesOf lines = []
    /\ List.length lines = List.length names.
Proof.
  induction names as [|name names IH]; intros Hnames.
  - exists []. repeat split.
  - destruct IH as (lines & Hlines & Hw & Hlen).
    { intros n Hn. apply Hnames. right. exact Hn. }
    cbn [previewLines]. unfold previewLine.
    pose proof (proj2 (objGet_In _ bySheet name)
                  (Hnames name (or_introl eq_refl))) as Hget.
    destruct (objGet bySheet name) as [rows|]; [| congruence].
    rewrite Hlines. eexists. split; [reflexivity |].
    split; [exact Hw | cbn [List.length]; rewrite Hlen; reflexivity].
Qed.

Lemma preview_defined filePath opts data sheets message :
  convertExcelToJson filePath opts = Converted data sheets message ->
  exists lines,
    preview (allSheets opts) (Some data) = Some lines
    /\ writesOf lines = [].
Proof.
  intros H. pose proof (convertExcelToJson_shape filePath opts) as Hshape.
  rewrite H in Hshape. destruct Hshape as [_ Hshape].
  unfold preview. destruct (allSheets opts).
  - destruct Hshape as (bySheet & ->).
    destruct (previewLines_defined bySheet (keys bySheet) (fun _ Hn => Hn))
      as (lines & Hlines & Hw & _).
    exists lines. split; assumption.
  - destruct Hshape as (rows & ->). eexists. split; reflexivity.
Qed.

Lemma writesOf_app events1 events2 :
  writesOf (events1 ++ events2) = writesOf events1 ++ writesOf events2.
Proof. apply flat_map_app. Qed.

Lemma writesOf_sheetLines sheets :
  forall i, writesOf (mapiFrom sheetLine i sheets) = [].
Proof.
  induction sheets as [|name sheets IH]; intros i; [reflexivity |].
  cbn [mapiFrom]. exact (IH (S i)).
Qed.

(** How a run of the command line ends: it never comes to data of
    another shape than its mode gives, and it calls [process.exit(1)]
    exactly when the conversion fails, or, listSheets not being set, the
    file cannot be written; the last thing it does then is to print the
    error on standard error.  Otherwise it returns. *)
Theorem main_exit_status excelFile output pretty opts :
  exists events ending,
    main excelFile output pretty opts = Some (events, ending)
    /\ (ending = Returned \/ ending = Exited 1)
    /\ (ending = Exited 1
        <-> (exists error, convertExcelToJson excelFile opts = Failed error)
            \/ (listSheets opts = false
                /\ exists message,
                     writeFile (outputFileOf excelFile output)
                       (jsonString pretty
                          (dataOf (convertExcelToJson excelFile opts)))
                     = Fails message))
    /\ (ending = Exited 1 ->
        exists before line, events = before ++ [ConsoleError line]).
Proof.
  unfold main.
  pose proof (convertExcelToJson_shape excelFile opts) as Hshape.
  destruct (convertExcelToJson excelFile opts) as [sheets msg|data sheets msg|error]
    eqn:Hresult.
  - rewrite Hshape. eexists. eexists. split; [reflexivity |].
    split; [left; reflexivity |]. split; [split |].
    + intros D. discriminate D.
    + intros [(error & D) | (D & _)]; discriminate D.
    + intros D. discriminate D.
  - destruct Hshape as [Hlist _]. rewrite Hlist.
    cbn [saveJsonFile dataOf].
    destruct (writeFile (outputFileOf excelFile output)
                (jsonString pretty (Some data))) as [u|message] eqn:Hwrite.
    + destruct (preview_defined _ _ _ _ _ Hresult) as (lines & -> & _).
      eexists. eexists. split; [reflexivity |].
      split; [left; reflexivity |]. split; [split |].
      * intros D. discriminate D.
      * intros [(error & D) | (_ & message & D)]; discriminate D.
      * intros D. discriminate D.
    + eexists. eexists. split; [reflexivity |].
      split; [right; reflexivity |]. split; [split |].
      * intros _. right. split; [reflexivity |]. exists message. reflexivity.
      * intros _. reflexivity.
      * intros _. eexists. eexists. reflexivity.
  - eexists. eexists. split; [reflexivity |].
    split; [right; reflexivity |]. split; [split |].
    + intros _. left. exists error. reflexivity.
    + intros _. reflexivity.
    + intros _. exists []. eexists. reflexivity.
Qed.

Lemma outputFileOf_cases excelFile output :
  (forall outputFile,
      output = Some outputFile -> outputFile <> [] ->
      outputFileOf excelFile output = outputFile)
  /\ (output = None \/ output = Some [] ->
      outputFileOf excelFile output
      = pathJoin (parsedDir excelFile)
          (parsedName excelFile ++ str ".json")).
Proof.
  split.
  - intros outputFile -> Hne. unfold outputFileOf.
    destruct outputFile; [congruence | reflexivity].
  - intros [-> | ->]; reflexivity.
Qed.

Lemma main_writes excelFile output pretty opts events ending :
  main excelFile output pretty opts = Some (events, ending) ->
  (forall data sheets message,
      convertExcelToJson excelFile opts = Converted data sheets message ->
      writesOf events
      = [(outputFileOf excelFile output,
          Some (JSON_stringify (if pretty then Some 2%nat else None) data))])
  /\ ((forall data sheets message,
          convertExcelToJson excelFile opts
          <> Converted data sheets message) ->
      writesOf events = []).
Proof.
  intros Hmain. split.
  - intros data sheets message Hresult. unfold main in Hmain.
    pose proof (convertExcelToJson_shape excelFile opts) as Hshape.
    rewrite Hresult in Hmain, Hshape. destruct Hshape as [Hlist _].
    rewrite Hlist in Hmain. cbn [saveJsonFile dataOf] in Hmain.
    destruct (writeFile (outputFileOf excelFile output)
                (jsonString pretty (Some data))) as [u|failure].
    + destruct (preview_defined _ _ _ _ _ Hresult) as (lines & Hlines & Hw).
      rewrite Hlines in Hmain. injection Hmain as <- _.
      cbn [writesOf flat_map Datatypes.app].
      exact (f_equal (cons _) Hw).
    + injection Hmain as <- _. reflexivity.
  - intros Hnot. unfold main in Hmain.
    pose proof (convertExcelToJson_shape excelFile opts) as Hshape.
    destruct (convertExcelToJson excelFile opts)
      as [sheets msg|data sheets msg|error].
    + rewrite Hshape in Hmain. injection Hmain as <- _.
      cbn [writesOf flat_map Datatypes.app]. apply writesOf_sheetLines.
    + exfalso. exact (Hnot data sheets msg eq_refl).
    + injection Hmain as <- _. reflexivity.
Qed.

(** What the command line writes: nothing when the conversion
    fails or listSheets is set, and otherwise one file, once: the file
    named by [output], or, when [output] is absent or empty, the file with
    the name of the input and the extension [.json] in the directory of the
    input; its text is the JSON of the data, indented by 2 when [pretty]
    is set. *)
Theorem main_writes_once excelFile output pretty opts events ending :
  main excelFile output pretty opts = Some (events, ending) ->
  (forall data sheets message,
      convertExcelToJson excelFile opts = Converted data sheets message ->
      writesOf events
      = [(outputFileOf excelFile output,
          Some (JSON_stringify (if pretty then Some 2%nat else None) data))])
  /\ ((forall data sheets message,
          convertExcelToJson excelFile opts
          <> Converted data sheets message) ->
      writesOf events = [])
  /\ (forall outputFile,
         output = Some outputFile -> outputFile <> [] ->
         outputFileOf excelFile output = outputFile)
  /\ (output = None \/ output = Some [] ->
      outputFileOf excelFile output
      = pathJoin (parsedDir excelFile)
          (parsedName excelFile ++ str ".json")).
Proof.
  intros Hmain.
  destruct (main_writes _ _ _ _ _ _ Hmain) as [Hconverted Hother].
  destruct (outputFileOf_cases excelFile output) as [Hgiven Hderived].
  repeat split; assumption.
Qed.

(** With listSheets the command line prints, for a workbook that
    is read, a heading and one line for each sheet in workbook order,
    numbered from 1, and returns: it writes no file, whatever [output],
    [sheet] and allSheets are, and reads no sheet. *)
Theorem main_list_sheets excelFile output pretty opts wb :
  existsSync excelFile = true ->
  readFile excelFile = Returns wb ->
  listSheets opts = true ->
  exists lines,
    main excelFile output pretty opts
    = Some (ConsoleLog (CLIPBOARD ++ str " Sheets in " ++ [QUOTE]
                        ++ excelFile ++ [QUOTE] ++ str ":") :: lines,
            Returned)
    /\ List.length lines = List.length (SheetNames wb)
    /\ (forall i name,
           nth_error (SheetNames wb) i = Some name ->
           nth_error lines i
           = Some (ConsoleLog (str "   " ++ natToString (i + 1) ++ str ". "
                               ++ name)))
    /\ writesOf lines = [].
Proof.
  intros Hexists Hread Hlist. unfold main, convertExcelToJson.
  rewrite (convertTry_read _ _ _ Hexists Hread).
  unfold convertWorkbook. rewrite Hlist.
  eexists. split; [reflexivity |]. unfold mapi.
  assert (Hlines : forall sheets k,
             List.length (mapiFrom sheetLine k sheets) = List.length sheets
             /\ forall i name,
                 nth_error sheets i = Some name ->
                 nth_error (mapiFrom sheetLine k sheets) i
                 = Some (sheetLine name (k + i))).
  { induction sheets as [|s sheets IH]; intros k.
    - split; [reflexivity |]. intros [|i] name D; discriminate D.
    - destruct (IH (S k)) as [Hlen Hnth]. split.
      + cbn [mapiFrom List.length]. rewrite Hlen. reflexivity.
      + intros [|i] name Hi; cbn [mapiFrom nth_error] in *.
        * injection Hi as ->. rewrite Nat.add_0_r. reflexivity.
        * rewrite (Hnth i name Hi). rewrite Nat.add_succ_comm. reflexivity. }
  destruct (Hlines (SheetNames wb) 0%nat) as [Hlen Hnth].
  split; [exact Hlen |]. split; [| apply writesOf_sheetLines].
  intros i name Hi. rewrite (Hnth i name Hi). reflexivity.
Qed.

(** For the same input, options and output file, [quickConvert]
    and the command line pass the same path and the same text to the file
    system, when listSheets is not set. *)
Theorem quickConvert_writes_like_main
    excelFile (outputPath : jsstring) pretty opts events ending :
  outputPath <> [] ->
  listSheets opts = false ->
  main excelFile (Some outputPath) pretty opts = Some (events, ending) ->
  writesOf (fst (quickConvert excelFile (Some outputPath) pretty opts))
  = writesOf events.
Proof.
  intros Hne Hlist Hmain.
  destruct (main_writes _ _ _ _ _ _ Hmain) as [Hconverted Hother].
  rewrite (proj1 (outputFileOf_cases excelFile (Some outputPath))
             outputPath eq_refl Hne) in Hconverted.
  unfold quickConvert.
  pose proof (convertExcelToJson_shape excelFile opts) as Hshape.
  destruct (convertExcelToJson excelFile opts)
    as [sheets msg|data sheets msg|error] eqn:Hresult.
  - rewrite Hlist in Hshape. discriminate Hshape.
  - rewrite (Hconverted data sheets msg eq_refl).
    destruct outputPath; [congruence | reflexivity].
  - rewrite Hother; [reflexivity |]. intros data sheets msg D. discriminate D.
Qed.

(** [quickConvert] does not list sheets: when listSheets is set
    and the workbook is read, it returns [undefined] if no output file is
    given, and otherwise hands [undefined], not a text, to
    [fs.writeFileSync]; the sheet names do not reach the caller. *)
Theorem quickConvert_list_sheets
    excelFile (outputFile : option jsstring) pretty opts wb :
  existsSync excelFile = true ->
  readFile excelFile = Returns wb ->
  listSheets opts = true ->
  (outputFile = None \/ outputFile = Some [] ->
   quickConvert excelFile outputFile pretty opts
   = ([], inr (QuickData None)))
  /\ (forall outputPath,
         outputFile = Some outputPath -> outputPath <> [] ->
         fst (quickConvert excelFile outputFile pretty opts)
         = [FileWrite outputPath None]).
Proof.
  intros Hexists Hread Hlist. unfold quickConvert, convertExcelToJson.
  rewrite (convertTry_read _ _ _ Hexists Hread).
  unfold convertWorkbook. rewrite Hlist. split.
  - intros [-> | ->]; reflexivity.
  - intros outputPath -> Hne.
    destruct outputPath; [congruence | reflexivity].
Qed.

(** What the command line reports after writing the file: the
    line of the sheets processed names every sheet of the workbook, also
    when one sheet was converted; without allSheets the last line gives the
    number of output rows, and with allSheets there is one line for each
    entry of the data. *)
Theorem main_success_report
    excelFile output (pretty : bool) opts data sheets message u :
  convertExcelToJson excelFile opts = Converted data sheets message ->
  writeFile (outputFileOf excelFile output)
    (Some (JSON_stringify (if pretty then Some 2%nat else None) data))
  = Returns u ->
  exists lines,
    main excelFile output pretty opts
    = Some ([ FileWrite (outputFileOf excelFile output)
                (Some (JSON_stringify (if pretty then Some 2%nat else None)
                         data));
              ConsoleLog (CHECK ++ str " Success!");
              ConsoleLog (FOLDER ++ str " Input: " ++ excelFile);
              ConsoleLog (PAGE ++ str " Output: "
                          ++ outputFileOf excelFile output);
              ConsoleLog (CHART ++ str " Sheets processed: "
                          ++ join (str ", ") sheets) ] ++ lines,
            Returned)
    /\ (forall wb, readFile excelFile = Returns wb -> sheets = SheetNames wb)
    /\ (allSheets opts = false ->
        exists rows,
          data = SheetRows rows
          /\ lines = [ConsoleLog (TREND ++ str " Rows: "
                                  ++ natToString (List.length rows))])
    /\ (allSheets opts = true ->
        exists bySheet,
          data = SheetMap bySheet
          /\ List.length lines = List.length (keys bySheet)).
Proof.
  intros Hresult Hwrite.
  pose proof (convertExcelToJson_shape excelFile opts) as Hshape.
  rewrite Hresult in Hshape. destruct Hshape as [Hlist Hshape].
  assert (Hsheets : forall wb,
             readFile excelFile = Returns wb -> sheets = SheetNames wb).
  { intros wb Hread. revert Hresult. unfold convertExcelToJson, convertTry.
    destruct (negb (existsSync excelFile)); [discriminate |].
    rewrite Hread. cbn [library bind]. unfold convertWorkbook.
    rewrite Hlist.
    match goal with
    | |- context [bind ?c _] => destruct c; cbn [bind]
    end; intros H; [injection H as _ <- _; reflexivity | discriminate H]. }
  assert (Hlines : exists lines,
             preview (allSheets opts) (Some data) = Some lines
             /\ (allSheets opts = false ->
                 exists rows,
                   data = SheetRows rows
                   /\ lines = [ConsoleLog
                                 (TREND ++ str " Rows: "
                                  ++ natToString (List.length rows))])
             /\ (allSheets opts = true ->
                 exists bySheet,
                   data = SheetMap bySheet
                   /\ List.length lines = List.length (keys bySheet))).
  { unfold preview. destruct (allSheets opts).
    - destruct Hshape as (bySheet & ->).
      destruct (previewLines_defined bySheet (keys bySheet) (fun _ Hn => Hn))
        as (lines & Hlines & _ & Hlen).
      exists lines. split; [exact Hlines |].
      split; [intros D; discriminate D |].
      intros _. exists bySheet. split; [reflexivity | exact Hlen].
    - destruct Hshape as (rows & ->). eexists. split; [reflexivity |].
      split; [| intros D; discriminate D].
      intros _. exists rows. split; reflexivity. }
  destruct Hlines as (lines & Hpreview & Hsingle & Hall).
  exists lines. split; [| split; [exact Hsheets | split; assumption]].
  unfold main. rewrite Hresult, Hlist. cbn [saveJsonFile dataOf].
  unfold jsonString. cbn [option_map]. rewrite Hwrite, Hpreview.
  reflexivity.
Qed.

End Program.

(* ================================================================= *)
(** ** The program on the sample inputs *)

(** The case conversions are the ASCII ones, Numbers are integers, every
    file exists and holds the workbook named. *)
Abbreviation sampleProcess :=
  (processSheetData asciiLower asciiUpper Z Z.of_nat).
Abbreviation sampleConvert wb :=
  (convertExcelToJson asciiLower asciiUpper Z Z.of_nat (list sampleRow) unit
     (fun _ => true) (fun _ => Returns wb) sampleSheetToJson
     (str "book.xlsx")).
Abbreviation sampleTry wb :=
  (convertTry asciiLower asciiUpper Z Z.of_nat (list sampleRow) unit
     (fun _ => true) (fun _ => Returns wb) sampleSheetToJson
     (str "book.xlsx")).
Abbreviation sampleKey := (cleanKeyOf asciiLower asciiUpper).

(** The end-to-end scenario of the specification: the row of nulls is
    dropped and the two others are numbered 0 and 1. *)
Example end_to_end_scenario :
  sampleProcess (Some sampleRows) true true
  = Normal
      [ [ (str "id", VNumber 0%Z);
          (str "premiuTurneu", text "Premium Gold");
          (str "phone", text "1234567890");
          (str "cash", VNumber 500%Z);
          (str "tesla", text "Model 3") ];
        [ (str "id", VNumber 1%Z);
          (str "premiuTurneu", text "Basic Silver");
          (str "phone", text "9876543210");
          (str "cash", VNumber 200%Z);
          (str "tesla", text "Model Y") ] ].
Proof. vm_compute. reflexivity. Qed.

(** C1 on the sample rows: two rows are retained and numbered. *)
Lemma sequential_ids_witness :
  exists out,
    sampleProcess (Some sampleRows) true true = Normal out
    /\ List.length out = 2%nat.
Proof.
  destruct (proj1 (sequential_ids asciiLower asciiUpper Z Z.of_nat
                     (list sampleRow) unit sampleSheetToJson)
              sampleRows true eq_refl) as (out & Hout & Hlen & _).
  exists out. split; [exact Hout | exact Hlen].
Defined.

(** C1 as stated fails: a column headed ID takes the place of the number
    (the [id] of the row at position 0 is "x7"), and a column headed 2024
    comes before [id] among the keys. *)
Lemma sequential_ids_counterexample :
  sampleProcess (Some idColumnRows) true true
  = Normal [ [ (str "id", text "x7"); (str "name", text "Ann") ] ]
  /\ text "x7" <> VNumber (Z.of_nat 0)
  /\ sampleProcess (Some yearColumnRows) true true
     = Normal [ [ (str "2024", VNumber 5%Z); (str "id", VNumber 0%Z);
                  (str "name", text "Ann") ] ]
  /\ str "2024" <> str "id".
Proof.
  split; [vm_compute; reflexivity|]. split; [discriminate|].
  split; [vm_compute; reflexivity | discriminate].
Qed.

(** C2 on the workbook without sheets, no sheet asked for. *)
Lemma empty_workbook_witness :
  sampleConvert emptyWorkbook (sampleOptions None false)
  = Failed (str "Sheet " ++ [QUOTE] ++ str "undefined" ++ [QUOTE]
            ++ str " not found. Available sheets: ")
  /\ sampleConvert emptyWorkbook (sampleOptions None true)
     = Converted (SheetMap []) [] (str "Conversion successful").
Proof.
  split.
  - exact (proj1 (proj2 (proj1
             (empty_workbook asciiLower asciiUpper Z Z.of_nat
                (list sampleRow) unit (fun _ => true)
                (fun _ => Returns emptyWorkbook) sampleSheetToJson
                (str "book.xlsx") (sampleOptions None false) emptyWorkbook
                eq_refl eq_refl eq_refl eq_refl) eq_refl))).
  - exact (proj2
             (empty_workbook asciiLower asciiUpper Z Z.of_nat
                (list sampleRow) unit (fun _ => true)
                (fun _ => Returns emptyWorkbook) sampleSheetToJson
                (str "book.xlsx") (sampleOptions None true) emptyWorkbook
                eq_refl eq_refl eq_refl eq_refl) eq_refl).
Defined.

(** C2 as stated fails: in all-sheets mode the conversion of a workbook
    without sheets succeeds, with an empty mapping. *)
Lemma empty_workbook_counterexample :
  SheetNames emptyWorkbook = []
  /\ sampleConvert emptyWorkbook (sampleOptions None true)
     = Converted (SheetMap []) [] (str "Conversion successful").
Proof. split; reflexivity. Qed.

(** C3 on the sample rows. *)
Lemma processSheetData_filters_empty_rows_witness :
  exists out, sampleProcess (Some sampleRows) true true = Normal out.
Proof.
  destruct (processSheetData_filters_empty_rows asciiLower asciiUpper Z
              Z.of_nat sampleRows true true)
    as (_ & _ & _ & _ & _ & Htotal & _).
  exact (Htotal eq_refl).
Defined.

(** C4 with the ASCII case conversions. *)
Lemma toCamelCase_normalization_witness :
  sampleKey true (str "premiu turneu") = str "premiuTurneu"
  /\ sampleKey true (str "First Name") = str "firstName".
Proof.
  destruct (toCamelCase_normalization asciiLower asciiUpper)
    as (_ & _ & _ & Hexamples).
  destruct (Hexamples (fun s _ => eq_refl) (fun s _ => eq_refl))
    as (H1 & H2 & _).
  split; [exact H1 | exact H2].
Defined.

(** C5 on the sample workbook: the sheet Q1 is asked for. *)
Lemma single_sheet_selection_witness :
  sampleConvert sampleWorkbook (sampleOptions (Some (str "Q1")) false)
  = Failed (str "Sheet " ++ [QUOTE] ++ str "Q1" ++ [QUOTE]
            ++ str " not found. Available sheets: Sales, Summary").
Proof.
  destruct (single_sheet_selection asciiLower asciiUpper Z Z.of_nat
              (list sampleRow) unit (fun _ => true)
              (fun _ => Returns sampleWorkbook) sampleSheetToJson
              (str "book.xlsx") (sampleOptions (Some (str "Q1")) false)
              sampleWorkbook eq_refl eq_refl eq_refl eq_refl)
    as (_ & _ & _ & _ & Hmissing & _).
  exact (proj2 (Hmissing eq_refl)).
Defined.

(** C5 as stated fails in both directions: the empty string asked for is
    not a sheet name, and the first sheet is converted; nothing is asked for
    of a workbook without sheets, and the sheet-not-found error is thrown. *)
Lemma single_sheet_selection_counterexample :
  (sheet (sampleOptions (Some []) false) = Some []
   /\ ~ In [] (SheetNames sampleWorkbook)
   /\ exists rows,
       sampleConvert sampleWorkbook (sampleOptions (Some []) false)
       = Converted (SheetRows rows) (SheetNames sampleWorkbook)
           (str "Conversion successful"))
  /\ (sheet (sampleOptions None false) = None
      /\ sampleTry emptyWorkbook (sampleOptions None false)
         = Throw (SheetNotFound None [])).
Proof.
  split; [split; [reflexivity | split] | split; reflexivity].
  - simpl. intros [H | [H | []]]; discriminate.
  - eexists. vm_compute. reflexivity.
Qed.

(** C6 on 2024-03-15T12:30:45.123Z. *)
Lemma coerceValue_cases_witness :
  coerceValue Z (VDate (Some sampleTime)) = Normal (text "2024-03-15").
Proof.
  destruct (coerceValue_cases Z) as (Hdate & _).
  destruct (Hdate sampleTime) as (H & _).
  - vm_compute. split; discriminate.
  - exact H.
Defined.

(** C6 as stated fails: the first instant of the year 10000 is a valid
    time value, and its coercion is not of the shape YYYY-MM-DD; an invalid
    Date makes the coercion throw. *)
Lemma coerceValue_cases_counterexample :
  coerceValue Z (VDate (Some year10000))
  = Normal (VString (str "+010000-01-01"))
  /\ isYMD (str "+010000-01-01") = false
  /\ coerceValue Z (VDate None) = Throw InvalidTimeValue.
Proof.
  split; [vm_compute; reflexivity|]. split; reflexivity.
Qed.

(** C7 on a row with a header of separators only. *)
Lemma empty_clean_key_is_dropped_witness :
  sampleKey true (str " - ") = []
  /\ assignKey asciiLower asciiUpper Z true
       [ (str " - ", text "x") ] emptyLiteral (str " - ")
     = Normal emptyLiteral.
Proof.
  split; [reflexivity|].
  exact (proj1 (empty_clean_key_is_dropped asciiLower asciiUpper Z Z.of_nat)
           true [ (str " - ", text "x") ] emptyLiteral (str " - ") eq_refl).
Defined.

(** C6. Line 155 takes the part of the ISO string before the T, and its
    comment calls that YYYY-MM-DD.  For a Date of the years 0 to 9999 it is
    so.  For the first instant of the year 10000 the output row holds
    "+010000-01-01", which is not of that form: [toISOString] writes such a
    year with a sign and six digits.  For an invalid Date [toISOString]
    throws, and [processSheetData] with it: nothing guards the call. *)
Theorem coerceValue_date_not_ymd :
  coerceValue Z (VDate (Some sampleTime)) = Normal (text "2024-03-15")
  /\ isYMD (str "2024-03-15") = true
  /\ sampleProcess (Some [lateDateRow]) true true
     = Normal [ [ (str "id", VNumber 0%Z);
                  (str "when", text "+010000-01-01") ] ]
  /\ isYMD (str "+010000-01-01") = false
  /\ keepRow Z invalidDateRow = true
  /\ sampleProcess (Some [invalidDateRow]) true true
     = Throw InvalidTimeValue.
Proof. repeat split; vm_compute; reflexivity. Qed.

(** C8. In passthrough mode the two headers of [protoRow] normalize to
    the same clean key, [__proto__], and the output row holds neither cell:
    it has no such key.  On the empty object of line 130 the assignment of
    line 162 to [__proto__] runs the setter inherited from
    [Object.prototype], which ignores a string. *)
Theorem key_collision_proto :
  sampleKey false (str " __proto__") = PROTO
  /\ sampleKey false (str "__proto__ ") = PROTO
  /\ coerceValue Z (get Z protoRow (str "__proto__ ")) = Normal (text "b")
  /\ sampleProcess (Some [protoRow]) true false
     = Normal [ [ (str "id", VNumber 0%Z); (str "name", text "Ann") ] ]
  /\ objGet [ (str "id", VNumber 0%Z); (str "name", text "Ann") ] PROTO
     = None.
Proof. repeat split; vm_compute; reflexivity. Qed.

(** Last write wins on the row with the headers First Name and
    first_name. *)
Lemma key_collision_last_write_wins_witness :
  exists o,
    cleanRowOf asciiLower asciiUpper Z Z.of_nat false true collisionRow 0
    = Normal o
    /\ objGet o (str "firstName") = Some (text "b").
Proof.
  destruct (key_collision_last_write_wins asciiLower asciiUpper Z Z.of_nat
              false true collisionRow 0 [] (str "First Name") []
              (str "first_name") [])
    as (o & v & Ho & Hv & Hget & _).
  - reflexivity.
  - reflexivity.
  - discriminate.
  - discriminate.
  - intros k [].
  - reflexivity.
  - exists o. split; [exact Ho|].
    vm_compute in Hv. injection Hv as <-. exact Hget.
Defined.

(** C9 on the example of the specification. *)
Lemma passthrough_normalization_witness :
  sampleKey false (str "  First   Name ") = str "First Name".
Proof.
  rewrite (proj1 (passthrough_normalization asciiLower asciiUpper)
             (str "  First   Name ") [str "First"; str "Name"]).
  - reflexivity.
  - apply Tokens_unique. vm_compute. reflexivity.
Defined.

(** C10 on the sheet with a column headed ID. *)
Lemma id_column_overrides_position_witness :
  exists out o,
    sampleProcess (Some idColumnRows) true true = Normal out
    /\ nth_error out 0 = Some o
    /\ objGet o (str "id") = Some (text "x7").
Proof.
  destruct (id_column_overrides_position asciiLower asciiUpper Z Z.of_nat
              idColumnRows true 0
              [ (str "ID", text "x7"); (str "name", text "Ann") ]
              [] (str "ID") [str "name"])
    as (out & o & v & Hout & Ho & _ & Hv & Hget & _).
  - reflexivity.
  - reflexivity.
  - reflexivity.
  - reflexivity.
  - intros k [<- | []]. vm_compute. discriminate.
  - exists out, o. split; [exact Hout|]. split; [exact Ho|].
    vm_compute in Hv. injection Hv as <-. exact Hget.
Defined.

(* ================================================================= *)
(** ** The further properties on the sample inputs *)

Abbreviation sampleMain wb :=
  (main asciiLower asciiUpper Z Z.of_nat (list sampleRow) unit
     (fun _ => true) (fun _ => Returns wb) sampleSheetToJson
     sampleStringify sampleWrite sampleDir sampleName sampleJoin
     (str "book.xlsx")).
Abbreviation sampleQuick wb :=
  (quickConvert asciiLower asciiUpper Z Z.of_nat (list sampleRow) unit
     (fun _ => true) (fun _ => Returns wb) sampleSheetToJson
     sampleStringify sampleWrite (str "book.xlsx")).
Abbreviation sampleOutputFile :=
  (outputFileOf sampleDir sampleName sampleJoin (str "book.xlsx")).

(** The run of the command line on the sample workbook, with the output
    file [out.json]. *)
Abbreviation sampleEvents :=
  ([ FileWrite (str "out.json") (Some (str "[...]"));
    ConsoleLog (CHECK ++ str " Success!");
    ConsoleLog (FOLDER ++ str " Input: book.xlsx");
    ConsoleLog (PAGE ++ str " Output: out.json");
    ConsoleLog (CHART ++ str " Sheets processed: Sales, Summary");
    ConsoleLog (TREND ++ str " Rows: 2") ]).

(** The ASCII case conversions erase no word and make no separator. *)
Lemma asciiLower_nonEmpty w : w <> [] -> asciiLower w <> [].
Proof. destruct w; [congruence | discriminate]. Qed.

Ltac not_separator :=
  unfold notSeparator, isSeparator, isWhiteSpace;
  rewrite negb_true_iff, !orb_false_iff, !andb_false_iff,
    !N.eqb_neq, !N.leb_gt;
  lia.

Lemma asciiLower_notSeparator w :
  forallb notSeparator w = true -> forallb notSeparator (asciiLower w) = true.
Proof.
  induction w as [|c w IH]; [reflexivity |].
  cbn [forallb asciiLower map]. intros H. apply andb_prop in H.
  destruct H as [Hc Hw]. fold (asciiLower w). rewrite (IH Hw), andb_true_r.
  destruct ((65 <=? c) && (c <=? 90)) eqn:Hcase; [| exact Hc].
  apply andb_prop in Hcase. destruct Hcase as [H1 H2].
  apply N.leb_le in H1, H2. not_separator.
Qed.

Lemma asciiUpper_notSeparator w :
  forallb notSeparator w = true -> forallb notSeparator (asciiUpper w) = true.
Proof.
  induction w as [|c w IH]; [reflexivity |].
  cbn [forallb asciiUpper map]. intros H. apply andb_prop in H.
  destruct H as [Hc Hw]. fold (asciiUpper w). rewrite (IH Hw), andb_true_r.
  destruct ((97 <=? c) && (c <=? 122)) eqn:Hcase; [| exact Hc].
  apply andb_prop in Hcase. destruct Hcase as [H1 H2].
  apply N.leb_le in H1, H2. not_separator.
Qed.

(** A header of separators only has the empty clean key. *)
Lemma empty_clean_key_characterized_witness : sampleKey true (str " _-. ") = [].
Proof.
  apply (proj2 (empty_clean_key_characterized asciiLower asciiUpper true
                  (str " _-. ") asciiLower_nonEmpty)).
  reflexivity.
Defined.

(** The key of the header user_email, with the ASCII case conversions. *)
Lemma camelCase_key_has_no_separator_witness :
  forallb notSeparator (sampleKey true (str "user_email")) = true
  /\ sampleKey true (str "user_email") <> PROTO
  /\ sampleKey false (sampleKey true (str "user_email"))
     = sampleKey true (str "user_email").
Proof.
  exact (camelCase_key_has_no_separator asciiLower asciiUpper
           (str "user_email") asciiLower_notSeparator asciiUpper_notSeparator).
Defined.

(** A cell of the first output row of the scenario. *)
Lemma output_cells_plain_witness :
  isPlain Z (text "Premium Gold") = true
  /\ coerceValue Z (text "Premium Gold") = Normal (text "Premium Gold").
Proof.
  refine (output_cells_plain asciiLower asciiUpper Z Z.of_nat
            (Some sampleRows) true true sampleCleanRows
            (hd [] sampleCleanRows) (text "Premium Gold") _ _ _).
  - vm_compute. reflexivity.
  - left. reflexivity.
  - right. left. reflexivity.
Defined.

(** The keys of the output row of the sheet with a column headed ID. *)
Lemma output_keys_exact_witness :
  NoDup (keys (hd [] idCleanRows))
  /\ In (str "name") (keys (hd [] idCleanRows)).
Proof.
  destruct (output_keys_exact asciiLower asciiUpper Z Z.of_nat
              idColumnRows true true idCleanRows 0 (hd [] idColumnRows)
              (hd [] idCleanRows) eq_refl eq_refl eq_refl)
    as (Hnodup & _ & _ & Hkeys).
  split; [exact Hnodup |].
  apply (Hkeys (str "name")).
  - right. left. reflexivity.
  - vm_compute. discriminate.
  - vm_compute. discriminate.
Defined.

(** The key order of the first output row of the scenario. *)
Lemma output_key_order_witness :
  keys (hd [] sampleCleanRows)
  = firstOccurrences
      ([str "id"]
       ++ filter nonEmpty (map (sampleKey true) (keys (hd [] sampleRows)))).
Proof.
  refine (proj2 (proj2 (output_key_order asciiLower asciiUpper Z Z.of_nat
                          sampleRows true true sampleCleanRows 0
                          (hd [] sampleRows) (hd [] sampleCleanRows)
                          _ eq_refl eq_refl _)) _).
  - vm_compute. reflexivity.
  - intros key [<- | [<- | [<- | [<- | []]]]]; vm_compute; discriminate.
  - intros key [<- | [<- | [<- | [<- | []]]]]; vm_compute; reflexivity.
Defined.

(** The first sample row alone, and the three of them. *)
Lemma processSheetData_prefix_witness :
  exists out1 out2,
    sampleCleanRows = out1 ++ out2
    /\ sampleProcess (Some (firstn 1 sampleRows)) true true = Normal out1
    /\ List.length out2 = 1%nat.
Proof.
  refine (processSheetData_prefix asciiLower asciiUpper Z Z.of_nat
            (firstn 1 sampleRows) (skipn 1 sampleRows) true true
            sampleCleanRows _).
  vm_compute. reflexivity.
Defined.

(** The sheet with a column headed ID followed by the one with a column
    headed 2024, without ids. *)
Lemma processSheetData_concat_witness :
  sampleProcess (Some (idColumnRows ++ yearColumnRows)) false true
  = Normal (idCleanRows
            ++ [ [ (str "2024", VNumber 5%Z); (str "name", text "Ann") ] ]).
Proof.
  apply (processSheetData_concat asciiLower asciiUpper Z Z.of_nat);
    vm_compute; reflexivity.
Defined.

(** Without ids, the sample rows give the rows of the scenario without
    their ids. *)
Lemma noId_removes_id_witness :
  sampleProcess (Some sampleRows) false true
  = Normal (map (withoutId Z) sampleCleanRows).
Proof.
  apply (noId_removes_id asciiLower asciiUpper Z Z.of_nat).
  - vm_compute. reflexivity.
  - intros r key [<- | [<- | [<- | []]]] _ [<- | [<- | [<- | [<- | []]]]];
      vm_compute; discriminate.
Defined.

(** A file that does not exist: the one failure is the first. *)
Lemma conversion_failures_witness :
  convertExcelToJson asciiLower asciiUpper Z Z.of_nat (list sampleRow) unit
    (fun _ => false) (fun _ => Returns sampleWorkbook) sampleSheetToJson
    (str "gone.xlsx") (sampleOptions None false)
  = Failed (str "File not found: gone.xlsx")
  /\ str "File not found: gone.xlsx" = str "File not found: " ++ str "gone.xlsx".
Proof.
  split; [reflexivity |].
  destruct (conversion_failures asciiLower asciiUpper Z Z.of_nat
              (list sampleRow) unit (fun _ => false)
              (fun _ => Returns sampleWorkbook) sampleSheetToJson
              (str "gone.xlsx") (sampleOptions None false)
              (str "File not found: gone.xlsx") eq_refl)
    as [[_ E] | [[D _] | (wb & D & _)]];
    [exact E | discriminate D | discriminate D].
Defined.

(** Both sheets of the sample workbook convert. *)
Lemma all_sheets_all_or_nothing_witness :
  exists bySheet,
    sampleConvert sampleWorkbook (sampleOptions None true)
    = Converted (SheetMap bySheet) [str "Sales"; str "Summary"]
        (str "Conversion successful").
Proof.
  apply (proj2 (proj1 (all_sheets_all_or_nothing asciiLower asciiUpper Z
                         Z.of_nat (list sampleRow) unit (fun _ => true)
                         (fun _ => Returns sampleWorkbook) sampleSheetToJson
                         (str "book.xlsx") (sampleOptions None true)
                         sampleWorkbook eq_refl eq_refl eq_refl eq_refl))).
  intros name [<- | [<- | []]]; eexists; vm_compute; reflexivity.
Defined.

(** The entry of the sheet Summary and its conversion alone. *)
Lemma all_sheets_entries_witness :
  sampleConvert sampleWorkbook
    (selectSheet unit (sampleOptions None true) (str "Summary"))
  = Converted (SheetRows idCleanRows) [str "Sales"; str "Summary"]
      (str "Conversion successful").
Proof.
  refine (proj2 (proj2 (all_sheets_entries asciiLower asciiUpper Z Z.of_nat
                          (list sampleRow) unit (fun _ => true)
                          (fun _ => Returns sampleWorkbook) sampleSheetToJson
                          (str "book.xlsx") (sampleOptions None true)
                          sampleWorkbook sampleBySheet
                          [str "Sales"; str "Summary"]
                          (str "Conversion successful")
                          eq_refl eq_refl eq_refl eq_refl _))
            (str "Summary") idCleanRows _ _).
  - vm_compute. reflexivity.
  - discriminate.
  - reflexivity.
Defined.

(** The one write of the run on the sample workbook. *)
Lemma main_writes_once_witness :
  sampleMain sampleWorkbook (Some (str "out.json")) false
    (sampleOptions None false)
  = Some (sampleEvents, Returned)
  /\ writesOf sampleEvents = [(str "out.json", Some (str "[...]"))].
Proof.
  assert (Hmain : sampleMain sampleWorkbook (Some (str "out.json")) false
                    (sampleOptions None false)
                  = Some (sampleEvents, Returned))
    by (vm_compute; reflexivity).
  split; [exact Hmain |].
  refine (proj1 (main_writes_once asciiLower asciiUpper Z Z.of_nat
                   (list sampleRow) unit (fun _ => true)
                   (fun _ => Returns sampleWorkbook) sampleSheetToJson
                   sampleStringify sampleWrite sampleDir sampleName
                   sampleJoin (str "book.xlsx") (Some (str "out.json")) false
                   (sampleOptions None false) sampleEvents Returned Hmain)
            (SheetRows sampleCleanRows) [str "Sales"; str "Summary"]
            (str "Conversion successful") _).
  vm_compute. reflexivity.
Defined.

(** The two sheets of the sample workbook listed. *)
Lemma main_list_sheets_witness :
  exists lines,
    sampleMain sampleWorkbook None false sampleListOptions
    = Some (ConsoleLog (CLIPBOARD ++ str " Sheets in " ++ [QUOTE]
                        ++ str "book.xlsx" ++ [QUOTE] ++ str ":") :: lines,
            Returned)
    /\ List.length lines = 2%nat.
Proof.
  destruct (main_list_sheets asciiLower asciiUpper Z Z.of_nat
              (list sampleRow) unit (fun _ => true)
              (fun _ => Returns sampleWorkbook) sampleSheetToJson
              sampleStringify sampleWrite sampleDir sampleName sampleJoin
              (str "book.xlsx") None false sampleListOptions sampleWorkbook
              eq_refl eq_refl eq_refl)
    as (lines & Hmain & Hlen & _).
  exists lines. split; [exact Hmain | exact Hlen].
Defined.

(** The report of the run on the sample workbook, the output file derived
    from the input. *)
Lemma main_success_report_witness :
  exists lines,
    sampleMain sampleWorkbook None false (sampleOptions None false)
    = Some ([ FileWrite (sampleOutputFile None) (Some (str "[...]"));
              ConsoleLog (CHECK ++ str " Success!");
              ConsoleLog (FOLDER ++ str " Input: " ++ str "book.xlsx");
              ConsoleLog (PAGE ++ str " Output: " ++ sampleOutputFile None);
              ConsoleLog (CHART ++ str " Sheets processed: "
                          ++ join (str ", ") [str "Sales"; str "Summary"]) ]
            ++ lines,
            Returned).
Proof.
  destruct (main_success_report asciiLower asciiUpper Z Z.of_nat
              (list sampleRow) unit (fun _ => true)
              (fun _ => Returns sampleWorkbook) sampleSheetToJson
              sampleStringify sampleWrite sampleDir sampleName sampleJoin
              (str "book.xlsx") None false (sampleOptions None false)
              (SheetRows sampleCleanRows) [str "Sales"; str "Summary"]
              (str "Conversion successful") tt)
    as (lines & Hmain & _).
  - vm_compute. reflexivity.
  - reflexivity.
  - exists lines. exact Hmain.
Defined.

(** [quickConvert] and the command line on the sample workbook. *)
Lemma quickConvert_writes_like_main_witness :
  writesOf (fst (sampleQuick sampleWorkbook (Some (str "out.json")) false
                   (sampleOptions None false)))
  = writesOf sampleEvents.
Proof.
  refine (quickConvert_writes_like_main asciiLower asciiUpper Z Z.of_nat
            (list sampleRow) unit (fun _ => true)
            (fun _ => Returns sampleWorkbook) sampleSheetToJson
            sampleStringify sampleWrite sampleWrite sampleDir sampleName
            sampleJoin (str "book.xlsx") (str "out.json") false
            (sampleOptions None false) sampleEvents Returned _ eq_refl _).
  - discriminate.
  - vm_compute. reflexivity.
Defined.

(** [quickConvert] asked to list the sheets of the sample workbook. *)
Lemma quickConvert_list_sheets_witness :
  sampleQuick sampleWorkbook None false sampleListOptions
  = ([], inr (QuickData Z None)).
Proof.
  exact (proj1 (quickConvert_list_sheets asciiLower asciiUpper Z Z.of_nat
                  (list sampleRow) unit (fun _ => true)
                  (fun _ => Returns sampleWorkbook) sampleSheetToJson
                  sampleStringify sampleWrite (str "book.xlsx") None false
                  sampleListOptions sampleWorkbook eq_refl eq_refl eq_refl)
           (or_introl eq_refl)).
Defined.
